(** * RASP native detection engine: model and verified properties

    A shallow embedding of [raspmodule/src/main/cpp/native-lib.cpp] and
    [raspmodule/src/main/cpp/native-obfuscator.cpp].

    Part I gives the model: the fragment of the C library the detectors
    call, the kernel interface they talk to, and then the detectors
    themselves, one definition per source function.  Part II states and
    proves the properties. *)

From Stdlib Require Import ZArith NArith List Bool Lia.
From Stdlib Require Import Strings.String Strings.Ascii Strings.Byte.
From Stdlib Require Import Numbers.DecimalString Numbers.DecimalN Numbers.DecimalPos.
Import ListNotations.

Local Open Scope string_scope.
Local Open Scope Z_scope.

(* ================================================================= *)
(** * Part I: the model *)
(* ================================================================= *)

(** JNI booleans. *)
Definition jboolean := bool.
Definition JNI_TRUE : jboolean := true.
Definition JNI_FALSE : jboolean := false.

(** ** Fixed-width integers *)

Module Int.

Definition INT_MAX : Z := 2147483647.
Definition INT_MIN : Z := -2147483648.
Definition LONG_MAX : Z := 9223372036854775807.
Definition LONG_MIN : Z := -9223372036854775808.

(** Conversion to a 32-bit [int]: the low 32 bits, read as two's
    complement. *)
Definition to_int (z : Z) : Z :=
  let m := z mod 4294967296 in
  if m <=? INT_MAX then m else m - 4294967296.

(** [x++] on an [int], with the wrap-around of the hardware. *)
Definition incr (x : Z) : Z := to_int (x + 1).

(** Unsigned conversions. *)
Definition to_uint32 (n : N) : N := (n mod 4294967296)%N.
Definition to_size_t (n : N) : N := (n mod 18446744073709551616)%N.

(** Conversion to [uint8_t]. *)
Definition to_uint8 (n : N) : byte :=
  match Byte.of_N (n mod 256)%N with
  | Some b => b
  | None => x00
  end.

End Int.

(** ** The C library fragment used by the detectors *)

Module CLib.

Definition NUL : ascii := "000"%char.
Definition newline : ascii := "010"%char.

(** The C string held by a buffer: the characters before the first NUL. *)
Fixpoint c_str (buf : string) : string :=
  match buf with
  | EmptyString => EmptyString
  | String c rest => if Ascii.eqb c NUL then EmptyString else String c (c_str rest)
  end.

(** One [fgets(buf, size, fp)] on the unread part of a stream: at most
    [room = size - 1] characters are stored, reading stops after a
    newline.  Returns the buffer and the rest of the stream. *)
Fixpoint fgets_read (room : nat) (stream : string) : string * string :=
  match room, stream with
  | S room', String c rest =>
      if Ascii.eqb c newline then (String c EmptyString, rest)
      else let (buf, rest') := fgets_read room' rest in (String c buf, rest')
  | _, _ => (EmptyString, stream)
  end.

(** [fgets] returns NULL at end of file. *)
Definition fgets (size : nat) (stream : string) : option (string * string) :=
  match stream with
  | EmptyString => None
  | _ => Some (fgets_read (size - 1) stream)
  end.

(** The successive values of [line] in
    [while (fgets(line, sizeof(line), fp)) ...], as the string functions
    see them.  Every successful [fgets] consumes a character, so the
    length of the stream bounds the number of iterations. *)
Fixpoint read_lines_fuel (fuel : nat) (size : nat) (stream : string) : list string :=
  match fuel with
  | O => []
  | S fuel' =>
      match fgets size stream with
      | None => []
      | Some (buf, rest) => c_str buf :: read_lines_fuel fuel' size rest
      end
  end.

Definition read_lines (size : nat) (stream : string) : list string :=
  read_lines_fuel (String.length stream) size stream.

(** [strstr(haystack, needle) != NULL]. *)
Fixpoint strstr (haystack needle : string) : bool :=
  String.prefix needle haystack ||
  match haystack with
  | EmptyString => false
  | String _ rest => strstr rest needle
  end.

Definition uchar (c : ascii) : Z := Z.of_N (N_of_ascii c).

(** [strncmp(s1, s2, n)]: difference of the first differing characters
    among the first [n], zero when there is none. *)
Fixpoint strncmp (s1 s2 : string) (n : nat) {struct n} : Z :=
  match n with
  | O => 0
  | S n' =>
      match s1, s2 with
      | EmptyString, EmptyString => 0
      | EmptyString, String c2 _ => - uchar c2
      | String c1 _, EmptyString => uchar c1
      | String c1 r1, String c2 r2 =>
          if Ascii.eqb c1 c2 then strncmp r1 r2 n' else uchar c1 - uchar c2
      end
  end.

(** Pointer arithmetic [s + n] inside a string. *)
Fixpoint advance (n : nat) (s : string) : string :=
  match n, s with
  | S n', String _ rest => advance n' rest
  | _, _ => s
  end.

Definition isspace (c : ascii) : bool :=
  let n := N_of_ascii c in
  (n =? 32)%N || ((9 <=? n)%N && (n <=? 13)%N).

Definition isdigit (c : ascii) : bool :=
  let n := N_of_ascii c in
  (48 <=? n)%N && (n <=? 57)%N.

Definition digit_value (c : ascii) : Z := uchar c - 48.

Fixpoint skip_spaces (s : string) : string :=
  match s with
  | String c rest => if isspace c then skip_spaces rest else s
  | EmptyString => s
  end.

(** The run of digits at the front of [s], accumulated in base 10
    onto [acc]. *)
Fixpoint digits_from (acc : Z) (s : string) : Z :=
  match s with
  | String c rest =>
      if isdigit c then digits_from (10 * acc + digit_value c) rest else acc
  | EmptyString => acc
  end.

Definition starts_with_digit (s : string) : bool :=
  match s with
  | String c _ => isdigit c
  | EmptyString => false
  end.

(** An optionally signed decimal number at the front of [s]. *)
Definition signed_number (s : string) : option Z :=
  match s with
  | String "-" rest =>
      if starts_with_digit rest then Some (- digits_from 0 rest) else None
  | String "+" rest =>
      if starts_with_digit rest then Some (digits_from 0 rest) else None
  | _ => if starts_with_digit s then Some (digits_from 0 s) else None
  end.

(** [strtol(s, NULL, 10)] with a 64-bit [long]: blanks, sign, digits;
    out of range values are clamped; no digits gives 0. *)
Definition strtol (s : string) : Z :=
  match signed_number (skip_spaces s) with
  | Some v => Z.max Int.LONG_MIN (Z.min Int.LONG_MAX v)
  | None => 0
  end.

(** [atoi(s)] is [(int) strtol(s, NULL, 10)]. *)
Definition atoi (s : string) : Z := Int.to_int (strtol s).

End CLib.

(** ** The kernel interface *)

Module Kernel.

Definition EPERM : Z := 1.
Definition ESRCH : Z := 3.
Definition EINVAL : Z := 22.

Inductive ptrace_request := PTRACE_TRACEME | PTRACE_DETACH.

(** What a system call answers: done, or failed with an error number. *)
Inductive sysret := Done | Failed (err : Z).

(** Who traces the process: nobody, the tracer obtained by the process's
    own trace-me request, or a debugger that attached from outside. *)
Inductive tracing := Untraced | TraceRequested | TracedByDebugger.

Inductive syscall :=
| Sys_ptrace (req : ptrace_request)
| Sys_prctl_set_dumpable (arg : Z).

(** The kernel is a parameter of the model: a state, the two
    process-control calls the module makes on itself, and the tracing
    status a state stands for. *)
Record kernel := {
  kstate : Type;
  sys_ptrace : ptrace_request -> kstate -> sysret * kstate;
  sys_prctl_set_dumpable : Z -> kstate -> sysret * kstate;
  tracing_of : kstate -> tracing
}.

(** The state of the calling process: the kernel's side, [errno] as the
    ptrace and prctl wrappers leave it, the ptrace and prctl calls
    issued so far (oldest first) and the number of clock readings taken
    so far. *)
Record process (K : kernel) := {
  kern : kstate K;
  errno : Z;
  issued : list syscall;
  ticks : nat
}.
Arguments kern {K} _.
Arguments errno {K} _.
Arguments issued {K} _.
Arguments ticks {K} _.

(** What a process can read but not change.  A read is modelled by what
    it returns: the system calls behind [fopen], [fgets], [fclose] and
    [access] are not logged, and what they store in [errno] is left
    out. *)
Record filesystem := {
  fopen : string -> option string;   (* fopen(path, "r"): the content, or NULL *)
  access_F_OK : string -> bool       (* access(path, F_OK) == 0 *)
}.

Record environment := {
  fs : filesystem;
  getenv : string -> option string;
  clock : nat -> Z   (* the successive readings of high_resolution_clock *)
}.

(** Stateful code: a state monad over the process. *)
Definition M (K : kernel) (A : Type) : Type := process K -> A * process K.

Definition ret {K A} (a : A) : M K A := fun p => (a, p).

Definition bind {K A B} (m : M K A) (f : A -> M K B) : M K B :=
  fun p => let (a, p') := m p in f a p'.

(** The libc wrapper of a system call: 0 when done, -1 with [errno] set
    when failed. *)
Definition syscall_return {K} (call : syscall) (r : sysret * kstate K)
           (p : process K) : Z * process K :=
  match r with
  | (Done, k') =>
      (0, {| kern := k'; errno := errno p;
             issued := issued p ++ [call]; ticks := ticks p |})
  | (Failed e, k') =>
      (-1, {| kern := k'; errno := e;
              issued := issued p ++ [call]; ticks := ticks p |})
  end.

(** [ptrace(req, 0, 1, 0)] *)
Definition ptrace {K} (req : ptrace_request) : M K Z :=
  fun p => syscall_return (Sys_ptrace req) (sys_ptrace K req (kern p)) p.

(** [prctl(PR_SET_DUMPABLE, arg)] *)
Definition prctl_set_dumpable {K} (arg : Z) : M K Z :=
  fun p => syscall_return (Sys_prctl_set_dumpable arg)
                          (sys_prctl_set_dumpable K arg (kern p)) p.

Definition get_errno {K} : M K Z := fun p => (errno p, p).

(** The process after one more reading of the clock. *)
Definition tick {K} (p : process K) : process K :=
  {| kern := kern p; errno := errno p;
     issued := issued p; ticks := S (ticks p) |}.

(** [std::chrono::high_resolution_clock::now().time_since_epoch().count()] *)
Definition now {K} (env : environment) : M K Z :=
  fun p => (clock env (ticks p), tick p).

End Kernel.

Declare Scope rasp_scope.
Delimit Scope rasp_scope with rasp.
Notation "x <- m ;; k" := (Kernel.bind m (fun x => k))
  (at level 61, m at next level, right associativity) : rasp_scope.
Notation "m ;;; k" := (Kernel.bind m (fun _ => k))
  (at level 61, right associativity) : rasp_scope.

(** ** native-lib.cpp *)

Module NativeLib.
Import Kernel CLib.
Local Open Scope rasp_scope.

(** *** DebuggerDetection *)

Definition Java_com_example_raspsdk_DebuggerDetection_nativePtraceCheck
           {K} : M K jboolean :=
  r <- ptrace PTRACE_TRACEME ;;
  e <- get_errno ;;
  if (r =? -1) && (e =? EPERM) then
    ret JNI_TRUE
  else
    ptrace PTRACE_DETACH ;;;
    ret JNI_FALSE.

(** The [while (fgets(...))] loop of [nativeDebuggerCheck]. *)
Fixpoint tracer_pid_loop (lines : list string) : jboolean :=
  match lines with
  | [] => JNI_FALSE
  | line :: rest =>
      if strncmp line "TracerPid:" 10 =? 0 then
        let tracer_pid := atoi (advance 10 line) in
        if negb (tracer_pid =? 0) then JNI_TRUE else JNI_FALSE
      else tracer_pid_loop rest
  end.

Definition Java_com_example_raspsdk_DebuggerDetection_nativeDebuggerCheck
           (fs : filesystem) : jboolean :=
  match fopen fs "/proc/self/status" with
  | None => JNI_FALSE
  | Some fp => tracer_pid_loop (read_lines 256 fp)
  end.

(** *** RootDetection *)

Definition su_paths : list string :=
  ["/system/bin/su"; "/system/xbin/su"; "/system/sbin/su";
   "/vendor/bin/su"; "/sbin/su"].

(** [for (int i = 0; su_paths[i] != NULL; i++)]: the path found, which
    the function logs. *)
Fixpoint su_loop (fs : filesystem) (paths : list string) : option string :=
  match paths with
  | [] => None
  | path :: rest =>
      if access_F_OK fs path then Some path else su_loop fs rest
  end.

Fixpoint mounts_loop (lines : list string) : jboolean :=
  match lines with
  | [] => JNI_FALSE
  | line :: rest =>
      if strstr line "/system" && strstr line "rw" then JNI_TRUE
      else mounts_loop rest
  end.

Definition Java_com_example_raspsdk_RootDetection_nativeRootCheck
           (fs : filesystem) : jboolean :=
  match su_loop fs su_paths with
  | Some _ => JNI_TRUE
  | None =>
      match fopen fs "/proc/mounts" with
      | Some fp => mounts_loop (read_lines 1024 fp)
      | None => JNI_FALSE
      end
  end.

(** *** HookDetection *)

Definition suspicious_libs : list string :=
  ["frida"; "xposed"; "substrate"; "cydia"; "libhook"].

(** The inner [for] loop: the first entry of the table that [line]
    contains. *)
Fixpoint libs_loop (line : string) (libs : list string) : option string :=
  match libs with
  | [] => None
  | lib :: rest => if strstr line lib then Some lib else libs_loop line rest
  end.

(** The outer [while] loop: the entry that is logged before
    [JNI_TRUE] is returned. *)
Fixpoint hook_loop (lines : list string) : option string :=
  match lines with
  | [] => None
  | line :: rest =>
      match libs_loop line suspicious_libs with
      | Some lib => Some lib
      | None => hook_loop rest
      end
  end.

(** The result, and the library name passed to [LOGW] if any. *)
Definition Java_com_example_raspsdk_HookDetection_nativeHookCheck
           (fs : filesystem) : jboolean * option string :=
  match fopen fs "/proc/self/maps" with
  | None => (JNI_FALSE, None)
  | Some fp =>
      match hook_loop (read_lines 1024 fp) with
      | Some lib => (JNI_TRUE, Some lib)
      | None => (JNI_FALSE, None)
      end
  end.

(** *** TamperDetection *)

(** The loop of [nativeMemoryCheck] over the two [int] counters. *)
Fixpoint memory_loop (lines : list string)
         (executable_count writable_executable_count : Z) : Z * Z :=
  match lines with
  | [] => (executable_count, writable_executable_count)
  | line :: rest =>
      if strstr line "r-xp" || strstr line "rwxp" then
        let executable_count := Int.incr executable_count in
        if strstr line "rwxp" then
          memory_loop rest executable_count (Int.incr writable_executable_count)
        else memory_loop rest executable_count writable_executable_count
      else memory_loop rest executable_count writable_executable_count
  end.

Definition Java_com_example_raspsdk_TamperDetection_nativeMemoryCheck
           (fs : filesystem) : jboolean :=
  match fopen fs "/proc/self/maps" with
  | None => JNI_FALSE
  | Some fp =>
      let '(_, writable_executable_count) :=
        memory_loop (read_lines 1024 fp) 0 0 in
      if writable_executable_count >? 5 then JNI_TRUE else JNI_FALSE
  end.

Definition scan_size : nat := 4096.

Definition byte_at (memory : nat -> byte) (i : nat) : Z :=
  Z.of_N (Byte.to_N (memory i)).

(** The [uint32_t] read at [memory + i], on a little-endian machine. *)
Definition load_uint32 (memory : nat -> byte) (i : nat) : Z :=
  Z.lor (byte_at memory i)
    (Z.lor (Z.shiftl (byte_at memory (i + 1)) 8)
       (Z.lor (Z.shiftl (byte_at memory (i + 2)) 16)
              (Z.shiftl (byte_at memory (i + 3)) 24))).

(** [for (size_t i = 0; i < scan_size; i++)], at index [i] with
    [remaining = scan_size - i] iterations to go. *)
Fixpoint breakpoint_loop (memory : nat -> byte) (i remaining : nat) : jboolean :=
  match remaining with
  | O => JNI_FALSE
  | S remaining' =>
      if byte_at memory i =? 204 then JNI_TRUE
      else if (i <? scan_size - 3)%nat
              && (Z.land (load_uint32 memory i) 4293918960 =? 3776970864)
      then JNI_TRUE
      else breakpoint_loop memory (S i) remaining'
  end.

(** [memory] gives the bytes from the address of the function on. *)
Definition Java_com_example_raspsdk_TamperDetection_nativeBreakpointScan
           (memory : nat -> byte) : jboolean :=
  breakpoint_loop memory 0 scan_size.

(** *** RASP *)

Definition Java_com_example_raspsdk_RASP_nativeHardenSystem
           {K} : M K jboolean :=
  d <- prctl_set_dumpable 0 ;;
  if d =? -1 then ret JNI_FALSE
  else
    r <- ptrace PTRACE_TRACEME ;;
    e <- get_errno ;;
    if (r =? -1) && (e =? EPERM) then ret JNI_FALSE
    else ret JNI_TRUE.

End NativeLib.

(** ** The signal latch of native-lib.cpp *)

Module SignalLatch.

Definition SIGTRAP : Z := 5.
Definition SIGKILL : Z := 9.
Definition SIGCONT : Z := 18.
Definition SIGSTOP : Z := 19.

(** The handlers the module can install: the two of native-lib.cpp and
    the lambda of [NativeObfuscator_e], which exits. *)
Inductive handler :=
| SIG_DFL
| sigtrap_handler
| sigstop_handler
| exit_on_trap.

Record latch := {
  debugger_detected : Z;
  timing_anomaly : Z;
  disposition : Z -> handler;
  alive : bool
}.

Definition set_detected (st : latch) : latch :=
  {| debugger_detected := 1;
     timing_anomaly := timing_anomaly st;
     disposition := disposition st;
     alive := alive st |}.

Definition terminate (st : latch) : latch :=
  {| debugger_detected := debugger_detected st;
     timing_anomaly := timing_anomaly st;
     disposition := disposition st;
     alive := false |}.

(** The body of each handler, run on delivery of [signum]. *)
Definition run_handler (h : handler) (signum : Z) (st : latch) : latch :=
  match h with
  | sigtrap_handler =>
      if signum =? SIGTRAP then set_detected st else st
  | sigstop_handler =>
      if (signum =? SIGSTOP) || (signum =? SIGCONT) then set_detected st else st
  | exit_on_trap => terminate st
  | SIG_DFL => st
  end.

(** Signals whose default action leaves the process alive. *)
Definition default_ignored_or_stops (signum : Z) : bool :=
  existsb (Z.eqb signum) [17; 18; 19; 20; 21; 22; 23; 28].

(** [signal(signum, h)]: the kernel refuses a handler for SIGKILL and
    SIGSTOP. *)
Definition signal (signum : Z) (h : handler) (st : latch) : latch :=
  if (signum =? SIGKILL) || (signum =? SIGSTOP) then st
  else
    {| debugger_detected := debugger_detected st;
       timing_anomaly := timing_anomaly st;
       disposition := fun n => if n =? signum then h else disposition st n;
       alive := alive st |}.

(** Delivery of a signal to the process. *)
Definition deliver (signum : Z) (st : latch) : latch :=
  if (signum =? SIGKILL) then terminate st
  else if (signum =? SIGSTOP) then st
  else
    match disposition st signum with
    | SIG_DFL => if default_ignored_or_stops signum then st else terminate st
    | h => run_handler h signum st
    end.

Definition Java_com_example_raspsdk_DebuggerDetection_nativeSignalCheck
           (st : latch) : jboolean * latch :=
  let st := signal SIGTRAP sigtrap_handler st in
  let st := signal SIGSTOP sigstop_handler st in
  let st := signal SIGCONT sigstop_handler st in
  if negb (debugger_detected st =? 0) then (JNI_TRUE, st) else (JNI_FALSE, st).

(** [signal(SIGTRAP, [](int) { ... exit(1); })] in [NativeObfuscator_e]. *)
Definition Java_com_example_raspsdk_NativeObfuscator_e (st : latch) : latch :=
  signal SIGTRAP exit_on_trap st.

(** The entry points of the two files. *)
Inductive operation :=
| nativePtraceCheck | nativeSignalCheck | nativeTimingCheck
| nativeDebuggerCheck | nativeRootCheck | nativePropertyCheck
| nativeHookCheck | nativeFridaCheck | nativeInlineHookCheck
| nativeMemoryCheck | nativeIntegrityCheck | nativeBreakpointScan
| nativeHardenSystem | nativeProtectMemory | nativeRandomDelay
| nativeAntiFork
| NativeObfuscator_a | NativeObfuscator_b | NativeObfuscator_c
| NativeObfuscator_d | NativeObfuscator_e.

(** What a call does to the latch; only two entry points mention the
    flag or install a handler. *)
Definition call (op : operation) (st : latch) : latch :=
  match op with
  | nativeSignalCheck =>
      snd (Java_com_example_raspsdk_DebuggerDetection_nativeSignalCheck st)
  | NativeObfuscator_e => Java_com_example_raspsdk_NativeObfuscator_e st
  | _ => st
  end.

Inductive event :=
| Call (op : operation)
| Signal (signum : Z).

(** Nothing happens in a process that has terminated. *)
Definition step (ev : event) (st : latch) : latch :=
  if alive st then
    match ev with
    | Call op => call op st
    | Signal signum => deliver signum st
    end
  else st.

Definition run (evs : list event) (st : latch) : latch :=
  fold_left (fun st ev => step ev st) evs st.

(** The process as it starts: flag clear, default dispositions. *)
Definition boot : latch :=
  {| debugger_detected := 0;
     timing_anomaly := 0;
     disposition := fun _ => SIG_DFL;
     alive := true |}.

(** The handler run by [ev] writes the flag. *)
Definition sets_flag (ev : event) (st : latch) : bool :=
  match ev with
  | Call _ => false
  | Signal signum =>
      alive st && negb (signum =? SIGKILL) && negb (signum =? SIGSTOP) &&
      match disposition st signum with
      | sigtrap_handler => signum =? SIGTRAP
      | sigstop_handler => (signum =? SIGSTOP) || (signum =? SIGCONT)
      | _ => false
      end
  end.

End SignalLatch.

(** ** native-obfuscator.cpp *)

Module Obfuscator.
Import Kernel CLib.
Local Open Scope rasp_scope.

Definition XOR_KEY : list byte := [xab; xcd; xef; x12; x34; x56; x78; x9a].
Definition XOR_KEY_LEN : N := 8.

(** [XOR_KEY[i % XOR_KEY_LEN]] *)
Definition key_at (i : N) : byte :=
  nth (N.to_nat (i mod XOR_KEY_LEN)%N) XOR_KEY x00.

(** The loop of [decrypt_string], at index [i] with [encrypted + i]
    still to process. *)
Fixpoint decrypt_loop (encrypted : list byte) (i : N) (seed : N) : list byte :=
  match encrypted with
  | [] => []
  | e :: rest =>
      let key_byte :=
        Int.to_uint8
          (N.lxor (Byte.to_N (key_at i))
                  (N.land (Int.to_size_t (seed + i)) 255)) in
      Int.to_uint8 (N.lxor (Byte.to_N e) (Byte.to_N key_byte))
        :: decrypt_loop rest (Int.to_size_t (i + 1)) seed
  end.

(** [decrypt_string(encrypted, len, seed)], [len] being the length of
    the list; the result stands for the returned [std::string]. *)
Definition decrypt_string (encrypted : list byte) (seed : N) : list byte :=
  decrypt_loop encrypted 0 (Int.to_uint32 seed).

Definition opaque_true {K} (env : environment) : M K bool :=
  now <- now env ;;
  ret ((now >? 0) || (now <=? 0)).

Definition opaque_false {K} (env : environment) : M K bool :=
  now <- now env ;;
  ret (now <? 0).

(** The guarded block only fills a local vector. *)
Definition inject_dead_code {K} (env : environment) : M K unit :=
  f <- opaque_false env ;;
  if f then ret tt else ret tt.

(** [sscanf(line, "TracerPid: %d", &pid)]: the value stored in [pid],
    none when the conversion does not happen. *)
Definition sscanf_TracerPid (line : string) : option Z :=
  if String.prefix "TracerPid:" line then
    match signed_number (skip_spaces (advance 10 line)) with
    | Some v => Some (Int.to_int (Z.max Int.LONG_MIN (Z.min Int.LONG_MAX v)))
    | None => None
    end
  else None.

(** The [while] loop of the TracerPid branch, from [result = false]:
    the final [result], or [None] when [pid] is read without having
    been written, which the language leaves undefined. *)
Fixpoint status_loop (lines : list string) : option bool :=
  match lines with
  | [] => Some false
  | line :: rest =>
      if strstr line "TracerPid:" then
        match sscanf_TracerPid line with
        | Some pid => if negb (pid =? 0) then Some true else status_loop rest
        | None => None
        end
      else status_loop rest
  end.

(** [case 0] *)
Definition ptrace_branch {K} (env : environment) : M K (option bool) :=
  t <- opaque_true env ;;
  result <-
    (if t then
       r <- ptrace PTRACE_TRACEME ;;
       ptrace PTRACE_DETACH ;;;
       ret (if r =? -1 then true else false)
     else ret false) ;;
  inject_dead_code env ;;;
  ret (Some result).

(** [case 1]; the file is read for what the loop returns (see
    [filesystem]). *)
Definition status_branch {K} (env : environment) : M K (option bool) :=
  t <- opaque_true env ;;
  let result :=
    if t then
      match fopen (fs env) "/proc/self/status" with
      | Some status => status_loop (read_lines 256 status)
      | None => Some false
      end
    else Some false in
  inject_dead_code env ;;;
  ret result.

Definition is_set (v : option string) : bool :=
  match v with Some _ => true | None => false end.

(** [default] *)
Definition getenv_branch {K} (env : environment) : M K (option bool) :=
  t <- opaque_true env ;;
  let result :=
    if t then is_set (getenv env "DEBUG") || is_set (getenv env "ANDROID_DEBUG")
    else false in
  inject_dead_code env ;;;
  ret (Some result).

Definition check_debugger_obfuscated {K} (env : environment)
  : M K (option bool) :=
  inject_dead_code env ;;;
  count <- now env ;;
  let branch := Z.rem count 3 in
  result <-
    (if branch =? 0 then ptrace_branch env
     else if branch =? 1 then status_branch env
     else getenv_branch env) ;;
  inject_dead_code env ;;;
  ret result.

(** The guarded block seeds a generator from the clock and fills a
    local vector. *)
Definition scramble_memory {K} (env : environment) : M K unit :=
  f <- opaque_false env ;;
  if f then now env ;;; ret tt else ret tt.

Definition Java_com_example_raspsdk_NativeObfuscator_a
           {K} (env : environment) : M K (option jboolean) :=
  inject_dead_code env ;;;
  scramble_memory env ;;;
  t <- opaque_true env ;;
  result <-
    (if t then
       result <- check_debugger_obfuscated env ;;
       match result with
       | Some true =>
           t' <- opaque_true env ;;
           if t' then
             f <- opaque_false env ;;
             ret (Some (negb f))
           else ret (Some true)
       | _ => ret result
       end
     else ret (Some false)) ;;
  inject_dead_code env ;;;
  ret result.

End Obfuscator.

(** ** A kernel to run the model on *)

Module Linux.
Import Kernel.

(** The tracing status, the answer of the security module to a trace-me
    request (an error number when it refuses), and the same for the
    dumpable flag with its current value. *)
Record state := {
  tracer : tracing;
  traceme_refused : option Z;
  dumpable_refused : option Z;
  dumpable : Z
}.

Definition with_tracer (t : tracing) (st : state) : state :=
  {| tracer := t;
     traceme_refused := traceme_refused st;
     dumpable_refused := dumpable_refused st;
     dumpable := dumpable st |}.

(** A trace-me request fails with EPERM when the process is traced
    already, is then submitted to the security module, and makes the
    process traced.  A detach names its tracee by pid; the module passes
    pid 0, which names no process, so the request fails with ESRCH and
    changes nothing. *)
Definition do_ptrace (req : ptrace_request) (st : state) : sysret * state :=
  match req with
  | PTRACE_TRACEME =>
      match tracer st with
      | Untraced =>
          match traceme_refused st with
          | Some e => (Failed e, st)
          | None => (Done, with_tracer TraceRequested st)
          end
      | _ => (Failed EPERM, st)
      end
  | PTRACE_DETACH => (Failed ESRCH, st)
  end.

Definition do_prctl_set_dumpable (arg : Z) (st : state) : sysret * state :=
  match dumpable_refused st with
  | Some e => (Failed e, st)
  | None =>
      if (arg =? 0) || (arg =? 1) then
        (Done, {| tracer := tracer st;
                  traceme_refused := traceme_refused st;
                  dumpable_refused := dumpable_refused st;
                  dumpable := arg |})
      else (Failed EINVAL, st)
  end.

Definition kernel : Kernel.kernel :=
  {| kstate := state;
     sys_ptrace := do_ptrace;
     sys_prctl_set_dumpable := do_prctl_set_dumpable;
     tracing_of := tracer |}.

Definition fresh (t : tracing) : state :=
  {| tracer := t; traceme_refused := None;
     dumpable_refused := None; dumpable := 1 |}.

Definition start (k : state) : process kernel :=
  @Build_process kernel k 0 [] 0%nat.

End Linux.

(** ** Vocabulary of the specification *)

Module Spec.
Import Kernel.

(** [needle] occurs in [hay]. *)
Definition Substring (needle hay : string) : Prop :=
  exists before after, hay = before ++ needle ++ after.

Definition StartsWith (start s : string) : Prop :=
  exists rest, s = start ++ rest.

Fixpoint NoNUL (s : string) : Prop :=
  match s with
  | EmptyString => True
  | String c rest => c <> CLib.NUL /\ NoNUL rest
  end.

(** The lines of a text, each with its newline; a last line without
    newline counts when it is not empty. *)
Fixpoint text_lines (s : string) : list string :=
  match s with
  | EmptyString => []
  | String c rest =>
      if Ascii.eqb c CLib.newline then String c EmptyString :: text_lines rest
      else
        match text_lines rest with
        | [] => [String c EmptyString]
        | line :: lines => String c line :: lines
        end
  end.

Definition TAB : string := String "009"%char EmptyString.
Definition LF : string := String "010"%char EmptyString.

(** The decimal numeral of a number, as the kernel prints a pid. *)
Definition decimal (n : N) : string := NilEmpty.string_of_uint (N.to_uint n).

(** The number a numeral stands for, on top of the digits read so far. *)
Fixpoint uint_value (d : Decimal.uint) (acc : Z) : Z :=
  match d with
  | Decimal.Nil => acc
  | Decimal.D0 l => uint_value l (10 * acc + 0)
  | Decimal.D1 l => uint_value l (10 * acc + 1)
  | Decimal.D2 l => uint_value l (10 * acc + 2)
  | Decimal.D3 l => uint_value l (10 * acc + 3)
  | Decimal.D4 l => uint_value l (10 * acc + 4)
  | Decimal.D5 l => uint_value l (10 * acc + 5)
  | Decimal.D6 l => uint_value l (10 * acc + 6)
  | Decimal.D7 l => uint_value l (10 * acc + 7)
  | Decimal.D8 l => uint_value l (10 * acc + 8)
  | Decimal.D9 l => uint_value l (10 * acc + 9)
  end.

(** [value] is what follows the key on the first line that starts
    with [TracerPid:]. *)
Definition TracerPidField (lines : list string) (value : string) : Prop :=
  exists before after,
    lines = (before ++ ("TracerPid:" ++ value)%string :: after)%list /\
    Forall (fun l => ~ StartsWith "TracerPid:" l) before.

(** The lines of a listing in which the text [rwxp] occurs. *)
Definition containing_rwxp (lines : list string) : list string :=
  filter (fun line => CLib.strstr line "rwxp") lines.

(** The pieces of [s] between separators. *)
Fixpoint split_by (is_sep : ascii -> bool) (s : string) : list string :=
  match s with
  | EmptyString => [EmptyString]
  | String c rest =>
      if is_sep c then EmptyString :: split_by is_sep rest
      else
        match split_by is_sep rest with
        | [] => [String c EmptyString]
        | piece :: pieces => String c piece :: pieces
        end
  end.

(** The fields of a line of a kernel listing: what stands between
    blanks, the newline at its end apart. *)
Definition fields (line : string) : list string :=
  filter (fun f => negb (String.eqb f EmptyString))
         (split_by (fun c => Ascii.eqb c " " || Ascii.eqb c CLib.newline) line).

(** A line of a memory map is marked writable and executable when the
    second and third flag of its permission field, the second field of
    the line, are [w] and [x]. *)
Definition marked_writable_executable (line : string) : bool :=
  match nth 1 (fields line) EmptyString with
  | String _ (String w (String x _)) => Ascii.eqb w "w" && Ascii.eqb x "x"
  | _ => false
  end.

(** A line of the mount table: the mount point is its second field, the
    options are the comma-separated tokens of its fourth field. *)
Definition mount_point (line : string) : string :=
  nth 1 (fields line) EmptyString.

Definition mount_options (line : string) : list string :=
  split_by (Ascii.eqb ",") (nth 3 (fields line) EmptyString).

(** The line mounts the system partition with the writable option. *)
Definition system_mounted_writable (line : string) : bool :=
  String.eqb (mount_point line) "/system"
  && existsb (String.eqb "rw") (mount_options line).

(** The word at offset [i] has the bits of the ARM breakpoint
    instruction. *)
Definition arm_breakpoint_at (memory : nat -> byte) (i : nat) : Prop :=
  Z.land (NativeLib.load_uint32 memory i) 4293918960 = 3776970864.

(** What the detectors rely on from ptrace.  A failed request changes
    nothing; a trace-me request is granted only to an untraced process,
    which it leaves traced on request, and is refused with EPERM to a
    traced one. *)
Record ptrace_contract (K : kernel) : Prop := {
  failed_request_changes_nothing :
    forall req k e k',
      sys_ptrace K req k = (Failed e, k') ->
      tracing_of K k' = tracing_of K k;
  traceme_granted :
    forall k k',
      sys_ptrace K PTRACE_TRACEME k = (Done, k') ->
      tracing_of K k = Untraced /\ tracing_of K k' = TraceRequested;
  traceme_when_traced :
    forall k r k',
      tracing_of K k <> Untraced ->
      sys_ptrace K PTRACE_TRACEME k = (r, k') ->
      r = Failed EPERM
}.

(** A detach that the process issues with pid 0, as the module does,
    names no tracee: the kernel refuses it with ESRCH. *)
Definition self_detach_refused (K : kernel) : Prop :=
  forall k, fst (sys_ptrace K PTRACE_DETACH k) = Failed ESRCH.

(** The three probes the obfuscated check chooses from, as functions
    of the state of the environment: the trace-me request is refused,
    the status file shows a tracer, a debugging variable is set. *)
Definition traceme_is_refused (K : kernel) (k : kstate K) : bool :=
  match fst (sys_ptrace K PTRACE_TRACEME k) with
  | Done => false
  | Failed _ => true
  end.

Definition status_shows_tracer (env : environment) : option bool :=
  match fopen (fs env) "/proc/self/status" with
  | Some status => Obfuscator.status_loop (CLib.read_lines 256 status)
  | None => Some false
  end.

Definition debug_variable_set (env : environment) : bool :=
  Obfuscator.is_set (getenv env "DEBUG")
  || Obfuscator.is_set (getenv env "ANDROID_DEBUG").

(** The probe that the selector value [count] picks. *)
Definition selected_probe (K : kernel) (env : environment) (k : kstate K)
           (count : Z) : option bool :=
  if Z.rem count 3 =? 0 then Some (traceme_is_refused K k)
  else if Z.rem count 3 =? 1 then status_shows_tracer env
  else Some (debug_variable_set env).

(** The ptrace and prctl calls a computation adds to the log. *)
Definition calls_of {K A} (m : M K A) (p : process K) (cs : list syscall) : Prop :=
  issued (snd (m p)) = (issued p ++ cs)%list.

End Spec.

(** ** Fixtures *)

Module Fixtures.
Import Kernel Spec.

(** A file system with one readable file and nothing else. *)
Definition single_file (path content : string) : filesystem :=
  {| fopen := fun p => if String.eqb p path then Some content else None;
     access_F_OK := fun _ => false |}.

Definition no_files : filesystem :=
  {| fopen := fun _ => None; access_F_OK := fun _ => false |}.

Definition status_of (pid : string) : string :=
  "Name:" ++ TAB ++ "app" ++ LF ++
  "State:" ++ TAB ++ "S (sleeping)" ++ LF ++
  "TracerPid:" ++ TAB ++ pid ++ LF ++
  "Uid:" ++ TAB ++ "10123" ++ LF.

Definition status_without_tracer : string :=
  "Name:" ++ TAB ++ "app" ++ LF ++ "State:" ++ TAB ++ "S (sleeping)" ++ LF.

(** A line of a memory map with the given permissions and path. *)
Definition maps_line (perms path : string) : string :=
  "7f3a1c000000-7f3a1c021000 " ++ perms ++ " 00000000 fd:01 1311 " ++ path ++ LF.

Fixpoint repeat_string (n : nat) (s : string) : string :=
  match n with
  | O => EmptyString
  | S n' => s ++ repeat_string n' s
  end.

(** A map with one code region and [n] writable and executable ones. *)
Definition maps_with_wx (n : nat) : string :=
  maps_line "r-xp" "/system/lib64/libc.so" ++
  repeat_string n (maps_line "rwxp" "[anon:jit]") ++
  maps_line "rw-p" "[heap]".

Definition maps_with_frida : string :=
  maps_line "r-xp" "/system/lib64/libc.so" ++
  maps_line "r-xp" "/data/local/tmp/frida-agent-64.so".

Definition maps_clean : string :=
  maps_line "r-xp" "/system/lib64/libc.so" ++ maps_line "rw-p" "[heap]".

Definition mounts_rw : string :=
  "/dev/block/dm-0 /system ext4 rw,seclabel,relatime 0 0" ++ LF.

Definition mounts_ro : string :=
  "/dev/block/dm-0 /system ext4 ro,seclabel,relatime 0 0" ++ LF.

(** A map of [n] shared regions that are writable and executable. *)
Definition maps_with_shared_wx (n : nat) : string :=
  repeat_string n (maps_line "rwxs" "/dev/ashmem/dalvik-jit-code-cache").

(** A map of [n] read-only regions of a file whose path holds the text
    [rwxp]. *)
Definition maps_with_rwxp_path (n : nat) : string :=
  repeat_string n (maps_line "r--p" "/data/app/rwxp/base.apk").

(** A map of [n] writable and executable regions whose lines are longer
    than the line buffer, with the text [rwxp] again in the path. *)
Definition maps_with_long_wx_lines (n : nat) : string :=
  repeat_string n
    (maps_line "rwxp" ("/data/" ++ repeat_string 1000 "a" ++ "/rwxp.so")).

(** A map of one line that is longer than the line buffer: the library
    name starts at byte 1020 of the line. *)
Definition maps_with_long_path : string :=
  maps_line "r-xp" ("/data/" ++ repeat_string 962 "a" ++ "/libhook.so").

(** A mount table whose writable entry is another partition, and one
    where the system partition is mounted read-only over a layer whose
    path holds the letters [rw]. *)
Definition mounts_system_ext : string :=
  "/dev/block/dm-1 /system_ext ext4 rw,seclabel,relatime 0 0" ++ LF.

Definition mounts_overlay_ro : string :=
  "overlay /system overlay ro,seclabel,lowerdir=/mnt/rw_layer 0 0" ++ LF.

(** The system partition mounted writable, the option standing behind
    an option that is longer than the line buffer. *)
Definition mounts_rw_behind_long_option : string :=
  "/dev/block/dm-0 /system ext4 seclabel,context="
  ++ repeat_string 1000 "a" ++ ",rw 0 0" ++ LF.


(** A code window of zero bytes, with the INT3 opcode at [offset]. *)
Definition window_with_int3 (offset : nat) : nat -> byte :=
  fun i => if Nat.eqb i offset then xcc else x00.

Definition window_clean : nat -> byte := fun _ => x00.

(** An environment where only the variable DEBUG is set, with a clock
    that always reads [count]. *)
Definition debug_env (count : Z) : environment :=
  {| fs := no_files;
     getenv := fun name => if String.eqb name "DEBUG" then Some "1" else None;
     clock := fun _ => count |}.

(** An environment with nothing to find, with a clock that always
    reads [count]. *)
Definition quiet_env (count : Z) : environment :=
  {| fs := no_files; getenv := fun _ => None; clock := fun _ => count |}.

End Fixtures.

(** ** More of the C library: numbers in base 16 *)

Module CLibHex.
Import CLib.

(** The value of a hexadecimal digit. *)
Definition hex_digit_value (c : ascii) : option Z :=
  let n := uchar c in
  if (48 <=? n) && (n <=? 57) then Some (n - 48)
  else if (97 <=? n) && (n <=? 102) then Some (n - 87)
  else if (65 <=? n) && (n <=? 70) then Some (n - 55)
  else None.

Definition is_hex_digit (c : ascii) : bool :=
  match hex_digit_value c with
  | Some _ => true
  | None => false
  end.

Fixpoint hex_digits_from (acc : Z) (s : string) : Z :=
  match s with
  | String c rest =>
      match hex_digit_value c with
      | Some v => hex_digits_from (16 * acc + v) rest
      | None => acc
      end
  | EmptyString => acc
  end.

Definition starts_with_hex_digit (s : string) : bool :=
  match s with
  | String c _ => is_hex_digit c
  | EmptyString => false
  end.

(** The optional [0x] or [0X]: it belongs to the number only when a
    digit follows it. *)
Definition skip_0x (s : string) : string :=
  match s with
  | String "0" (String x rest) =>
      if (Ascii.eqb x "x" || Ascii.eqb x "X") && starts_with_hex_digit rest
      then rest else s
  | _ => s
  end.

Definition unsigned_hex (s : string) : option Z :=
  let s' := skip_0x s in
  if starts_with_hex_digit s' then Some (hex_digits_from 0 s') else None.

Definition signed_hex (s : string) : option Z :=
  match s with
  | String "-" rest => option_map Z.opp (unsigned_hex rest)
  | String "+" rest => unsigned_hex rest
  | _ => unsigned_hex s
  end.

(** [strtol(s, nullptr, 16)] with a 64-bit [long]. *)
Definition strtol16 (s : string) : Z :=
  match signed_hex (skip_spaces s) with
  | Some v => Z.max Int.LONG_MIN (Z.min Int.LONG_MAX v)
  | None => 0
  end.

End CLibHex.

(** ** native-lib.cpp: the other entry points *)

Module NativeLibRest.
Import Kernel CLib NativeLib.
Local Open Scope rasp_scope.

(** *** HookDetection *)

Definition frida_indicators : list string :=
  ["frida-gadget"; "frida-agent"; "frida-core"; "libfrida"].

(** The [while] loop of [nativeFridaCheck]: the indicator that is logged
    before [JNI_TRUE] is returned. *)
Fixpoint frida_loop (lines : list string) : option string :=
  match lines with
  | [] => None
  | line :: rest =>
      match libs_loop line frida_indicators with
      | Some indicator => Some indicator
      | None => frida_loop rest
      end
  end.

(** The result, and the indicator passed to [LOGW] if any. *)
Definition Java_com_example_raspsdk_HookDetection_00024Companion_nativeFridaCheck
           (fs : filesystem) : jboolean * option string :=
  match fopen fs "/proc/self/maps" with
  | None => (JNI_FALSE, None)
  | Some fp =>
      match frida_loop (read_lines 1024 fp) with
      | Some indicator => (JNI_TRUE, Some indicator)
      | None => (JNI_FALSE, None)
      end
  end.

Definition Java_com_example_raspsdk_HookDetection_00024Companion_nativeHookCheck
           (fs : filesystem) : jboolean * option string :=
  Java_com_example_raspsdk_HookDetection_nativeHookCheck fs.

Definition Java_com_example_raspsdk_HookDetection_nativeFridaCheck
           (fs : filesystem) : jboolean * option string :=
  Java_com_example_raspsdk_HookDetection_00024Companion_nativeFridaCheck fs.

(** [memory] gives the bytes from the address of the function on:
    [bytes[0]] is tested against the two x86 opcodes, then the first
    word against the ARM instruction. *)
Definition Java_com_example_raspsdk_HookDetection_nativeInlineHookCheck
           (memory : nat -> byte) : jboolean :=
  if (byte_at memory 0 =? 233) || (byte_at memory 0 =? 104) then JNI_TRUE
  else if load_uint32 memory 0 =? 3844075524 then JNI_TRUE
  else JNI_FALSE.

Definition Java_com_example_raspsdk_HookDetection_00024Companion_nativeInlineHookCheck
           (memory : nat -> byte) : jboolean :=
  Java_com_example_raspsdk_HookDetection_nativeInlineHookCheck memory.

(** *** TamperDetection *)


(** *** DebuggerDetection: the timing check *)

Record timespec := { tv_sec : Z; tv_nsec : Z }.

(** Arithmetic in [long long]. *)
Definition to_long_long (z : Z) : Z :=
  let m := z mod 18446744073709551616 in
  if m <=? Int.LONG_MAX then m else m - 18446744073709551616.

(** [get_time_ns], on the reading [ts] that [clock_gettime] delivers. *)
Definition get_time_ns (ts : timespec) : Z :=
  to_long_long (to_long_long (tv_sec ts * 1000000000) + tv_nsec ts).

(** [for (int i = 0; i < 1000; i++) result += i * i;] from index [i] with
    [remaining] iterations to go: the final [result]. *)
Fixpoint timing_loop (i : Z) (remaining : nat) (result : Z) : Z :=
  match remaining with
  | O => result
  | S remaining' =>
      timing_loop (Int.incr i) remaining' (Int.to_int (result + Int.to_int (i * i)))
  end.

(** The check, on the two readings of the monotonic clock it takes: the
    answer and the value left in [result]. *)
Definition Java_com_example_raspsdk_DebuggerDetection_nativeTimingCheck
           (start_reading end_reading : timespec) : jboolean * Z :=
  let start_time := get_time_ns start_reading in
  let result := timing_loop 0 1000 0 in
  let end_time := get_time_ns end_reading in
  let duration := to_long_long (end_time - start_time) in
  if duration >? 1000000 then (JNI_TRUE, result) else (JNI_FALSE, result).

(** *** RASP *)

Definition RAND_MAX : Z := 2147483647.

(** [nativeRandomDelay], on the value [rand()] returns: the argument
    passed to [usleep]. *)
Definition Java_com_example_raspsdk_RASP_nativeRandomDelay (rand : Z) : Z :=
  let delay_ms := Int.to_int (Z.rem rand 100 + 1) in
  Int.to_int (delay_ms * 1000).

End NativeLibRest.

(** ** native-obfuscator.cpp: the other functions *)

Module ObfuscatorRest.
Import Kernel CLib CLibHex Obfuscator.
Local Open Scope rasp_scope.

Definition emulator_props : list string :=
  ["/system/bin/qemu-props";
   "/system/lib/libc_malloc_debug_qemu.so";
   "/system/xbin/qemu-props";
   "/dev/socket/qemud"].

(** The [for] loop of [check_emulator_obfuscated]; [access] is called
    only when the opaque predicate holds, and is modelled by its answer
    (see [filesystem]). *)
Fixpoint emulator_loop {K} (env : environment) (props : list string) : M K bool :=
  match props with
  | [] => ret false
  | prop :: rest =>
      t <- opaque_true env ;;
      if t && access_F_OK (fs env) prop then
        inject_dead_code env ;;;
        ret true
      else
        inject_dead_code env ;;;
        emulator_loop env rest
  end.

Definition check_emulator_obfuscated {K} (env : environment) : M K bool :=
  emulator_loop env emulator_props.

Definition Java_com_example_raspsdk_NativeObfuscator_b
           {K} (env : environment) : M K jboolean :=
  inject_dead_code env ;;;
  t <- opaque_true env ;;
  is_emulator <- (if t then check_emulator_obfuscated env else ret false) ;;
  count <- now env ;;
  let decision := Z.rem count 2 in
  if decision =? 0 then
    t1 <- opaque_true env ;;
    if t1 then
      scramble_memory env ;;;
      ret is_emulator
    else
      t2 <- opaque_true env ;;
      if t2 then inject_dead_code env ;;; ret is_emulator
      else inject_dead_code env ;;; ret JNI_FALSE
  else
    t2 <- opaque_true env ;;
    if t2 then inject_dead_code env ;;; ret is_emulator
    else inject_dead_code env ;;; ret JNI_FALSE.

(** The byte that one step of [decrypt_native_string] appends: the two
    characters at [i] and [i + 1] read in base 16, converted to
    [uint8_t], XOR [0xCC + (i / 2) % 256], stored as a [char]. *)
Definition native_byte (c1 c2 : ascii) (i : N) : byte :=
  let hex_byte := c_str (String c1 (String c2 EmptyString)) in
  let byte := Z.to_N (strtol16 hex_byte mod 256) in
  Int.to_uint8 (N.lxor byte (204 + (i / 2) mod 256)).

(** The loop of [decrypt_native_string], at index [i] with the characters
    from [i] on in [hex]; past the end the terminating NUL is read. *)
Fixpoint native_loop {K} (env : environment) (hex : string) (i : N)
         (result : list byte) : M K (list byte) :=
  match hex with
  | EmptyString => ret result
  | String c1 EmptyString =>
      t <- opaque_true env ;;
      let result := if t then (result ++ [native_byte c1 NUL i])%list else result in
      inject_dead_code env ;;;
      ret result
  | String c1 (String c2 rest) =>
      t <- opaque_true env ;;
      let result := if t then (result ++ [native_byte c1 c2 i])%list else result in
      inject_dead_code env ;;;
      native_loop env rest (Int.to_size_t (i + 2)) result
  end.

(** [decrypt_native_string(encrypted_hex, len)], [len] being the length
    of the string. *)
Definition decrypt_native_string {K} (env : environment) (encrypted_hex : string)
  : M K (list byte) :=
  native_loop env encrypted_hex 0 [].

(** [decrypted.c_str()] as [NewStringUTF] reads it: the bytes before
    the first NUL. *)
Fixpoint until_NUL (l : list byte) : list byte :=
  match l with
  | [] => []
  | b :: rest => if Byte.eqb b x00 then [] else b :: until_NUL rest
  end.

(** [NativeObfuscator_c], on the characters [GetStringUTFChars] gives
    for [encrypted_hex]: the C string handed to [NewStringUTF]. *)
Definition Java_com_example_raspsdk_NativeObfuscator_c
           {K} (env : environment) (hex_chars : string) : M K (list byte) :=
  inject_dead_code env ;;;
  t <- opaque_true env ;;
  if t then
    let hex_chars := c_str hex_chars in
    decrypted <- decrypt_native_string env hex_chars ;;
    t' <- opaque_true env ;;
    if t' then
      scramble_memory env ;;;
      ret (until_NUL decrypted)
    else
      inject_dead_code env ;;;
      ret []
  else
    inject_dead_code env ;;;
    ret [].

End ObfuscatorRest.

(** ** More vocabulary *)

Module SpecRest.
Import Kernel.

(** The first entry of [table], in its order, that [line] contains. *)
Definition FirstIn (table : list string) (line lib : string) : Prop :=
  exists earlier later,
    table = (earlier ++ lib :: later)%list /\
    Spec.Substring lib line /\
    forall l, In l earlier -> ~ Spec.Substring l line.

(** No entry of [table] occurs in [line]. *)
Definition NoneIn (table : list string) (line : string) : Prop :=
  forall l, In l table -> ~ Spec.Substring l line.

(** Two memories agree on the first [n] bytes. *)
Definition agree_below (n : nat) (m1 m2 : nat -> byte) : Prop :=
  forall i, (i < n)%nat -> m1 i = m2 i.

(** The two lowercase hexadecimal digits of a byte. *)
Definition hex_char (n : N) : ascii :=
  nth (N.to_nat n)
      ["0"; "1"; "2"; "3"; "4"; "5"; "6"; "7";
       "8"; "9"; "a"; "b"; "c"; "d"; "e"; "f"]%char "0"%char.

Definition hex2 (b : byte) : string :=
  String (hex_char (Byte.to_N b / 16))
         (String (hex_char (Byte.to_N b mod 16)) EmptyString).

(** The scrambling that [decrypt_native_string] undoes: byte number [j]
    is XORed with the low byte of [0xCC + j % 256] and written as two
    hexadecimal digits. *)
Fixpoint encrypt_native (x : list byte) (j : N) : string :=
  match x with
  | [] => EmptyString
  | b :: rest =>
      (hex2 (Int.to_uint8 (N.lxor (Byte.to_N b) (204 + j mod 256)))
       ++ encrypt_native rest (j + 1))%string
  end.

(** The bytes the loop of [decrypt_native_string] appends. *)
Fixpoint native_bytes (hex : string) (i : N) : list byte :=
  match hex with
  | EmptyString => []
  | String c1 EmptyString => [ObfuscatorRest.native_byte c1 CLib.NUL i]
  | String c1 (String c2 rest) =>
      ObfuscatorRest.native_byte c1 c2 i
        :: native_bytes rest (Int.to_size_t (i + 2))
  end.

(** The elapsed time between two clock readings, in nanoseconds. *)
Definition elapsed_ns (t1 t2 : NativeLibRest.timespec) : Z :=
  (NativeLibRest.tv_sec t2 - NativeLibRest.tv_sec t1) * 1000000000
  + (NativeLibRest.tv_nsec t2 - NativeLibRest.tv_nsec t1).

(** A reading of the monotonic clock as the kernel delivers it. *)
Definition plausible (t : NativeLibRest.timespec) : Prop :=
  0 <= NativeLibRest.tv_sec t < 4294967296 /\
  0 <= NativeLibRest.tv_nsec t < 1000000000.

(** The dumpable setting leaves the tracing status alone. *)
Definition prctl_keeps_tracing (K : kernel) : Prop :=
  forall arg k,
    tracing_of K (snd (sys_prctl_set_dumpable K arg k)) = tracing_of K k.

End SpecRest.

(** ** More fixtures *)

Module FixturesRest.
Import Kernel Spec Fixtures NativeLibRest.

(** An environment whose status file shows the tracer [pid], with a
    clock that always reads [count]. *)
Definition status_env (pid : string) (count : Z) : environment :=
  {| fs := single_file "/proc/self/status" (status_of pid);
     getenv := fun _ => None;
     clock := fun _ => count |}.

(** An emulator: only the qemud socket exists. *)
Definition emulator_fs : filesystem :=
  {| fopen := fun _ => None;
     access_F_OK := fun path => String.eqb path "/dev/socket/qemud" |}.

Definition emulator_env : environment :=
  {| fs := emulator_fs; getenv := fun _ => None; clock := fun _ => 7 |}.

(** A rooted device: one su binary and no mount table. *)
Definition su_fs : filesystem :=
  {| fopen := fun _ => None;
     access_F_OK := fun path => String.eqb path "/system/xbin/su" |}.

(** Code that starts with a jump, and the same with other bytes from
    the fifth on. *)
Definition code_with_jmp : nat -> byte :=
  fun i => if Nat.eqb i 0 then xe9 else x00.

Definition code_with_jmp_then_ff : nat -> byte :=
  fun i => if Nat.eqb i 0 then xe9 else if Nat.leb 4 i then xff else x00.

(** The window with the INT3 opcode at [offset], followed by other
    bytes behind the window. *)
Definition window_with_int3_then_ff (offset : nat) : nat -> byte :=
  fun i => if Nat.eqb i offset then xcc else if Nat.leb 4096 i then xff else x00.


Definition reading (sec nsec : Z) : timespec :=
  {| tv_sec := sec; tv_nsec := nsec |}.

End FixturesRest.

(* ================================================================= *)
(** * Part II: properties *)
(* ================================================================= *)

(** ** Bytes *)

Lemma to_uint8_to_N (b : byte) : Int.to_uint8 (Byte.to_N b) = b.
Proof.
  unfold Int.to_uint8.
  assert (H : (Byte.to_N b mod 256 = Byte.to_N b)%N).
  { apply N.mod_small. pose proof (Byte.to_N_bounded b). lia. }
  rewrite H, Byte.of_to_N. reflexivity.
Qed.

Lemma to_N_to_uint8 (n : N) : (n < 256)%N -> Byte.to_N (Int.to_uint8 n) = n.
Proof.
  intros Hn. unfold Int.to_uint8. rewrite N.mod_small by assumption.
  destruct (Byte.of_N n) eqn:E.
  - now apply Byte.to_of_N.
  - apply Byte.of_N_None_iff in E. lia.
Qed.

Lemma lxor_byte_bound (a b : N) : (a < 256)%N -> (b < 256)%N -> (N.lxor a b < 256)%N.
Proof.
  intros Ha Hb.
  destruct (N.eq_dec (N.lxor a b) 0) as [E | E]; [rewrite E; lia |].
  apply N.log2_lt_pow2 with (b := 8%N); [lia |].
  pose proof (N.log2_lxor a b) as Hl.
  assert (N.log2 a < 8)%N.
  { destruct (N.eq_dec a 0) as [-> | Na]; [cbn; lia |].
    apply N.log2_lt_pow2; [lia | exact Ha]. }
  assert (N.log2 b < 8)%N.
  { destruct (N.eq_dec b 0) as [-> | Nb]; [cbn; lia |].
    apply N.log2_lt_pow2; [lia | exact Hb]. }
  lia.
Qed.

Lemma byte_lt_256 (b : byte) : (Byte.to_N b < 256)%N.
Proof. pose proof (Byte.to_N_bounded b). lia. Qed.

(** XOR-ing a byte twice with the same key byte gives the byte back. *)
Lemma xor_key_twice (e k : byte) :
  Int.to_uint8
    (N.lxor (Byte.to_N (Int.to_uint8 (N.lxor (Byte.to_N e) (Byte.to_N k))))
            (Byte.to_N k)) = e.
Proof.
  rewrite to_N_to_uint8 by (apply lxor_byte_bound; apply byte_lt_256).
  rewrite N.lxor_assoc, N.lxor_nilpotent, N.lxor_0_r.
  apply to_uint8_to_N.
Qed.

Lemma decrypt_loop_twice (x : list byte) :
  forall i seed,
    Obfuscator.decrypt_loop (Obfuscator.decrypt_loop x i seed) i seed = x.
Proof.
  induction x as [| e rest IH]; intros i seed; cbn [Obfuscator.decrypt_loop].
  - reflexivity.
  - rewrite xor_key_twice, IH. reflexivity.
Qed.

(** The key schedule at seed 0 is the key XOR the index; at seed 255
    the low byte of [seed + i] wraps. *)
Example decrypt_string_zeros :
  Obfuscator.decrypt_string [x00; x00; x00] 0 = [xab; xcc; xed]
  /\ Obfuscator.decrypt_string [x00; x00; x00] 255 = [x54; xcd; xee]
  /\ Obfuscator.decrypt_string [] 7 = [].
Proof. repeat split. Qed.

(** C3. The XOR scrambling transform is self-inverse: for every byte
    sequence [x], the empty one included, and every seed, decrypting
    twice with the same key schedule and seed gives [x] back. *)
Theorem decrypt_string_involutive :
  forall (x : list byte) (seed : N),
    Obfuscator.decrypt_string (Obfuscator.decrypt_string x seed) seed = x.
Proof.
  intros x seed. unfold Obfuscator.decrypt_string.
  apply decrypt_loop_twice.
Qed.

(** ** The C library fragment *)

Section StringFacts.
Import CLib.

Lemma prefix_empty (s : string) : String.prefix EmptyString s = true.
Proof. destruct s; reflexivity. Qed.

Lemma prefix_spec (p : string) :
  forall s, String.prefix p s = true <-> Spec.StartsWith p s.
Proof.
  unfold Spec.StartsWith.
  induction p as [| a p IH]; intros s.
  - rewrite prefix_empty. split; [intros _; now exists s | reflexivity].
  - destruct s as [| b s]; cbn.
    + split; [discriminate | intros [r H]; discriminate].
    + destruct (ascii_dec a b) as [-> | Hne].
      * rewrite IH. split; intros [r H]; exists r.
        -- now rewrite H.
        -- now inversion H.
      * split; [discriminate |].
        intros [r H]. inversion H. congruence.
Qed.

Lemma strstr_unfold (h n : string) :
  strstr h n =
  String.prefix n h ||
  match h with
  | EmptyString => false
  | String _ rest => strstr rest n
  end.
Proof. destruct h; reflexivity. Qed.

(** [strstr] finds [needle] exactly when it occurs in [haystack]. *)
Lemma strstr_spec (h : string) :
  forall n, strstr h n = true <-> Spec.Substring n h.
Proof.
  unfold Spec.Substring.
  induction h as [| c h IH]; intros n; rewrite strstr_unfold, orb_true_iff.
  - split.
    + intros [H | H]; [| discriminate].
      apply prefix_spec in H. destruct H as [r H].
      exists EmptyString, r. exact H.
    + intros [a [b H]]. left. apply prefix_spec.
      destruct a; [| discriminate]. exists b. exact H.
  - split.
    + intros [H | H].
      * apply prefix_spec in H. destruct H as [r H].
        exists EmptyString, r. exact H.
      * apply IH in H. destruct H as [a [b H]].
        exists (String c a), b. cbn. now rewrite H.
    + intros [a [b H]]. destruct a as [| c' a].
      * left. apply prefix_spec. exists b. exact H.
      * right. apply IH. exists a, b. cbn in H. now inversion H.
Qed.

Lemma strstr_false (h n : string) :
  strstr h n = false <-> ~ Spec.Substring n h.
Proof.
  rewrite <- strstr_spec. destruct (strstr h n); split; congruence.
Qed.

Lemma uchar_inj (a b : ascii) : uchar a = uchar b -> a = b.
Proof.
  unfold uchar. intros H. apply N2Z.inj in H.
  rewrite <- (ascii_N_embedding a), <- (ascii_N_embedding b). now rewrite H.
Qed.

Lemma uchar_zero (a : ascii) : uchar a = 0 -> a = NUL.
Proof. intros H. apply uchar_inj. exact H. Qed.

(** Against a string without NUL, and over its whole length, [strncmp]
    answers 0 exactly on the strings that start with it. *)
Lemma strncmp_prefix (lit : string) :
  Spec.NoNUL lit ->
  forall s, strncmp s lit (String.length lit) = 0 <-> String.prefix lit s = true.
Proof.
  induction lit as [| c2 r2 IH]; intros Hn s.
  - rewrite prefix_empty. cbn. split; reflexivity.
  - destruct Hn as [Hc Hr]. cbn [String.length strncmp].
    destruct s as [| c1 r1].
    + cbn. split; [| discriminate].
      intros H. exfalso. apply Hc. apply uchar_zero. lia.
    + cbn [String.prefix]. destruct (Ascii.eqb_spec c1 c2) as [-> | Hne].
      * destruct (ascii_dec c2 c2) as [_ | F]; [| congruence].
        now apply IH.
      * destruct (ascii_dec c2 c1) as [F | _]; [congruence |].
        split; [| discriminate].
        intros H. exfalso. apply Hne. apply uchar_inj. lia.
Qed.

Lemma advance_append (p s : string) : advance (String.length p) (p ++ s) = s.
Proof.
  induction p as [| c p IH]; cbn.
  - destruct s; reflexivity.
  - exact IH.
Qed.

End StringFacts.

(** ** Reading a file line by line *)

Section ReadingLines.
Import CLib.

Lemma string_length_append (a b : string) :
  String.length (a ++ b)%string = (String.length a + String.length b)%nat.
Proof.
  induction a as [| c a IH]; cbn [append String.length].
  - reflexivity.
  - now rewrite IH.
Qed.

(** A read gives a front part of the stream and leaves the rest. *)
Lemma fgets_read_split (room : nat) :
  forall s buf rest,
    fgets_read room s = (buf, rest) -> s = (buf ++ rest)%string.
Proof.
  induction room as [| room IH]; intros s buf rest H.
  - cbn in H. destruct s; inversion H; reflexivity.
  - destruct s as [| c s']; cbn [fgets_read] in H.
    + inversion H. reflexivity.
    + destruct (Ascii.eqb c newline).
      * inversion H. reflexivity.
      * destruct (fgets_read room s') as [b r] eqn:E.
        inversion H. subst. cbn. f_equal. now apply IH.
Qed.

(** With room for a character, a read of a stream that is not at its end
    stores at least one. *)
Lemma fgets_read_progress (room : nat) (c : ascii) (s buf rest : string) :
  fgets_read (S room) (String c s) = (buf, rest) ->
  (String.length rest < String.length (String c s))%nat.
Proof.
  intros H. pose proof (fgets_read_split _ _ _ _ H) as Hs.
  cbn [fgets_read] in H.
  assert (Hb : buf <> EmptyString).
  { destruct (Ascii.eqb c newline).
    - inversion H. discriminate.
    - destruct (fgets_read room s). inversion H. discriminate. }
  rewrite Hs. destruct buf as [| b buf]; [contradiction |].
  cbn [append String.length]. rewrite string_length_append. lia.
Qed.

(** The loop over [fgets] ends by itself: more fuel than the length of
    the stream changes nothing. *)
Lemma read_lines_fuel_enough (size : nat) :
  (2 <= size)%nat ->
  forall fuel s,
    (String.length s <= fuel)%nat ->
    read_lines_fuel fuel size s = read_lines size s.
Proof.
  intros Hsize. unfold read_lines.
  assert (H : forall n fuel s,
             (String.length s <= n)%nat -> (String.length s <= fuel)%nat ->
             read_lines_fuel fuel size s =
             read_lines_fuel (String.length s) size s).
  { induction n as [| n IH]; intros fuel s Hn Hf.
    - destruct s; [| cbn in Hn; lia]. destruct fuel; reflexivity.
    - destruct s as [| c s']; [destruct fuel; reflexivity |].
      destruct fuel as [| fuel]; [cbn in Hf; lia |].
      cbn [String.length read_lines_fuel fgets].
      destruct size as [| [| room]]; [lia | lia |].
      replace (S (S room) - 1)%nat with (S room) by lia.
      destruct (fgets_read (S room) (String c s')) as [buf rest] eqn:E.
      pose proof (fgets_read_progress _ _ _ _ _ E) as Hp.
      cbn [String.length] in Hp, Hn, Hf.
      f_equal.
      rewrite (IH fuel rest) by lia.
      rewrite (IH (String.length s') rest) by lia.
      reflexivity. }
  intros fuel s Hf. now apply (H (String.length s)).
Qed.

Lemma text_lines_nil (s : string) : Spec.text_lines s = [] -> s = EmptyString.
Proof.
  destruct s as [| c s]; [reflexivity |]. cbn [Spec.text_lines].
  destruct (Ascii.eqb c newline); [discriminate |].
  destruct (Spec.text_lines s); discriminate.
Qed.

(** When the first line of the text fits the room, the read delivers it
    and leaves the other lines. *)
Lemma fgets_read_line (s : string) :
  forall room line lines,
    Spec.text_lines s = line :: lines ->
    (String.length line <= room)%nat ->
    exists rest,
      fgets_read room s = (line, rest) /\ Spec.text_lines rest = lines.
Proof.
  induction s as [| c s IH]; intros room line lines Ht Hfit.
  - discriminate.
  - cbn [Spec.text_lines] in Ht.
    destruct (Ascii.eqb c newline) eqn:Ec.
    + inversion Ht. subst. destruct room as [| room]; [cbn in Hfit; lia |].
      exists s. cbn [fgets_read]. rewrite Ec. now split.
    + destruct (Spec.text_lines s) as [| l ls] eqn:El.
      * inversion Ht. subst. destruct room as [| room]; [cbn in Hfit; lia |].
        apply text_lines_nil in El. subst s.
        exists EmptyString. cbn [fgets_read]. rewrite Ec.
        destruct room; now split.
      * inversion Ht. subst. destruct room as [| room]; [cbn in Hfit; lia |].
        cbn [String.length] in Hfit.
        destruct (IH room l lines eq_refl ltac:(lia)) as (rest & Hr & Hl).
        exists rest. cbn [fgets_read]. rewrite Ec, Hr. now split.
Qed.

Lemma NoNUL_app (a b : string) :
  Spec.NoNUL (a ++ b)%string <-> Spec.NoNUL a /\ Spec.NoNUL b.
Proof.
  induction a as [| c a IH]; cbn [append Spec.NoNUL].
  - tauto.
  - rewrite IH. tauto.
Qed.

Lemma c_str_NoNUL (s : string) : Spec.NoNUL s -> c_str s = s.
Proof.
  induction s as [| c s IH]; intros H; cbn [c_str].
  - reflexivity.
  - destruct H as [Hc Hs]. destruct (Ascii.eqb_spec c NUL); [contradiction |].
    now rewrite IH.
Qed.

(** On a text without NUL whose lines all fit the buffer, the loop over
    [fgets] sees the lines of the text, one per iteration. *)
Lemma read_lines_text_lines (size : nat) (s : string) :
  Spec.NoNUL s ->
  Forall (fun line => (String.length line < size)%nat) (Spec.text_lines s) ->
  read_lines size s = Spec.text_lines s.
Proof.
  unfold read_lines.
  assert (H : forall fuel s,
             (String.length s <= fuel)%nat ->
             Spec.NoNUL s ->
             Forall (fun line => (String.length line < size)%nat)
                    (Spec.text_lines s) ->
             read_lines_fuel fuel size s = Spec.text_lines s).
  { clear s. induction fuel as [| fuel IH]; intros s Hf Hn Hfit.
    - destruct s; [reflexivity | cbn in Hf; lia].
    - destruct s as [| c s']; [reflexivity |].
      cbn [read_lines_fuel fgets].
      destruct (Spec.text_lines (String c s')) as [| line lines] eqn:El.
      + apply text_lines_nil in El. discriminate.
      + inversion Hfit as [| ? ? Hline Hlines]. subst.
        destruct (fgets_read_line _ (size - 1) line lines El ltac:(lia))
          as (rest & Hr & Hl).
        rewrite Hr.
        pose proof (fgets_read_split _ _ _ _ Hr) as Hs.
        rewrite Hs in Hn. apply NoNUL_app in Hn. destruct Hn as [Hn1 Hn2].
        rewrite (c_str_NoNUL _ Hn1). f_equal.
        rewrite <- Hl. apply IH.
        * destruct size as [| [| room]]; [lia | |].
          { exfalso. destruct line; [| cbn in Hline; lia].
            cbn [Spec.text_lines] in El.
            destruct (Ascii.eqb c newline); [discriminate |].
            destruct (Spec.text_lines s'); discriminate. }
          replace (S (S room) - 1)%nat with (S room) in Hr by lia.
          pose proof (fgets_read_progress _ _ _ _ _ Hr) as Hp.
          cbn [String.length] in Hp, Hf. lia.
        * exact Hn2.
        * now rewrite Hl. }
  intros Hn Hfit. now apply H.
Qed.

End ReadingLines.

(** ** Parsing decimal numerals *)

Section Numerals.
Import CLib.

Lemma of_uint_acc_value (d : Decimal.uint) :
  forall acc, Z.pos (Pos.of_uint_acc d acc) = Spec.uint_value d (Z.pos acc).
Proof.
  induction d; intros acc; cbn [Pos.of_uint_acc Spec.uint_value];
    try reflexivity; rewrite IHd; f_equal; lia.
Qed.

Lemma of_uint_value (d : Decimal.uint) :
  Z.of_N (N.of_uint d) = Spec.uint_value d 0.
Proof.
  unfold N.of_uint.
  induction d; cbn [Pos.of_uint Spec.uint_value]; try reflexivity;
    try exact IHd; cbn [Z.of_N]; now rewrite of_uint_acc_value.
Qed.

(** Reading the digits of a numeral gives its value. *)
Lemma digits_from_numeral (d : Decimal.uint) :
  forall acc rest,
    starts_with_digit rest = false ->
    digits_from acc (NilEmpty.string_of_uint d ++ rest)%string =
    Spec.uint_value d acc.
Proof.
  induction d; intros acc rest Hrest;
    cbn [NilEmpty.string_of_uint append Spec.uint_value];
    try (cbn [digits_from];
         match goal with
         | |- context [isdigit ?c] => change (isdigit c) with true
         end;
         cbv iota; rewrite IHd by assumption; reflexivity).
  destruct rest as [| c rest]; [reflexivity |].
  cbn [digits_from]. cbn [starts_with_digit] in Hrest. now rewrite Hrest.
Qed.

Lemma to_int_small (z : Z) :
  0 <= z <= Int.INT_MAX -> Int.to_int z = z.
Proof.
  unfold Int.to_int, Int.INT_MAX. intros H.
  rewrite Z.mod_small by lia.
  destruct (Z.leb_spec z 2147483647); lia.
Qed.

(** [atoi] reads a numeral that follows a tab and is not followed by a
    digit as the number printed, within the range of [int]. *)
Lemma atoi_decimal (n : N) (rest : string) :
  starts_with_digit rest = false ->
  Z.of_N n <= Int.INT_MAX ->
  atoi (Spec.TAB ++ Spec.decimal n ++ rest)%string = Z.of_N n.
Proof.
  intros Hrest Hmax.
  unfold atoi, strtol, Spec.TAB. cbn [append skip_spaces].
  change (isspace "009") with true. cbv iota.
  assert (Hnum : signed_number (skip_spaces (Spec.decimal n ++ rest)%string)
                 = Some (Z.of_N n)).
  { unfold Spec.decimal.
    rewrite <- (DecimalN.Unsigned.of_to n) at 2.
    rewrite of_uint_value.
    rewrite <- (digits_from_numeral (N.to_uint n) 0 rest Hrest).
    assert (Hnn : N.to_uint n <> Decimal.Nil).
    { destruct n; [discriminate | apply DecimalPos.Unsigned.to_uint_nonnil]. }
    destruct (N.to_uint n); [contradiction | ..]; reflexivity. }
  rewrite Hnum.
  assert (0 <= Z.of_N n) by lia.
  unfold Int.INT_MAX, Int.LONG_MAX, Int.LONG_MIN in *.
  rewrite Z.min_r by lia. rewrite Z.max_r by lia.
  apply to_int_small. unfold Int.INT_MAX. lia.
Qed.

End Numerals.

(** ** The tracer-id probe *)

Section TracerPid.
Import CLib Kernel NativeLib.

Lemma tracer_key_test (line : string) :
  (strncmp line "TracerPid:" 10 =? 0) = true <-> Spec.StartsWith "TracerPid:" line.
Proof.
  rewrite Z.eqb_eq, <- prefix_spec.
  apply (strncmp_prefix "TracerPid:").
  cbn. repeat split; discriminate.
Qed.

Lemma tracer_pid_loop_spec (lines : list string) :
  tracer_pid_loop lines = JNI_TRUE <->
  exists value, Spec.TracerPidField lines value /\ atoi value <> 0.
Proof.
  unfold Spec.TracerPidField.
  induction lines as [| line rest IH]; cbn [tracer_pid_loop].
  - split; [discriminate |].
    intros (value & (before & after & H & _) & _).
    destruct before; discriminate.
  - destruct (strncmp line "TracerPid:" 10 =? 0) eqn:Hkey.
    + apply tracer_key_test in Hkey. destruct Hkey as [v Hv]. subst line.
      change 10%nat with (String.length "TracerPid:").
      rewrite advance_append.
      split.
      * intros H. exists v. split.
        -- exists [], rest. split; [reflexivity | constructor].
        -- destruct (atoi v =? 0) eqn:E; [discriminate |].
           now apply Z.eqb_neq.
      * intros (value & (before & after & H & Hb) & Hnz).
        destruct before as [| l0 before].
        -- cbn in H. inversion H. subst.
           apply Z.eqb_neq in Hnz. now rewrite Hnz.
        -- cbn in H. inversion H. subst l0.
           inversion Hb as [| ? ? Hl0 _]. exfalso. apply Hl0. now exists v.
    + assert (Hno : ~ Spec.StartsWith "TracerPid:" line).
      { intros H. apply tracer_key_test in H. congruence. }
      rewrite IH. split.
      * intros (value & (before & after & H & Hb) & Hnz).
        exists value. split; [| exact Hnz].
        exists (line :: before), after. split.
        -- cbn. now rewrite H.
        -- now constructor.
      * intros (value & (before & after & H & Hb) & Hnz).
        exists value. split; [| exact Hnz].
        destruct before as [| l0 before].
        -- cbn in H. inversion H. subst line. exfalso. apply Hno. now exists value.
        -- cbn in H. inversion H. subst.
           exists before, after. split; [reflexivity |].
           now inversion Hb.
Qed.

Lemma TracerPidField_unique (lines : list string) (v1 v2 : string) :
  Spec.TracerPidField lines v1 -> Spec.TracerPidField lines v2 -> v1 = v2.
Proof.
  unfold Spec.TracerPidField.
  revert v1 v2. induction lines as [| line rest IH]; intros v1 v2
    (b1 & a1 & H1 & F1) (b2 & a2 & H2 & F2).
  - destruct b1; discriminate.
  - destruct b1 as [| x1 b1], b2 as [| x2 b2]; cbn in H1, H2;
      inversion H1; inversion H2; subst.
    + match goal with H : _ = _ |- _ => now inversion H end.
    + inversion F2 as [| ? ? Hx _]. exfalso. apply Hx. now exists v1.
    + inversion F1 as [| ? ? Hx _]. exfalso. apply Hx. now exists v2.
    + apply IH.
      * exists b1, a1. split; [| now inversion F1].
        first [reflexivity | assumption | symmetry; assumption].
      * exists b2, a2. split; [| now inversion F2].
        first [reflexivity | assumption | symmetry; assumption].
Qed.

Lemma TracerPidField_none (lines : list string) (v : string) :
  Spec.TracerPidField lines v ->
  ~ Forall (fun l => ~ Spec.StartsWith "TracerPid:" l) lines.
Proof.
  intros (before & after & H & _) Hall. subst lines.
  apply Forall_app in Hall. destruct Hall as [_ Hall].
  inversion Hall as [| ? ? Hx _]. apply Hx. now exists v.
Qed.

End TracerPid.

Section TracerPidProbe.
Import CLib Kernel NativeLib.

(** C2. The tracer-id probe answers Suspicious exactly when the status
    record can be opened and the value of its TracerPid field (the
    first line that starts with the key) parses, by [atoi], to a
    nonzero integer; for a pid printed in decimal that is when the pid
    is not 0.  A value that parses to 0, a record without the field and
    a record that cannot be opened all give Clear.  The lines are those
    the loop reads; they are the lines of the text when these fit the
    buffer. *)
Theorem tracer_pid_probe_correct (fs : filesystem) :
  (Java_com_example_raspsdk_DebuggerDetection_nativeDebuggerCheck fs = JNI_TRUE <->
   exists content value,
     fopen fs "/proc/self/status" = Some content /\
     Spec.TracerPidField (read_lines 256 content) value /\
     atoi value <> 0)
  /\ (forall content value,
        fopen fs "/proc/self/status" = Some content ->
        Spec.TracerPidField (read_lines 256 content) value ->
        atoi value = 0 ->
        Java_com_example_raspsdk_DebuggerDetection_nativeDebuggerCheck fs = JNI_FALSE)
  /\ (forall content n,
        fopen fs "/proc/self/status" = Some content ->
        Spec.TracerPidField (read_lines 256 content)
                            (Spec.TAB ++ Spec.decimal n ++ Spec.LF) ->
        Z.of_N n <= Int.INT_MAX ->
        (Java_com_example_raspsdk_DebuggerDetection_nativeDebuggerCheck fs = JNI_TRUE
         <-> n <> 0%N))
  /\ (forall content,
        fopen fs "/proc/self/status" = Some content ->
        Forall (fun l => ~ Spec.StartsWith "TracerPid:" l) (read_lines 256 content) ->
        Java_com_example_raspsdk_DebuggerDetection_nativeDebuggerCheck fs = JNI_FALSE)
  /\ (fopen fs "/proc/self/status" = None ->
      Java_com_example_raspsdk_DebuggerDetection_nativeDebuggerCheck fs = JNI_FALSE)
  /\ (forall content,
        fopen fs "/proc/self/status" = Some content ->
        Spec.NoNUL content ->
        Forall (fun line => (String.length line < 256)%nat)
               (Spec.text_lines content) ->
        (Java_com_example_raspsdk_DebuggerDetection_nativeDebuggerCheck fs = JNI_TRUE
         <-> exists value,
               Spec.TracerPidField (Spec.text_lines content) value /\
               atoi value <> 0)).
Proof.
  unfold Java_com_example_raspsdk_DebuggerDetection_nativeDebuggerCheck.
  assert (Hiff :
    match fopen fs "/proc/self/status" with
    | Some fp => tracer_pid_loop (read_lines 256 fp)
    | None => JNI_FALSE
    end = JNI_TRUE <->
    exists content value,
      fopen fs "/proc/self/status" = Some content /\
      Spec.TracerPidField (read_lines 256 content) value /\
      atoi value <> 0).
  { destruct (fopen fs "/proc/self/status") as [fp |].
    - rewrite tracer_pid_loop_spec. split.
      + intros (value & Hf & Hv). now exists fp, value.
      + intros (content & value & Ho & Hf & Hv). inversion Ho. subst.
        now exists value.
    - split; [discriminate |].
      intros (content & value & Ho & _). discriminate. }
  split; [exact Hiff | split; [| split; [| split; [| split]]]].
  - intros content value Ho Hf Hz.
    apply not_true_is_false. intros Ht. apply Hiff in Ht.
    destruct Ht as (content' & value' & Ho' & Hf' & Hnz).
    rewrite Ho in Ho'. inversion Ho'. subst content'.
    rewrite (TracerPidField_unique _ _ _ Hf Hf') in Hz. contradiction.
  - intros content n Ho Hf Hmax. rewrite Hiff.
    pose proof (atoi_decimal n Spec.LF eq_refl Hmax) as Ha.
    split.
    + intros (content' & value' & Ho' & Hf' & Hnz).
      rewrite Ho in Ho'. inversion Ho'. subst content'.
      rewrite <- (TracerPidField_unique _ _ _ Hf Hf'), Ha in Hnz. lia.
    + intros Hn. exists content, (Spec.TAB ++ Spec.decimal n ++ Spec.LF)%string.
      split; [exact Ho |]. split; [exact Hf |]. rewrite Ha. lia.
  - intros content Ho Hall.
    apply not_true_is_false. intros Ht. apply Hiff in Ht.
    destruct Ht as (content' & value' & Ho' & Hf' & Hnz).
    rewrite Ho in Ho'. inversion Ho'. subst content'.
    exact (TracerPidField_none _ _ Hf' Hall).
  - intros Ho. rewrite Ho. reflexivity.
  - intros content Ho Hn Hfit.
    rewrite Hiff, <- (read_lines_text_lines 256 content Hn Hfit). split.
    + intros (content' & value & Ho' & Hf & Hv).
      rewrite Ho in Ho'. inversion Ho'. subst content'. now exists value.
    + intros (value & Hf & Hv). now exists content, value.
Qed.

End TracerPidProbe.

(** ** The scans of the memory map and of the mount table *)

Section ListingScans.
Import CLib Kernel NativeLib.

Lemma libs_loop_some (line : string) (libs : list string) (lib : string) :
  libs_loop line libs = Some lib -> In lib libs /\ strstr line lib = true.
Proof.
  induction libs as [| l rest IH]; cbn [libs_loop]; [discriminate |].
  destruct (strstr line l) eqn:E.
  - intros H. inversion H. subst. split; [now left | exact E].
  - intros H. destruct (IH H). split; [now right | assumption].
Qed.

Lemma libs_loop_none (line : string) (libs : list string) :
  libs_loop line libs = None <-> forall lib, In lib libs -> strstr line lib = false.
Proof.
  induction libs as [| l rest IH]; cbn [libs_loop].
  - split; [intros _ lib [] | reflexivity].
  - destruct (strstr line l) eqn:E.
    + split; [discriminate |].
      intros H. specialize (H l (or_introl eq_refl)). congruence.
    + rewrite IH. split.
      * intros H lib [<- | Hin]; [exact E | now apply H].
      * intros H lib Hin. apply H. now right.
Qed.

Lemma hook_loop_some (lines : list string) (lib : string) :
  hook_loop lines = Some lib ->
  In lib suspicious_libs /\ exists line, In line lines /\ strstr line lib = true.
Proof.
  induction lines as [| line rest IH]; cbn [hook_loop]; [discriminate |].
  destruct (libs_loop line suspicious_libs) as [l |] eqn:E.
  - intros H. inversion H. subst l.
    apply libs_loop_some in E. destruct E as [Hin Hs].
    split; [exact Hin |]. exists line. split; [now left | exact Hs].
  - intros H. destruct (IH H) as [Hin (l' & Hl' & Hs)].
    split; [exact Hin |]. exists l'. split; [now right | exact Hs].
Qed.

Lemma hook_loop_none (lines : list string) :
  hook_loop lines = None <->
  forall line lib, In line lines -> In lib suspicious_libs -> strstr line lib = false.
Proof.
  induction lines as [| line rest IH]; cbn [hook_loop].
  - split; [intros _ line lib [] | reflexivity].
  - destruct (libs_loop line suspicious_libs) as [l |] eqn:E.
    + split; [discriminate |].
      intros H. apply libs_loop_some in E. destruct E as [Hin Hs].
      rewrite (H line l (or_introl eq_refl) Hin) in Hs. discriminate.
    + rewrite IH. split.
      * intros H l lib [<- | Hin] Hlib.
        -- now apply (proj1 (libs_loop_none _ _) E).
        -- now apply H.
      * intros H l lib Hin. apply H. now right.
Qed.

Lemma mounts_loop_spec (lines : list string) :
  mounts_loop lines = JNI_TRUE <->
  exists line, In line lines /\
               Spec.Substring "/system" line /\ Spec.Substring "rw" line.
Proof.
  induction lines as [| line rest IH]; cbn [mounts_loop].
  - split; [discriminate | intros (l & [] & _)].
  - destruct (strstr line "/system" && strstr line "rw") eqn:E.
    + split; [| reflexivity]. intros _.
      apply andb_true_iff in E. destruct E as [E1 E2].
      exists line. rewrite <- !strstr_spec. split; [now left | now split].
    + rewrite IH. split.
      * intros (l & Hin & H). exists l. split; [now right | exact H].
      * intros (l & [<- | Hin] & H1 & H2).
        -- apply strstr_spec in H1, H2. rewrite H1, H2 in E. discriminate.
        -- exists l. now split.
Qed.

Lemma su_loop_none (fs : filesystem) (paths : list string) :
  (forall path, In path paths -> access_F_OK fs path = false) ->
  su_loop fs paths = None.
Proof.
  induction paths as [| path rest IH]; intros H; cbn [su_loop].
  - reflexivity.
  - rewrite (H path (or_introl eq_refl)). apply IH.
    intros p Hp. apply H. now right.
Qed.

End ListingScans.

Section HookScan.
Import CLib Kernel NativeLib.

(** C7, as the code has it.  The loaded-library scan answers
    Suspicious exactly when the memory map can be opened and one of the
    buffers the loop reads contains one of the configured substrings;
    the name it reports is one of them and occurs in such a buffer.  A
    listing whose buffers hold none of them and a listing that cannot be
    opened give Clear.  The buffers are the lines of the listing when it
    holds no NUL and its lines are shorter than 1024 bytes. *)
Theorem hook_scan_correct (fs : filesystem) :
  (fst (Java_com_example_raspsdk_HookDetection_nativeHookCheck fs) = JNI_TRUE <->
   exists content line lib,
     fopen fs "/proc/self/maps" = Some content /\
     In line (read_lines 1024 content) /\
     In lib suspicious_libs /\
     Spec.Substring lib line)
  /\ (fst (Java_com_example_raspsdk_HookDetection_nativeHookCheck fs) = JNI_TRUE ->
      exists content line lib,
        snd (Java_com_example_raspsdk_HookDetection_nativeHookCheck fs) = Some lib /\
        fopen fs "/proc/self/maps" = Some content /\
        In line (read_lines 1024 content) /\
        In lib suspicious_libs /\
        Spec.Substring lib line)
  /\ (forall content,
        fopen fs "/proc/self/maps" = Some content ->
        (forall line lib,
            In line (read_lines 1024 content) -> In lib suspicious_libs ->
            ~ Spec.Substring lib line) ->
        Java_com_example_raspsdk_HookDetection_nativeHookCheck fs = (JNI_FALSE, None))
  /\ (fopen fs "/proc/self/maps" = None ->
      Java_com_example_raspsdk_HookDetection_nativeHookCheck fs = (JNI_FALSE, None))
  /\ (forall content,
        fopen fs "/proc/self/maps" = Some content ->
        Spec.NoNUL content ->
        Forall (fun line => (String.length line < 1024)%nat)
               (Spec.text_lines content) ->
        (fst (Java_com_example_raspsdk_HookDetection_nativeHookCheck fs) = JNI_TRUE
         <-> exists line lib,
               In line (Spec.text_lines content) /\
               In lib suspicious_libs /\
               Spec.Substring lib line)).
Proof.
  unfold Java_com_example_raspsdk_HookDetection_nativeHookCheck.
  destruct (fopen fs "/proc/self/maps") as [fp |] eqn:Ho.
  - destruct (hook_loop (read_lines 1024 fp)) as [lib |] eqn:E; cbn [fst snd].
    + pose proof (hook_loop_some _ _ E) as (Hin & line & Hl & Hs).
      apply strstr_spec in Hs.
      split; [split | split; [| split; [| split]]].
      * intros _. now exists fp, line, lib.
      * reflexivity.
      * intros _. now exists fp, line, lib.
      * intros content Hc Hno. inversion Hc. subst content.
        exfalso. exact (Hno line lib Hl Hin Hs).
      * discriminate.
      * intros content Hc Hn Hfit. inversion Hc. subst content.
        rewrite (read_lines_text_lines 1024 fp Hn Hfit) in Hl.
        split; [intros _; now exists line, lib | reflexivity].
    + pose proof (proj1 (hook_loop_none _) E) as Hnone.
      split; [split | split; [| split; [| split]]].
      * discriminate.
      * intros (content & line & lib & Hc & Hl & Hin & Hs).
        inversion Hc. subst content. apply strstr_spec in Hs.
        rewrite (Hnone line lib Hl Hin) in Hs. discriminate.
      * discriminate.
      * reflexivity.
      * discriminate.
      * intros content Hc Hn Hfit. inversion Hc. subst content.
        split; [discriminate |].
        intros (line & lib & Hl & Hin & Hs).
        rewrite <- (read_lines_text_lines 1024 fp Hn Hfit) in Hl.
        apply strstr_spec in Hs.
        rewrite (Hnone line lib Hl Hin) in Hs. discriminate.
  - cbn [fst snd]. split; [split | split; [| split; [| split]]].
    + discriminate.
    + intros (content & line & lib & Hc & _). discriminate.
    + discriminate.
    + discriminate.
    + reflexivity.
    + discriminate.
Qed.

End HookScan.

Section MountCheck.
Import CLib Kernel NativeLib.

(** C8, as the code has it.  When no superuser binary exists at any of
    the probed paths, the root detector answers Suspicious exactly when
    the mount table can be opened and one of the buffers the loop reads
    contains the text [/system] and the text [rw], wherever in the
    buffer.  A table where no buffer with [/system] contains [rw], an
    empty table and a table that cannot be opened give Clear.  The
    buffers are the lines of the table when it holds no NUL and its
    lines are shorter than 1024 bytes. *)
Theorem mount_check_correct (fs : filesystem) :
  (forall path, In path su_paths -> access_F_OK fs path = false) ->
  (Java_com_example_raspsdk_RootDetection_nativeRootCheck fs = JNI_TRUE <->
   exists content line,
     fopen fs "/proc/mounts" = Some content /\
     In line (read_lines 1024 content) /\
     Spec.Substring "/system" line /\ Spec.Substring "rw" line)
  /\ (forall content,
        fopen fs "/proc/mounts" = Some content ->
        (forall line, In line (read_lines 1024 content) ->
                      Spec.Substring "/system" line -> ~ Spec.Substring "rw" line) ->
        Java_com_example_raspsdk_RootDetection_nativeRootCheck fs = JNI_FALSE)
  /\ (fopen fs "/proc/mounts" = Some EmptyString ->
      Java_com_example_raspsdk_RootDetection_nativeRootCheck fs = JNI_FALSE)
  /\ (fopen fs "/proc/mounts" = None ->
      Java_com_example_raspsdk_RootDetection_nativeRootCheck fs = JNI_FALSE)
  /\ (forall content,
        fopen fs "/proc/mounts" = Some content ->
        Spec.NoNUL content ->
        Forall (fun line => (String.length line < 1024)%nat)
               (Spec.text_lines content) ->
        (Java_com_example_raspsdk_RootDetection_nativeRootCheck fs = JNI_TRUE
         <-> exists line,
               In line (Spec.text_lines content) /\
               Spec.Substring "/system" line /\ Spec.Substring "rw" line)).
Proof.
  intros Hsu.
  unfold Java_com_example_raspsdk_RootDetection_nativeRootCheck.
  rewrite (su_loop_none fs su_paths Hsu).
  destruct (fopen fs "/proc/mounts") as [fp |] eqn:Ho.
  - assert (Hiff : mounts_loop (read_lines 1024 fp) = JNI_TRUE <->
                   exists content line,
                     Some fp = Some content /\ In line (read_lines 1024 content) /\
                     Spec.Substring "/system" line /\ Spec.Substring "rw" line).
    { rewrite mounts_loop_spec. split.
      - intros (line & H). now exists fp, line.
      - intros (content & line & Hc & H). inversion Hc. subst. now exists line. }
    split; [exact Hiff | split; [| split; [| split]]].
    + intros content Hc Hro. inversion Hc. subst content.
      apply not_true_is_false. intros Ht. apply Hiff in Ht.
      destruct Ht as (content & line & Hc' & Hl & H1 & H2).
      inversion Hc'. subst content. exact (Hro line Hl H1 H2).
    + intros Hc. inversion Hc. reflexivity.
    + discriminate.
    + intros content Hc Hn Hfit. inversion Hc. subst content.
      rewrite mounts_loop_spec, (read_lines_text_lines 1024 fp Hn Hfit).
      reflexivity.
  - split; [split | split; [| split; [| split]]].
    + discriminate.
    + intros (content & line & Hc & _). discriminate.
    + discriminate.
    + discriminate.
    + reflexivity.
    + discriminate.
Qed.

End MountCheck.

Section MemoryAudit.
Import CLib Kernel NativeLib.

Lemma incr_no_wrap (x : Z) :
  Int.INT_MIN <= x < Int.INT_MAX -> Int.incr x = x + 1.
Proof.
  unfold Int.incr, Int.to_int, Int.INT_MIN, Int.INT_MAX. intros H.
  destruct (Z_lt_le_dec (x + 1) 0) as [Hneg | Hpos].
  - assert (E : (x + 1) mod 4294967296 = x + 1 + 4294967296).
    { symmetry. apply Z.mod_unique with (q := -1); lia. }
    rewrite E. destruct (Z.leb_spec (x + 1 + 4294967296) 2147483647); lia.
  - rewrite Z.mod_small by lia.
    destruct (Z.leb_spec (x + 1) 2147483647); lia.
Qed.

Lemma memory_loop_count (lines : list string) :
  forall e w,
    0 <= w ->
    w + Z.of_nat (List.length (Spec.containing_rwxp lines)) <= Int.INT_MAX ->
    snd (memory_loop lines e w) =
    w + Z.of_nat (List.length (Spec.containing_rwxp lines)).
Proof.
  unfold Spec.containing_rwxp.
  induction lines as [| line rest IH]; intros e w Hw Hmax;
    cbn [memory_loop filter List.length] in *.
  - cbn. lia.
  - destruct (strstr line "rwxp") eqn:E.
    + rewrite orb_true_r. cbn [List.length] in *.
      rewrite IH.
      * rewrite incr_no_wrap; unfold Int.INT_MIN, Int.INT_MAX in *; lia.
      * rewrite incr_no_wrap; unfold Int.INT_MIN, Int.INT_MAX in *; lia.
      * rewrite incr_no_wrap; unfold Int.INT_MIN, Int.INT_MAX in *; lia.
    + rewrite orb_false_r.
      destruct (strstr line "r-xp"); now apply IH.
Qed.

(** C5, as the code has it.  The executable-region audit answers
    Suspicious exactly when the text [rwxp] occurs in more than 5 of
    the buffers the loop reads, for every listing whose count of such
    buffers fits the [int] counter: 5 gives Clear, 6 gives Suspicious.
    A map that cannot be opened gives Clear.  The buffers are the lines
    of the listing when it holds no NUL and its lines are shorter than
    1024 bytes. *)
Theorem memory_audit_threshold (fs : filesystem) :
  (forall content,
      fopen fs "/proc/self/maps" = Some content ->
      Z.of_nat (List.length (Spec.containing_rwxp (read_lines 1024 content)))
        <= Int.INT_MAX ->
      (Java_com_example_raspsdk_TamperDetection_nativeMemoryCheck fs = JNI_TRUE <->
       (5 < List.length (Spec.containing_rwxp (read_lines 1024 content)))%nat)
      /\ (List.length (Spec.containing_rwxp (read_lines 1024 content)) = 5%nat ->
          Java_com_example_raspsdk_TamperDetection_nativeMemoryCheck fs = JNI_FALSE)
      /\ (List.length (Spec.containing_rwxp (read_lines 1024 content)) = 6%nat ->
          Java_com_example_raspsdk_TamperDetection_nativeMemoryCheck fs = JNI_TRUE))
  /\ (fopen fs "/proc/self/maps" = None ->
      Java_com_example_raspsdk_TamperDetection_nativeMemoryCheck fs = JNI_FALSE)
  /\ (forall content,
        fopen fs "/proc/self/maps" = Some content ->
        Spec.NoNUL content ->
        Forall (fun line => (String.length line < 1024)%nat)
               (Spec.text_lines content) ->
        Z.of_nat (List.length (Spec.containing_rwxp (Spec.text_lines content)))
          <= Int.INT_MAX ->
        (Java_com_example_raspsdk_TamperDetection_nativeMemoryCheck fs = JNI_TRUE <->
         (5 < List.length (Spec.containing_rwxp (Spec.text_lines content)))%nat)).
Proof.
  unfold Java_com_example_raspsdk_TamperDetection_nativeMemoryCheck.
  assert (Hmain : forall content,
             fopen fs "/proc/self/maps" = Some content ->
             Z.of_nat (List.length
                         (Spec.containing_rwxp (read_lines 1024 content)))
               <= Int.INT_MAX ->
             (match fopen fs "/proc/self/maps" with
              | Some fp =>
                  let '(_, writable_executable_count) :=
                    memory_loop (read_lines 1024 fp) 0 0 in
                  if writable_executable_count >? 5 then JNI_TRUE else JNI_FALSE
              | None => JNI_FALSE
              end = JNI_TRUE <->
              (5 < List.length
                     (Spec.containing_rwxp (read_lines 1024 content)))%nat)).
  { intros content Ho Hfit. rewrite Ho.
    pose proof (memory_loop_count (read_lines 1024 content) 0 0 (Z.le_refl 0) Hfit)
      as Hc.
    destruct (memory_loop (read_lines 1024 content) 0 0) as [ec wc].
    cbn [snd] in Hc. subst wc. unfold JNI_TRUE, JNI_FALSE.
    destruct (Z.gtb_spec
                (0 + Z.of_nat (List.length
                                 (Spec.containing_rwxp
                                    (read_lines 1024 content)))) 5);
      split; try discriminate; try reflexivity; lia. }
  split; [| split].
  - intros content Ho Hfit. rewrite Ho.
    pose proof (memory_loop_count (read_lines 1024 content) 0 0 (Z.le_refl 0) Hfit) as Hc.
    destruct (memory_loop (read_lines 1024 content) 0 0) as [ec wc].
    cbn [snd] in Hc. subst wc.
    set (n := List.length (Spec.containing_rwxp (read_lines 1024 content))) in *.
    unfold JNI_TRUE, JNI_FALSE.
    destruct (Z.gtb_spec (0 + Z.of_nat n) 5) as [Hgt | Hle].
    + split; [split; [lia | reflexivity] | split; intros; [lia | reflexivity]].
    + split; [split; [discriminate | lia] | split; intros; [reflexivity | lia]].
  - intros Ho. rewrite Ho. reflexivity.
  - intros content Ho Hn Hfit Hmax.
    rewrite <- (read_lines_text_lines 1024 content Hn Hfit) in *.
    now apply Hmain.
Qed.

End MemoryAudit.

(** ** The breakpoint scan *)

Section BreakpointScan.
Import NativeLib Spec.

(** The byte is the INT3 opcode. *)
Lemma byte_at_int3 (memory : nat -> byte) (i : nat) :
  byte_at memory i = 204 <-> memory i = xcc.
Proof.
  unfold byte_at. split.
  - intros H.
    assert (E : Byte.to_N (memory i) = Byte.to_N xcc) by (cbn; lia).
    apply (f_equal Byte.of_N) in E. rewrite !Byte.of_to_N in E.
    now inversion E.
  - intros ->. reflexivity.
Qed.

Lemma breakpoint_loop_spec (memory : nat -> byte) (remaining : nat) :
  forall i,
    breakpoint_loop memory i remaining = JNI_TRUE <->
    exists j, (i <= j < i + remaining)%nat /\
              (memory j = xcc \/
               ((j < scan_size - 3)%nat /\ arm_breakpoint_at memory j)).
Proof.
  unfold arm_breakpoint_at.
  induction remaining as [| r IH]; intros i; cbn [breakpoint_loop].
  - split; [discriminate | intros (j & Hj & _); lia].
  - destruct (byte_at memory i =? 204) eqn:Ecc.
    + split; [| reflexivity]. intros _.
      exists i. split; [lia |]. left.
      apply byte_at_int3. now apply Z.eqb_eq.
    + destruct ((i <? scan_size - 3)%nat
                && (Z.land (load_uint32 memory i) 4293918960 =? 3776970864)) eqn:Earm.
      * split; [| reflexivity]. intros _.
        apply andb_true_iff in Earm. destruct Earm as [E1 E2].
        exists i. split; [lia |]. right.
        split; [now apply Nat.ltb_lt | now apply Z.eqb_eq].
      * rewrite IH. split.
        -- intros (j & Hj & H). exists j. split; [lia | exact H].
        -- intros (j & Hj & H).
           destruct (Nat.eq_dec j i) as [-> | Hne].
           ++ exfalso. destruct H as [H | [H1 H2]].
              ** apply byte_at_int3 in H. apply Z.eqb_neq in Ecc. contradiction.
              ** apply Nat.ltb_lt in H1. apply Z.eqb_eq in H2.
                 rewrite H1, H2 in Earm. discriminate.
           ++ exists j. split; [lia | exact H].
Qed.

(** C6. The breakpoint scan answers Suspicious when the opcode 0xCC
    stands at any offset of the 4096-byte window, the last one
    (offset 4095) included, and Clear when the window holds neither
    that opcode nor, at any offset where four bytes fit, the bit
    pattern of the 4-byte breakpoint instruction. *)
Theorem breakpoint_scan_window (memory : nat -> byte) :
  (forall i, (i < 4096)%nat -> memory i = xcc ->
             Java_com_example_raspsdk_TamperDetection_nativeBreakpointScan memory
             = JNI_TRUE)
  /\ (memory 4095%nat = xcc ->
      Java_com_example_raspsdk_TamperDetection_nativeBreakpointScan memory = JNI_TRUE)
  /\ ((forall i, (i < 4096)%nat -> memory i <> xcc) ->
      (forall i, (i + 3 < 4096)%nat -> ~ arm_breakpoint_at memory i) ->
      Java_com_example_raspsdk_TamperDetection_nativeBreakpointScan memory
      = JNI_FALSE).
Proof.
  unfold Java_com_example_raspsdk_TamperDetection_nativeBreakpointScan.
  assert (Hhit : forall i, (i < 4096)%nat -> memory i = xcc ->
                           breakpoint_loop memory 0 scan_size = JNI_TRUE).
  { intros i Hi Hcc. apply breakpoint_loop_spec.
    exists i. split; [unfold scan_size; lia | now left]. }
  split; [exact Hhit | split].
  - apply Hhit. lia.
  - intros Hcc Harm. apply not_true_is_false. intros Ht.
    apply breakpoint_loop_spec in Ht. destruct Ht as (j & Hj & [H | [H1 H2]]).
    + apply (Hcc j); [unfold scan_size in Hj; lia | exact H].
    + apply (Harm j); [unfold scan_size in H1; lia | exact H2].
Qed.

End BreakpointScan.

(** ** The signal latch *)

Section Latch.
Import SignalLatch.
Local Open Scope list_scope.

Lemma signal_keeps_flag (signum : Z) (h : handler) (st : latch) :
  debugger_detected (signal signum h st) = debugger_detected st.
Proof. unfold signal. destruct (_ || _); reflexivity. Qed.

Lemma call_keeps_flag (op : operation) (st : latch) :
  debugger_detected (call op st) = debugger_detected st.
Proof.
  destruct op; cbn [call]; try reflexivity.
  unfold Java_com_example_raspsdk_DebuggerDetection_nativeSignalCheck.
  match goal with |- context [if ?b then _ else _] => destruct b end;
    cbn [snd]; now rewrite !signal_keeps_flag.
Qed.

(** What the flag is after one event. *)
Lemma step_flag (ev : event) (st : latch) :
  debugger_detected (step ev st) =
  if sets_flag ev st then 1 else debugger_detected st.
Proof.
  unfold step, sets_flag.
  destruct (alive st) eqn:Ha.
  - destruct ev as [op | signum].
    + apply call_keeps_flag.
    + unfold deliver. cbn [andb].
      destruct (signum =? SIGKILL) eqn:Ek; cbn [negb andb]; [reflexivity |].
      destruct (signum =? SIGSTOP) eqn:Es; cbn [negb andb]; [reflexivity |].
      destruct (disposition st signum); cbn [run_handler].
      * destruct (default_ignored_or_stops signum); reflexivity.
      * destruct (signum =? SIGTRAP); reflexivity.
      * rewrite Es. cbn [orb]. destruct (signum =? SIGCONT); reflexivity.
      * reflexivity.
  - destruct ev; reflexivity.
Qed.

(** No event clears the flag. *)
Lemma step_keeps_flag (ev : event) (st : latch) :
  debugger_detected st = 1 -> debugger_detected (step ev st) = 1.
Proof. intros H. rewrite step_flag. now destruct (sets_flag ev st). Qed.

Lemma run_keeps_flag (evs : list event) :
  forall st, debugger_detected st = 1 -> debugger_detected (run evs st) = 1.
Proof.
  unfold run. induction evs as [| ev evs IH]; intros st H; cbn [fold_left].
  - exact H.
  - apply IH. now apply step_keeps_flag.
Qed.

Lemma run_app (evs1 evs2 : list event) (st : latch) :
  run (evs1 ++ evs2) st = run evs2 (run evs1 st).
Proof. unfold run. apply fold_left_app. Qed.

Lemma query_reads_flag (st : latch) :
  fst (Java_com_example_raspsdk_DebuggerDetection_nativeSignalCheck st) =
  negb (debugger_detected st =? 0).
Proof.
  unfold Java_com_example_raspsdk_DebuggerDetection_nativeSignalCheck.
  rewrite !signal_keeps_flag.
  destruct (debugger_detected st =? 0); reflexivity.
Qed.

(** The flag is 1 after a history exactly when some handler run of the
    history wrote it. *)
Lemma flag_history (evs : list event) :
  (debugger_detected (run evs boot) = 1 <->
   exists before ev after,
     evs = before ++ ev :: after /\ sets_flag ev (run before boot) = true)
  /\ (debugger_detected (run evs boot) = 0 \/ debugger_detected (run evs boot) = 1).
Proof.
  induction evs as [| ev evs [IH Hrange]] using rev_ind.
  - split; [| now left].
    split; [discriminate |].
    intros (before & e & after & H & _). destruct before; discriminate.
  - rewrite run_app. change (run [ev] (run evs boot)) with (step ev (run evs boot)).
    rewrite step_flag. destruct (sets_flag ev (run evs boot)) eqn:Es.
    + split; [| now right]. split; [| reflexivity]. intros _.
      exists evs, ev, []. now split.
    + split; [| exact Hrange]. rewrite IH. split.
      * intros (before & e & after & H & Hs). subst evs.
        exists before, e, (after ++ [ev]). split; [| exact Hs].
        now rewrite <- app_assoc.
      * intros (before & e & after & H & Hs).
        destruct after as [| a after] using rev_ind.
        -- apply app_inj_tail in H. destruct H as [-> ->]. congruence.
        -- clear IHafter. rewrite app_comm_cons, app_assoc in H.
           apply app_inj_tail in H. destruct H as [-> _].
           now exists before, e, after.
Qed.

(** C9. The detection flag is sticky.  Once it is set, no sequence of
    calls into the module and of signals clears it, and the
    signal-observation query answers Suspicious from then on; after a
    handler has set it, the query answers Suspicious on every later
    call; and at any point in the life of the process the query answers
    Suspicious exactly when a handler has set the flag earlier. *)
Theorem detection_flag_sticky :
  (forall st evs,
      debugger_detected st = 1 ->
      debugger_detected (run evs st) = 1
      /\ fst (Java_com_example_raspsdk_DebuggerDetection_nativeSignalCheck
                (run evs st)) = JNI_TRUE)
  /\ (forall before ev after,
         sets_flag ev (run before boot) = true ->
         fst (Java_com_example_raspsdk_DebuggerDetection_nativeSignalCheck
                (run (before ++ ev :: after) boot)) = JNI_TRUE)
  /\ (forall evs,
         fst (Java_com_example_raspsdk_DebuggerDetection_nativeSignalCheck
                (run evs boot)) = JNI_TRUE <->
         exists before ev after,
           evs = before ++ ev :: after /\ sets_flag ev (run before boot) = true).
Proof.
  assert (Hq : forall evs,
             fst (Java_com_example_raspsdk_DebuggerDetection_nativeSignalCheck
                    (run evs boot)) = JNI_TRUE <->
             exists before ev after,
               evs = before ++ ev :: after /\ sets_flag ev (run before boot) = true).
  { intros evs. rewrite query_reads_flag.
    destruct (flag_history evs) as [Hh Hr]. rewrite <- Hh.
    unfold JNI_TRUE. destruct Hr as [E | E]; rewrite E; cbn; split; congruence. }
  split; [| split].
  - intros st evs H. pose proof (run_keeps_flag evs st H) as Hr.
    split; [exact Hr |]. rewrite query_reads_flag, Hr. reflexivity.
  - intros before ev after Hs. apply Hq. now exists before, ev, after.
  - exact Hq.
Qed.

End Latch.

(** ** The self-ptrace probe and the hardening call *)

Section SelfPtrace.
Import Kernel NativeLib Spec.
Local Open Scope list_scope.

Variable K : kernel.
Hypothesis contract : Spec.ptrace_contract K.

(** On a traced process the self-ptrace probe answers true, and leaves
    the status alone. *)
Lemma nativePtraceCheck_traced (p : process K) :
  tracing_of K (kern p) <> Untraced ->
  fst (Java_com_example_raspsdk_DebuggerDetection_nativePtraceCheck p) = JNI_TRUE
  /\ tracing_of K
       (kern (snd (Java_com_example_raspsdk_DebuggerDetection_nativePtraceCheck p)))
     = tracing_of K (kern p).
Proof.
  intros Hne.
  unfold Java_com_example_raspsdk_DebuggerDetection_nativePtraceCheck,
    bind, ret, get_errno, ptrace, syscall_return.
  destruct (sys_ptrace K PTRACE_TRACEME (kern p)) as [r k1] eqn:Ht.
  pose proof (traceme_when_traced K contract _ _ _ Hne Ht) as Hr. subst r.
  cbn [errno kern fst snd].
  change (-1 =? -1) with true. rewrite Z.eqb_refl. cbn [andb fst snd kern].
  split; [reflexivity |].
  exact (failed_request_changes_nothing K contract _ _ _ _ Ht).
Qed.

Hypothesis refused : Spec.self_detach_refused K.

(** The detach the module issues is refused and changes nothing. *)
Lemma self_detach_keeps_status (k : kstate K) :
  tracing_of K (snd (sys_ptrace K PTRACE_DETACH k)) = tracing_of K k.
Proof.
  pose proof (refused k) as Hr.
  destruct (sys_ptrace K PTRACE_DETACH k) as [r k'] eqn:Hd.
  cbn [fst snd] in *. subst r.
  exact (failed_request_changes_nothing K contract _ _ _ _ Hd).
Qed.

(** The probe leaves the tracing status as its trace-me request left
    it. *)
Lemma nativePtraceCheck_status (p : process K) :
  tracing_of K
    (kern (snd (Java_com_example_raspsdk_DebuggerDetection_nativePtraceCheck p)))
  = tracing_of K (snd (sys_ptrace K PTRACE_TRACEME (kern p))).
Proof.
  unfold Java_com_example_raspsdk_DebuggerDetection_nativePtraceCheck,
    bind, ret, get_errno, ptrace, syscall_return.
  destruct (sys_ptrace K PTRACE_TRACEME (kern p)) as [[| e] k1] eqn:Ht;
    cbn [errno kern fst snd].
  - change (0 =? -1) with false. cbn [andb errno kern fst snd].
    pose proof (self_detach_keeps_status k1) as Hd.
    destruct (sys_ptrace K PTRACE_DETACH k1) as [[| e2] k2]; exact Hd.
  - change (-1 =? -1) with true. cbn [andb].
    destruct (e =? EPERM) eqn:Ee; cbn [errno kern fst snd].
    + reflexivity.
    + pose proof (self_detach_keeps_status k1) as Hd.
      destruct (sys_ptrace K PTRACE_DETACH k1) as [[| e2] k2]; exact Hd.
Qed.

(** Where the request is refused, for whatever reason, the status after
    the probe is the status before it. *)
Lemma nativePtraceCheck_refused_keeps (p : process K) (e : Z) :
  fst (sys_ptrace K PTRACE_TRACEME (kern p)) = Failed e ->
  tracing_of K
    (kern (snd (Java_com_example_raspsdk_DebuggerDetection_nativePtraceCheck p)))
  = tracing_of K (kern p).
Proof.
  intros Hf. rewrite nativePtraceCheck_status.
  destruct (sys_ptrace K PTRACE_TRACEME (kern p)) as [r k1] eqn:Ht.
  cbn [fst snd] in *. subst r.
  exact (failed_request_changes_nothing K contract _ _ _ _ Ht).
Qed.

End SelfPtrace.

(** ** The obfuscated debugger check *)

Section ObfuscatedCheck.
Import Kernel Obfuscator Spec.
Local Open Scope list_scope.

Variable K : kernel.
Variable env : environment.

Lemma opaque_true_run (p : process K) : opaque_true env p = (true, tick p).
Proof.
  unfold opaque_true, bind, now, ret. f_equal.
  destruct (Z.gtb_spec (clock env (ticks p)) 0); [reflexivity |].
  cbn [orb]. apply Z.leb_le. lia.
Qed.

Lemma opaque_false_run (p : process K) :
  opaque_false env p = (clock env (ticks p) <? 0, tick p).
Proof. reflexivity. Qed.

Lemma inject_dead_code_run (p : process K) :
  inject_dead_code env p = (tt, tick p).
Proof.
  unfold inject_dead_code, bind. rewrite opaque_false_run.
  destruct (clock env (ticks p) <? 0); reflexivity.
Qed.

Lemma ptrace_branch_run (p : process K) :
  ptrace_branch env p =
  let (r, p1) := ptrace PTRACE_TRACEME (tick p) in
  let (_, p2) := ptrace PTRACE_DETACH p1 in
  (Some (if r =? -1 then true else false), tick p2).
Proof.
  unfold ptrace_branch, bind. rewrite opaque_true_run.
  destruct (ptrace PTRACE_TRACEME (tick p)) as [r p1].
  destruct (ptrace PTRACE_DETACH p1) as [d p2].
  unfold ret. now rewrite inject_dead_code_run.
Qed.

Lemma status_branch_run (p : process K) :
  status_branch env p = (status_shows_tracer env, tick (tick p)).
Proof.
  unfold status_branch, bind. rewrite opaque_true_run.
  now rewrite inject_dead_code_run.
Qed.

Lemma getenv_branch_run (p : process K) :
  getenv_branch env p = (Some (debug_variable_set env), tick (tick p)).
Proof.
  unfold getenv_branch, bind. rewrite opaque_true_run.
  now rewrite inject_dead_code_run.
Qed.

(** The check, with the clock readings it makes spelled out: the
    selector is the second reading. *)
Lemma check_debugger_obfuscated_run (p : process K) :
  check_debugger_obfuscated env p =
  let count := clock env (S (ticks p)) in
  let (result, p') :=
    (if Z.rem count 3 =? 0 then ptrace_branch env
     else if Z.rem count 3 =? 1 then status_branch env
     else getenv_branch env) (tick (tick p)) in
  (result, tick p').
Proof.
  unfold check_debugger_obfuscated, bind. rewrite inject_dead_code_run.
  unfold now. cbn [ticks tick].
  match goal with
  | |- context [(if ?b then ?x else ?y) ?q] => destruct ((if b then x else y) q)
  end.
  now rewrite inject_dead_code_run.
Qed.

End ObfuscatedCheck.

Section SelfPtraceProbe.
Import Kernel NativeLib Obfuscator Spec.
Local Open Scope list_scope.

Variable K : kernel.
Variable env : environment.
Hypothesis contract : ptrace_contract K.

(** The system calls of the probe: the request, and the detach unless
    the request failed with EPERM. *)
Lemma nativePtraceCheck_calls (p : process K) :
  (forall r k1,
      sys_ptrace K PTRACE_TRACEME (kern p) = (r, k1) ->
      r <> Failed EPERM ->
      calls_of Java_com_example_raspsdk_DebuggerDetection_nativePtraceCheck p
               [Sys_ptrace PTRACE_TRACEME; Sys_ptrace PTRACE_DETACH]
      /\ fst (Java_com_example_raspsdk_DebuggerDetection_nativePtraceCheck p)
         = JNI_FALSE)
  /\ (forall k1,
         sys_ptrace K PTRACE_TRACEME (kern p) = (Failed EPERM, k1) ->
         calls_of Java_com_example_raspsdk_DebuggerDetection_nativePtraceCheck p
                  [Sys_ptrace PTRACE_TRACEME]
         /\ fst (Java_com_example_raspsdk_DebuggerDetection_nativePtraceCheck p)
            = JNI_TRUE).
Proof.
  unfold calls_of, Java_com_example_raspsdk_DebuggerDetection_nativePtraceCheck,
    bind, ret, get_errno, ptrace, syscall_return.
  split.
  - intros r k1 Ht Hr. rewrite Ht.
    destruct r as [| e]; cbn [errno kern fst snd issued].
    + change (0 =? -1) with false. cbn [andb errno kern fst snd issued].
      destruct (sys_ptrace K PTRACE_DETACH k1) as [[| e2] k2];
        cbn [issued snd fst]; now rewrite <- app_assoc.
    + change (-1 =? -1) with true. cbn [andb].
      destruct (e =? EPERM) eqn:Ee.
      * apply Z.eqb_eq in Ee. subst e. contradiction.
      * cbn [errno kern fst snd issued].
        destruct (sys_ptrace K PTRACE_DETACH k1) as [[| e2] k2];
          cbn [issued snd fst]; now rewrite <- app_assoc.
  - intros k1 Ht. rewrite Ht. cbn [errno kern fst snd issued].
    change (-1 =? -1) with true. rewrite Z.eqb_refl. cbn [andb issued snd fst].
    now split.
Qed.

Lemma obfuscated_ptrace_branch_run (p : process K) :
  Z.rem (clock env (S (ticks p))) 3 = 0 ->
  check_debugger_obfuscated env p =
  let (r, p1) := ptrace PTRACE_TRACEME (tick (tick (tick p))) in
  let (_, p2) := ptrace PTRACE_DETACH p1 in
  (Some (if r =? -1 then true else false), tick (tick p2)).
Proof.
  intros Hb. rewrite check_debugger_obfuscated_run. cbv zeta.
  rewrite Hb. change (0 =? 0) with true. cbv iota.
  rewrite ptrace_branch_run.
  destruct (ptrace PTRACE_TRACEME (tick (tick (tick p)))) as [r p1].
  destruct (ptrace PTRACE_DETACH p1) as [d p2]. reflexivity.
Qed.

(** The obfuscated ptrace branch always issues the request and the
    detach. *)
Lemma obfuscated_ptrace_branch_calls (p : process K) :
  Z.rem (clock env (S (ticks p))) 3 = 0 ->
  calls_of (check_debugger_obfuscated env) p
           [Sys_ptrace PTRACE_TRACEME; Sys_ptrace PTRACE_DETACH].
Proof.
  intros Hb. unfold calls_of. rewrite (obfuscated_ptrace_branch_run p Hb).
  unfold ptrace, syscall_return. cbn [tick kern errno issued ticks].
  destruct (sys_ptrace K PTRACE_TRACEME (kern p)) as [[| e] k1];
    cbn [kern errno issued ticks];
    destruct (sys_ptrace K PTRACE_DETACH k1) as [[| e2] k2];
    cbn [snd tick issued]; now rewrite <- app_assoc.
Qed.

(** What the obfuscated ptrace branch leaves of the tracing status. *)
Lemma obfuscated_ptrace_branch_kernel (p : process K) :
  Z.rem (clock env (S (ticks p))) 3 = 0 ->
  kern (snd (check_debugger_obfuscated env p)) =
  snd (sys_ptrace K PTRACE_DETACH
         (snd (sys_ptrace K PTRACE_TRACEME (kern p)))).
Proof.
  intros Hb. rewrite (obfuscated_ptrace_branch_run p Hb).
  unfold ptrace, syscall_return. cbn [tick kern errno issued ticks].
  destruct (sys_ptrace K PTRACE_TRACEME (kern p)) as [[| e] k1];
    cbn [kern errno issued ticks snd];
    destruct (sys_ptrace K PTRACE_DETACH k1) as [[| e2] k2];
    reflexivity.
Qed.

Hypothesis refused : self_detach_refused K.

(** The obfuscated ptrace branch leaves the tracing status as its
    trace-me request left it. *)
Lemma obfuscated_ptrace_branch_status (p : process K) :
  Z.rem (clock env (S (ticks p))) 3 = 0 ->
  tracing_of K (kern (snd (check_debugger_obfuscated env p)))
  = tracing_of K (snd (sys_ptrace K PTRACE_TRACEME (kern p))).
Proof.
  intros Hb. rewrite (obfuscated_ptrace_branch_kernel p Hb).
  apply (self_detach_keeps_status K contract refused).
Qed.

(** C1, where the code departs from it.  The probe issues its detach
    after a granted trace-me request, but the detach names no tracee and
    the kernel refuses it: the process, untraced before the call, is
    traced on its own request after it, the probe having answered
    false, and the next call of the probe answers true.  The ptrace
    branch of the obfuscated check leaves the process traced in the
    same way. *)
Theorem self_ptrace_probe_stays_traced (p : process K) :
  fst (sys_ptrace K PTRACE_TRACEME (kern p)) = Done ->
  tracing_of K (kern p) = Untraced
  /\ fst (Java_com_example_raspsdk_DebuggerDetection_nativePtraceCheck p)
     = JNI_FALSE
  /\ calls_of Java_com_example_raspsdk_DebuggerDetection_nativePtraceCheck p
              [Sys_ptrace PTRACE_TRACEME; Sys_ptrace PTRACE_DETACH]
  /\ tracing_of K
       (kern (snd (Java_com_example_raspsdk_DebuggerDetection_nativePtraceCheck p)))
     = TraceRequested
  /\ fst (Java_com_example_raspsdk_DebuggerDetection_nativePtraceCheck
            (snd (Java_com_example_raspsdk_DebuggerDetection_nativePtraceCheck p)))
     = JNI_TRUE
  /\ (Z.rem (clock env (S (ticks p))) 3 = 0 ->
      calls_of (check_debugger_obfuscated env) p
               [Sys_ptrace PTRACE_TRACEME; Sys_ptrace PTRACE_DETACH]
      /\ tracing_of K (kern (snd (check_debugger_obfuscated env p)))
         = TraceRequested).
Proof.
  intros Hgrant.
  destruct (sys_ptrace K PTRACE_TRACEME (kern p)) as [r k1] eqn:Ht.
  cbn [fst] in Hgrant. subst r.
  destruct (traceme_granted K contract _ _ Ht) as [Hbefore Hafter].
  assert (Hnot : Done <> Failed EPERM) by discriminate.
  destruct (proj1 (nativePtraceCheck_calls p) Done k1 Ht Hnot) as [Hcalls Hres].
  assert (Hst : tracing_of K
                  (kern (snd (Java_com_example_raspsdk_DebuggerDetection_nativePtraceCheck
                                p))) = TraceRequested).
  { rewrite (nativePtraceCheck_status K contract refused), Ht. exact Hafter. }
  split; [exact Hbefore |]. split; [exact Hres |]. split; [exact Hcalls |].
  split; [exact Hst |]. split.
  - apply (nativePtraceCheck_traced K contract). rewrite Hst. discriminate.
  - intros Hb. split; [exact (obfuscated_ptrace_branch_calls p Hb) |].
    rewrite (obfuscated_ptrace_branch_status p Hb), Ht. exact Hafter.
Qed.

End SelfPtraceProbe.

(** ** The hardening call *)

Section Hardening.
Import Kernel NativeLib Spec.
Local Open Scope list_scope.

Variable K : kernel.
Hypothesis contract : ptrace_contract K.


End Hardening.

(** ** The result of the obfuscated check and the branch selector *)

Section BranchSelector.
Import Kernel NativeLib Obfuscator Spec.

Variable K : kernel.

(** The result of the check is that of the probe its selector picks. *)
Lemma check_debugger_obfuscated_result (env : environment) (p : process K) :
  fst (check_debugger_obfuscated env p) =
  selected_probe K env (kern p) (clock env (S (ticks p))).
Proof.
  rewrite check_debugger_obfuscated_run. cbv zeta. unfold selected_probe.
  destruct (Z.rem (clock env (S (ticks p))) 3 =? 0).
  - rewrite ptrace_branch_run. unfold ptrace, syscall_return, traceme_is_refused.
    cbn [tick kern errno issued ticks].
    destruct (sys_ptrace K PTRACE_TRACEME (kern p)) as [[| e] k1];
      cbn [kern errno issued ticks fst];
      destruct (sys_ptrace K PTRACE_DETACH k1) as [[| e2] k2];
      reflexivity.
  - destruct (Z.rem (clock env (S (ticks p))) 3 =? 1).
    + now rewrite status_branch_run.
    + now rewrite getenv_branch_run.
Qed.

(** With a clock that reads times since the epoch, the entry point
    returns what the check returns; the selector is its fifth reading. *)
Lemma NativeObfuscator_a_result (env : environment) (p : process K) :
  (forall n, 0 <= clock env n) ->
  fst (Java_com_example_raspsdk_NativeObfuscator_a env p) =
  selected_probe K env (kern p) (clock env (ticks p + 4)).
Proof.
  intros Hclock.
  assert (Hfalse : forall q : process K, opaque_false env q = (false, tick q)).
  { intros q. rewrite opaque_false_run. f_equal.
    apply Z.ltb_ge. apply Hclock. }
  unfold Java_com_example_raspsdk_NativeObfuscator_a, bind.
  rewrite inject_dead_code_run.
  unfold scramble_memory, bind. rewrite Hfalse. unfold ret at 1.
  rewrite opaque_true_run.
  pose proof (check_debugger_obfuscated_result env (tick (tick (tick p)))) as Hr.
  cbn [tick kern ticks] in Hr.
  replace (S (S (S (S (ticks p))))) with (ticks p + 4)%nat in Hr by lia.
  destruct (check_debugger_obfuscated env (tick (tick (tick p)))) as [result q].
  cbn [fst] in Hr. rewrite <- Hr.
  destruct result as [[|] |].
  - rewrite opaque_true_run, Hfalse. unfold ret.
    now rewrite inject_dead_code_run.
  - unfold ret. now rewrite inject_dead_code_run.
  - unfold ret. now rewrite inject_dead_code_run.
Qed.

(** C4, as the code has it.  For a fixed state of the environment, the
    obfuscated check returns the result of the one probe that the
    selector (the clock reading taken for it, modulo 3) picks: ptrace,
    status file or environment variables.  Opaque predicates and dead
    code do not change it, and two runs whose selectors pick the same
    probe return the same boolean.  Where the selector picks the status
    file, this is said for a file on which the probe has a result: one
    where it never tests the pid of a buffer in which [sscanf] found no
    number. *)
Theorem obfuscated_check_selector_only (env1 env2 : environment) (p : process K) :
  fs env1 = fs env2 ->
  getenv env1 = getenv env2 ->
  (forall n, 0 <= clock env1 n) ->
  (forall n, 0 <= clock env2 n) ->
  Z.rem (clock env1 (ticks p + 4)) 3 = Z.rem (clock env2 (ticks p + 4)) 3 ->
  (Z.rem (clock env1 (ticks p + 4)) 3 = 1 -> status_shows_tracer env1 <> None) ->
  exists result : bool,
    selected_probe K env1 (kern p) (clock env1 (ticks p + 4)) = Some result
    /\ fst (Java_com_example_raspsdk_NativeObfuscator_a env1 p) = Some result
    /\ fst (Java_com_example_raspsdk_NativeObfuscator_a env2 p) = Some result.
Proof.
  intros Hfs Hge H1 H2 Hsel Hdef.
  rewrite !NativeObfuscator_a_result by assumption.
  assert (Hsame : selected_probe K env2 (kern p) (clock env2 (ticks p + 4))
                  = selected_probe K env1 (kern p) (clock env1 (ticks p + 4))).
  { unfold selected_probe, status_shows_tracer, debug_variable_set.
    now rewrite Hsel, Hfs, Hge. }
  rewrite Hsame.
  destruct (selected_probe K env1 (kern p) (clock env1 (ticks p + 4)))
    as [result |] eqn:E.
  - exists result. now repeat split.
  - exfalso. unfold selected_probe in E.
    destruct (Z.rem (clock env1 (ticks p + 4)) 3 =? 0); [discriminate |].
    destruct (Z.rem (clock env1 (ticks p + 4)) 3 =? 1) eqn:E1; [| discriminate].
    apply Z.eqb_eq in E1. now apply Hdef.
Qed.

End BranchSelector.

(** C4 as stated fails: in one and the same environment, with the
    variable DEBUG set and the process untraced, the check returns false
    when the selector picks the ptrace probe and true when it picks the
    environment probe. *)
Lemma obfuscated_check_branch_dependent :
  Kernel.fs (Fixtures.debug_env 0) = Kernel.fs (Fixtures.debug_env 2)
  /\ Kernel.getenv (Fixtures.debug_env 0) = Kernel.getenv (Fixtures.debug_env 2)
  /\ fst (Obfuscator.Java_com_example_raspsdk_NativeObfuscator_a
            (Fixtures.debug_env 0) (Linux.start (Linux.fresh Kernel.Untraced)))
     = Some JNI_FALSE
  /\ fst (Obfuscator.Java_com_example_raspsdk_NativeObfuscator_a
            (Fixtures.debug_env 2) (Linux.start (Linux.fresh Kernel.Untraced)))
     = Some JNI_TRUE
  /\ fst (Obfuscator.Java_com_example_raspsdk_NativeObfuscator_a
            (Fixtures.debug_env 0) (Linux.start (Linux.fresh Kernel.Untraced)))
     <> fst (Obfuscator.Java_com_example_raspsdk_NativeObfuscator_a
               (Fixtures.debug_env 2) (Linux.start (Linux.fresh Kernel.Untraced))).
Proof.
  split; [reflexivity |]. split; [reflexivity |].
  split; [reflexivity |]. split; [reflexivity |].
  vm_compute. discriminate.
Qed.

(** ** Where the claims as stated fail *)

(** C5 as stated fails: six shared regions marked writable and
    executable are answered Clear, six read-only regions of a file
    whose path holds the text [rwxp] are answered Suspicious, and so are
    three writable and executable regions whose lines are read in two
    buffers each. *)
Lemma memory_audit_counts_text_not_flags :
  List.length (filter Spec.marked_writable_executable
                      (Spec.text_lines (Fixtures.maps_with_shared_wx 6))) = 6%nat
  /\ NativeLib.Java_com_example_raspsdk_TamperDetection_nativeMemoryCheck
       (Fixtures.single_file "/proc/self/maps" (Fixtures.maps_with_shared_wx 6))
     = JNI_FALSE
  /\ List.length (filter Spec.marked_writable_executable
                         (Spec.text_lines (Fixtures.maps_with_rwxp_path 6))) = 0%nat
  /\ NativeLib.Java_com_example_raspsdk_TamperDetection_nativeMemoryCheck
       (Fixtures.single_file "/proc/self/maps" (Fixtures.maps_with_rwxp_path 6))
     = JNI_TRUE
  /\ List.length (filter Spec.marked_writable_executable
                         (Spec.text_lines (Fixtures.maps_with_long_wx_lines 3)))
     = 3%nat
  /\ NativeLib.Java_com_example_raspsdk_TamperDetection_nativeMemoryCheck
       (Fixtures.single_file "/proc/self/maps" (Fixtures.maps_with_long_wx_lines 3))
     = JNI_TRUE.
Proof. repeat split; vm_compute; reflexivity. Qed.

(** C7 as stated fails: a listing whose one line contains [libhook] is
    answered Clear when the name lies across the end of the line
    buffer. *)
Lemma hook_scan_misses_name_across_buffers :
  Spec.text_lines Fixtures.maps_with_long_path = [Fixtures.maps_with_long_path]
  /\ In "libhook"%string NativeLib.suspicious_libs
  /\ Spec.Substring "libhook" Fixtures.maps_with_long_path
  /\ NativeLib.Java_com_example_raspsdk_HookDetection_nativeHookCheck
       (Fixtures.single_file "/proc/self/maps" Fixtures.maps_with_long_path)
     = (JNI_FALSE, None).
Proof.
  split; [vm_compute; reflexivity |].
  split; [vm_compute; tauto |].
  split; [apply strstr_spec; vm_compute; reflexivity |].
  vm_compute. reflexivity.
Qed.

(** C8 as stated fails: with no superuser binary, a table whose only
    writable entry is mounted at [/system_ext] is answered Suspicious,
    and so is a table that mounts [/system] with read-only option tokens
    only; a table that mounts [/system] writable is answered Clear when
    the option stands in the second buffer read from its line. *)
Lemma mount_check_tests_text_not_fields :
  (forall path, In path NativeLib.su_paths ->
                Kernel.access_F_OK
                  (Fixtures.single_file "/proc/mounts" Fixtures.mounts_system_ext)
                  path = false)
  /\ existsb Spec.system_mounted_writable
             (Spec.text_lines Fixtures.mounts_system_ext) = false
  /\ NativeLib.Java_com_example_raspsdk_RootDetection_nativeRootCheck
       (Fixtures.single_file "/proc/mounts" Fixtures.mounts_system_ext) = JNI_TRUE
  /\ Spec.mount_point Fixtures.mounts_overlay_ro = "/system"%string
  /\ Spec.mount_options Fixtures.mounts_overlay_ro
     = ["ro"; "seclabel"; "lowerdir=/mnt/rw_layer"]%string
  /\ NativeLib.Java_com_example_raspsdk_RootDetection_nativeRootCheck
       (Fixtures.single_file "/proc/mounts" Fixtures.mounts_overlay_ro) = JNI_TRUE
  /\ existsb Spec.system_mounted_writable
             (Spec.text_lines Fixtures.mounts_rw_behind_long_option) = true
  /\ NativeLib.Java_com_example_raspsdk_RootDetection_nativeRootCheck
       (Fixtures.single_file "/proc/mounts" Fixtures.mounts_rw_behind_long_option)
     = JNI_FALSE.
Proof.
  split; [intros path _; reflexivity |].
  repeat split; vm_compute; reflexivity.
Qed.


(** ** The theorems at work on the fixtures *)

Section Witnesses.
Import Kernel CLib NativeLib Obfuscator Spec Fixtures.
Local Open Scope list_scope.

(** The Linux-like kernel of Part I obeys the ptrace contract and
    refuses the detach. *)
Lemma linux_ptrace_contract : ptrace_contract Linux.kernel.
Proof.
  constructor; cbn [sys_ptrace tracing_of Linux.kernel kstate].
  - intros req k e k' H. destruct req; cbn [Linux.do_ptrace] in H.
    + destruct (Linux.tracer k) eqn:E;
        [destruct (Linux.traceme_refused k) | |];
        inversion H; subst; congruence.
    + inversion H; subst; reflexivity.
  - intros k k' H. cbn [Linux.do_ptrace] in H.
    destruct (Linux.tracer k) eqn:E; [destruct (Linux.traceme_refused k) | |];
      inversion H. now split.
  - intros k r k' Hne H. cbn [Linux.do_ptrace] in H.
    destruct (Linux.tracer k) eqn:E; [contradiction | |]; now inversion H.
Qed.

Lemma linux_self_detach_refused : self_detach_refused Linux.kernel.
Proof. intros k. reflexivity. Qed.

Lemma self_ptrace_probe_stays_traced_witness :
  tracing_of Linux.kernel (kern (Linux.start (Linux.fresh Untraced))) = Untraced
  /\ fst (Java_com_example_raspsdk_DebuggerDetection_nativePtraceCheck
            (Linux.start (Linux.fresh Untraced))) = JNI_FALSE
  /\ calls_of Java_com_example_raspsdk_DebuggerDetection_nativePtraceCheck
              (Linux.start (Linux.fresh Untraced))
              [Sys_ptrace PTRACE_TRACEME; Sys_ptrace PTRACE_DETACH]
  /\ tracing_of Linux.kernel
       (kern (snd (Java_com_example_raspsdk_DebuggerDetection_nativePtraceCheck
                     (Linux.start (Linux.fresh Untraced)))))
     = TraceRequested
  /\ fst (Java_com_example_raspsdk_DebuggerDetection_nativePtraceCheck
            (snd (Java_com_example_raspsdk_DebuggerDetection_nativePtraceCheck
                    (Linux.start (Linux.fresh Untraced))))) = JNI_TRUE
  /\ tracing_of Linux.kernel
       (kern (snd (check_debugger_obfuscated (quiet_env 0)
                     (Linux.start (Linux.fresh Untraced)))))
     = TraceRequested.
Proof.
  destruct (self_ptrace_probe_stays_traced
              Linux.kernel (quiet_env 0)
              linux_ptrace_contract linux_self_detach_refused
              (Linux.start (Linux.fresh Untraced)) eq_refl)
    as (H1 & H2 & H3 & H4 & H5 & H6).
  split; [exact H1 |]. split; [exact H2 |]. split; [exact H3 |].
  split; [exact H4 |]. split; [exact H5 |].
  exact (proj2 (H6 eq_refl)).
Defined.

Lemma tracer_pid_probe_correct_witness :
  Java_com_example_raspsdk_DebuggerDetection_nativeDebuggerCheck
    (single_file "/proc/self/status" (status_of "1234")) = JNI_TRUE
  /\ Java_com_example_raspsdk_DebuggerDetection_nativeDebuggerCheck
       (single_file "/proc/self/status" (status_of "0")) = JNI_FALSE
  /\ Java_com_example_raspsdk_DebuggerDetection_nativeDebuggerCheck
       (single_file "/proc/self/status" status_without_tracer) = JNI_FALSE
  /\ Java_com_example_raspsdk_DebuggerDetection_nativeDebuggerCheck no_files
     = JNI_FALSE
  /\ Java_com_example_raspsdk_DebuggerDetection_nativeDebuggerCheck
       (single_file "/proc/self/status" (status_of (decimal 4194304))) = JNI_TRUE.
Proof.
  split; [| split; [| split; [| split]]].
  - apply (proj1 (tracer_pid_probe_correct _)).
    exists (status_of "1234"), (TAB ++ "1234" ++ LF)%string.
    split; [reflexivity |]. split.
    + exists [("Name:" ++ TAB ++ "app" ++ LF)%string;
              ("State:" ++ TAB ++ "S (sleeping)" ++ LF)%string],
             [("Uid:" ++ TAB ++ "10123" ++ LF)%string].
      split; [reflexivity |].
      repeat constructor; intros [r H]; discriminate H.
    + vm_compute. discriminate.
  - apply (proj1 (proj2 (tracer_pid_probe_correct _))
             (status_of "0") (TAB ++ "0" ++ LF)%string).
    + reflexivity.
    + exists [("Name:" ++ TAB ++ "app" ++ LF)%string;
              ("State:" ++ TAB ++ "S (sleeping)" ++ LF)%string],
             [("Uid:" ++ TAB ++ "10123" ++ LF)%string].
      split; [reflexivity |].
      repeat constructor; intros [r H]; discriminate H.
    + reflexivity.
  - apply (proj1 (proj2 (proj2 (proj2 (tracer_pid_probe_correct _))))
             status_without_tracer).
    + reflexivity.
    + repeat constructor; intros [r H]; discriminate H.
  - apply (proj1 (proj2 (proj2 (proj2 (proj2 (tracer_pid_probe_correct _)))))).
    reflexivity.
  - apply (proj1 (proj2 (proj2 (tracer_pid_probe_correct _)))
             (status_of (decimal 4194304)) 4194304%N).
    + reflexivity.
    + exists [("Name:" ++ TAB ++ "app" ++ LF)%string;
              ("State:" ++ TAB ++ "S (sleeping)" ++ LF)%string],
             [("Uid:" ++ TAB ++ "10123" ++ LF)%string].
      split; [reflexivity |].
      repeat constructor; intros [r H]; discriminate H.
    + unfold Int.INT_MAX. lia.
    + discriminate.
Defined.

Lemma obfuscated_check_selector_only_witness :
  exists result : bool,
    selected_probe Linux.kernel (FixturesRest.status_env "1234" 1)
                   (kern (Linux.start (Linux.fresh Untraced)))
                   (clock (FixturesRest.status_env "1234" 1)
                          (ticks (Linux.start (Linux.fresh Untraced)) + 4))
    = Some result
    /\ fst (Java_com_example_raspsdk_NativeObfuscator_a
              (FixturesRest.status_env "1234" 1)
              (Linux.start (Linux.fresh Untraced))) = Some result
    /\ fst (Java_com_example_raspsdk_NativeObfuscator_a
              (FixturesRest.status_env "1234" 4)
              (Linux.start (Linux.fresh Untraced))) = Some result.
Proof.
  apply (obfuscated_check_selector_only
           Linux.kernel
           (FixturesRest.status_env "1234" 1) (FixturesRest.status_env "1234" 4)
           (Linux.start (Linux.fresh Untraced))).
  - reflexivity.
  - reflexivity.
  - intros n. cbn. lia.
  - intros n. cbn. lia.
  - reflexivity.
  - intros _. vm_compute. discriminate.
Defined.

Lemma memory_audit_threshold_witness :
  Java_com_example_raspsdk_TamperDetection_nativeMemoryCheck
    (single_file "/proc/self/maps" (maps_with_wx 5)) = JNI_FALSE
  /\ Java_com_example_raspsdk_TamperDetection_nativeMemoryCheck
       (single_file "/proc/self/maps" (maps_with_wx 6)) = JNI_TRUE
  /\ Java_com_example_raspsdk_TamperDetection_nativeMemoryCheck no_files
     = JNI_FALSE.
Proof.
  split; [| split].
  - refine (proj1 (proj2 (proj1 (memory_audit_threshold _) (maps_with_wx 5) _ _)) _).
    + reflexivity.
    + vm_compute. discriminate.
    + vm_compute. reflexivity.
  - refine (proj2 (proj2 (proj1 (memory_audit_threshold _) (maps_with_wx 6) _ _)) _).
    + reflexivity.
    + vm_compute. discriminate.
    + vm_compute. reflexivity.
  - apply (proj1 (proj2 (memory_audit_threshold _))). reflexivity.
Defined.

Lemma breakpoint_scan_window_witness :
  Java_com_example_raspsdk_TamperDetection_nativeBreakpointScan
    (window_with_int3 17) = JNI_TRUE
  /\ Java_com_example_raspsdk_TamperDetection_nativeBreakpointScan
       (window_with_int3 4095) = JNI_TRUE
  /\ Java_com_example_raspsdk_TamperDetection_nativeBreakpointScan
       window_clean = JNI_FALSE.
Proof.
  split; [| split].
  - apply (proj1 (breakpoint_scan_window _) 17%nat); [lia | reflexivity].
  - apply (proj1 (proj2 (breakpoint_scan_window _))). reflexivity.
  - apply (proj2 (proj2 (breakpoint_scan_window _))).
    + intros i _. discriminate.
    + intros i _. unfold arm_breakpoint_at. vm_compute. discriminate.
Defined.

Lemma hook_scan_correct_witness :
  Java_com_example_raspsdk_HookDetection_nativeHookCheck
    (single_file "/proc/self/maps" maps_with_frida) = (JNI_TRUE, Some "frida"%string)
  /\ Java_com_example_raspsdk_HookDetection_nativeHookCheck
       (single_file "/proc/self/maps" maps_clean) = (JNI_FALSE, None)
  /\ Java_com_example_raspsdk_HookDetection_nativeHookCheck no_files
     = (JNI_FALSE, None).
Proof.
  split; [| split].
  - assert (Ht : fst (Java_com_example_raspsdk_HookDetection_nativeHookCheck
                        (single_file "/proc/self/maps" maps_with_frida)) = JNI_TRUE).
    { apply (proj1 (hook_scan_correct _)).
      exists maps_with_frida,
             (maps_line "r-xp" "/data/local/tmp/frida-agent-64.so"),
             "frida"%string.
      split; [reflexivity |]. split; [right; left; reflexivity |].
      split; [left; reflexivity |].
      exists "7f3a1c000000-7f3a1c021000 r-xp 00000000 fd:01 1311 /data/local/tmp/"%string,
             ("-agent-64.so" ++ LF)%string.
      reflexivity. }
    destruct (proj1 (proj2 (hook_scan_correct _)) Ht)
      as (content & line & lib & Hs & _).
    vm_compute. reflexivity.
  - apply (proj1 (proj2 (proj2 (hook_scan_correct _))) maps_clean).
    + reflexivity.
    + intros line lib Hl Hlib. apply strstr_false.
      vm_compute in Hl.
      destruct Hl as [<- | [<- | []]];
        repeat (destruct Hlib as [<- | Hlib]; [vm_compute; reflexivity |]);
        destruct Hlib.
  - apply (proj1 (proj2 (proj2 (proj2 (hook_scan_correct _))))). reflexivity.
Defined.

Lemma mount_check_correct_witness :
  Java_com_example_raspsdk_RootDetection_nativeRootCheck
    (single_file "/proc/mounts" mounts_rw) = JNI_TRUE
  /\ Java_com_example_raspsdk_RootDetection_nativeRootCheck
       (single_file "/proc/mounts" mounts_ro) = JNI_FALSE
  /\ Java_com_example_raspsdk_RootDetection_nativeRootCheck
       (single_file "/proc/mounts" EmptyString) = JNI_FALSE
  /\ Java_com_example_raspsdk_RootDetection_nativeRootCheck no_files = JNI_FALSE.
Proof.
  split; [| split; [| split]].
  - apply (proj1 (mount_check_correct (single_file "/proc/mounts" mounts_rw)
                    (fun path _ => eq_refl))).
    exists mounts_rw, mounts_rw.
    split; [reflexivity |]. split; [left; reflexivity |].
    split; apply strstr_spec; vm_compute; reflexivity.
  - apply (proj1 (proj2 (mount_check_correct (single_file "/proc/mounts" mounts_ro)
                           (fun path _ => eq_refl))) mounts_ro).
    + reflexivity.
    + intros line Hl _. apply strstr_false.
      vm_compute in Hl. destruct Hl as [<- | []]. vm_compute. reflexivity.
  - apply (proj1 (proj2 (proj2 (mount_check_correct
                                  (single_file "/proc/mounts" EmptyString)
                                  (fun path _ => eq_refl))))).
    reflexivity.
  - apply (proj1 (proj2 (proj2 (proj2 (mount_check_correct no_files
                                         (fun path _ => eq_refl)))))).
    reflexivity.
Defined.

Lemma detection_flag_sticky_witness :
  fst (SignalLatch.Java_com_example_raspsdk_DebuggerDetection_nativeSignalCheck
         (SignalLatch.run
            ([SignalLatch.Call SignalLatch.nativeSignalCheck]
               ++ SignalLatch.Signal SignalLatch.SIGTRAP
               :: [SignalLatch.Call SignalLatch.NativeObfuscator_e;
                   SignalLatch.Signal SignalLatch.SIGCONT;
                   SignalLatch.Call SignalLatch.nativeHardenSystem])
            SignalLatch.boot)) = JNI_TRUE.
Proof.
  apply (proj1 (proj2 detection_flag_sticky)). reflexivity.
Defined.


End Witnesses.

(* ================================================================= *)
(** * Part III: the rest of the two files *)
(* ================================================================= *)

(** ** Scans of the memory map: the first match, and the narrower scan *)

Section TableScans.
Import CLib Kernel NativeLib NativeLibRest Spec SpecRest.
Local Open Scope list_scope.

Lemma Substring_trans (a b c : string) :
  Substring a b -> Substring b c -> Substring a c.
Proof.
  intros (p1 & q1 & H1) (p2 & q2 & H2). subst.
  exists (p2 ++ p1)%string, (q1 ++ q2)%string.
  clear. induction p2 as [| ch p2 IH]; cbn [append].
  - induction p1 as [| ch p1 IH1]; cbn [append].
    + induction a as [| ch a IHa]; cbn [append]; [reflexivity | now rewrite IHa].
    + now rewrite IH1.
  - now rewrite IH.
Qed.

(** The inner loop answers with the first entry of the table, in table
    order, that the line contains. *)
Lemma libs_loop_first (line : string) (table : list string) :
  (forall lib, libs_loop line table = Some lib <-> FirstIn table line lib)
  /\ (libs_loop line table = None <-> NoneIn table line).
Proof.
  unfold FirstIn, NoneIn.
  induction table as [| l rest [IHs IHn]]; cbn [libs_loop].
  - split.
    + intros lib. split; [discriminate |].
      intros (e & la & H & _). destruct e; discriminate.
    + split; [intros _ l [] | reflexivity].
  - destruct (strstr line l) eqn:E.
    + split.
      * intros lib. split.
        -- intros H. inversion H. subst lib.
           exists [], rest. split; [reflexivity |].
           split; [now apply strstr_spec | intros ? []].
        -- intros (e & la & H & Hs & Hno).
           destruct e as [| x e]; cbn in H; inversion H; subst.
           ++ reflexivity.
           ++ exfalso. apply (Hno x); [now left | now apply strstr_spec].
      * split; [discriminate |].
        intros H. exfalso. apply (H l); [now left | now apply strstr_spec].
    + apply strstr_false in E. split.
      * intros lib. rewrite IHs. split.
        -- intros (e & la & H & Hs & Hno). exists (l :: e), la.
           split; [cbn; now rewrite H |]. split; [exact Hs |].
           intros x [<- | Hx]; [exact E | now apply Hno].
        -- intros (e & la & H & Hs & Hno).
           destruct e as [| x e]; cbn in H; inversion H; subst.
           ++ contradiction.
           ++ exists e, la. split; [reflexivity |]. split; [exact Hs |].
              intros y Hy. apply Hno. now right.
      * rewrite IHn. split.
        -- intros H x [<- | Hx]; [exact E | now apply H].
        -- intros H x Hx. apply H. now right.
Qed.

Lemma hook_loop_first (lines : list string) (lib : string) :
  hook_loop lines = Some lib <->
  exists before line after,
    lines = before ++ line :: after /\
    (forall l, In l before -> NoneIn suspicious_libs l) /\
    FirstIn suspicious_libs line lib.
Proof.
  induction lines as [| line rest IH]; cbn [hook_loop].
  - split; [discriminate |].
    intros (b & l & a & H & _). destruct b; discriminate.
  - destruct (libs_loop line suspicious_libs) as [found |] eqn:E.
    + apply (proj1 (libs_loop_first _ _)) in E. split.
      * intros H. inversion H. subst found.
        exists [], line, rest. split; [reflexivity |].
        split; [intros ? [] | exact E].
      * intros (b & l & a & H & Hb & Hf).
        destruct b as [| x b]; cbn in H; inversion H; subst.
        -- apply (proj1 (libs_loop_first _ _)) in E, Hf. congruence.
        -- exfalso. destruct E as (e & la & Ht & Hs & _).
           apply (Hb _ (or_introl eq_refl) found); [| exact Hs].
           rewrite Ht. apply in_elt.
    + apply (proj2 (libs_loop_first _ _)) in E. rewrite IH. split.
      * intros (b & l & a & H & Hb & Hf). exists (line :: b), l, a.
        split; [cbn; now rewrite H |]. split; [| exact Hf].
        intros x [<- | Hx]; [exact E | now apply Hb].
      * intros (b & l & a & H & Hb & Hf).
        destruct b as [| x b]; cbn in H; inversion H; subst.
        -- exfalso. destruct Hf as (e & la & Ht & Hs & _).
           apply (E lib); [rewrite Ht; apply in_elt | exact Hs].
        -- exists b, l, a. split; [reflexivity |]. split; [| exact Hf].
           intros y Hy. apply Hb. now right.
Qed.

(** X1. The library name that the hook scan logs is the first match:
    it comes from the first line read that contains any entry of the
    table, and is the first entry, in table order, which that line
    contains. *)
Theorem hook_scan_first_match (fs : filesystem) (lib : string) :
  snd (Java_com_example_raspsdk_HookDetection_nativeHookCheck fs) = Some lib <->
  exists content before line after,
    fopen fs "/proc/self/maps" = Some content /\
    read_lines 1024 content = before ++ line :: after /\
    (forall l, In l before -> NoneIn suspicious_libs l) /\
    FirstIn suspicious_libs line lib.
Proof.
  unfold Java_com_example_raspsdk_HookDetection_nativeHookCheck.
  destruct (fopen fs "/proc/self/maps") as [fp |].
  - destruct (hook_loop (read_lines 1024 fp)) as [found |] eqn:E; cbn [snd].
    + split.
      * intros H. inversion H. subst found.
        apply hook_loop_first in E. destruct E as (b & l & a & H1 & H2 & H3).
        now exists fp, b, l, a.
      * intros (content & b & l & a & Hc & H1 & H2 & H3).
        inversion Hc. subst content.
        assert (E' : hook_loop (read_lines 1024 fp) = Some lib).
        { apply hook_loop_first. now exists b, l, a. }
        congruence.
    + split; [discriminate |].
      intros (content & b & l & a & Hc & H1 & H2 & H3).
      inversion Hc. subst content.
      assert (E' : hook_loop (read_lines 1024 fp) = Some lib).
      { apply hook_loop_first. now exists b, l, a. }
      congruence.
  - cbn [snd]. split; [discriminate |].
    intros (content & b & l & a & Hc & _). discriminate.
Qed.

Lemma frida_loop_some (lines : list string) (indicator : string) :
  frida_loop lines = Some indicator ->
  In indicator frida_indicators /\
  exists line, In line lines /\ Substring indicator line.
Proof.
  induction lines as [| line rest IH]; cbn [frida_loop]; [discriminate |].
  destruct (libs_loop line frida_indicators) as [found |] eqn:E.
  - intros H. inversion H. subst found.
    apply libs_loop_some in E. destruct E as [Hin Hs].
    split; [exact Hin |]. exists line. split; [now left | now apply strstr_spec].
  - intros H. destruct (IH H) as [Hin (l & Hl & Hs)].
    split; [exact Hin |]. exists l. split; [now right | exact Hs].
Qed.

Lemma frida_loop_none (lines : list string) :
  frida_loop lines = None ->
  forall line indicator,
    In line lines -> In indicator frida_indicators -> ~ Substring indicator line.
Proof.
  induction lines as [| line rest IH]; cbn [frida_loop].
  - intros _ line indicator [].
  - destruct (libs_loop line frida_indicators) as [found |] eqn:E; [discriminate |].
    intros H l indicator [<- | Hl] Hin.
    + apply strstr_false. now apply (proj1 (libs_loop_none _ _) E).
    + now apply IH.
Qed.

(** Every indicator of the narrower scan contains the entry [frida] of
    the wider one. *)
Lemma frida_in_every_indicator (indicator : string) :
  In indicator frida_indicators -> Substring "frida" indicator.
Proof.
  intros H. apply strstr_spec.
  repeat (destruct H as [<- | H]; [reflexivity |]). destruct H.
Qed.

(** X2. The Frida scan answers Suspicious exactly when the memory map
    can be opened and a line read from it contains one of the four
    Frida indicators, and then the wider hook scan answers Suspicious on
    the same file system as well: every indicator contains [frida]. *)
Theorem frida_scan_within_hook_scan (fs : filesystem) :
  (fst (Java_com_example_raspsdk_HookDetection_00024Companion_nativeFridaCheck fs)
   = JNI_TRUE <->
   exists content line indicator,
     fopen fs "/proc/self/maps" = Some content /\
     In line (read_lines 1024 content) /\
     In indicator frida_indicators /\
     Substring indicator line)
  /\ (fst (Java_com_example_raspsdk_HookDetection_00024Companion_nativeFridaCheck fs)
      = JNI_TRUE ->
      fst (Java_com_example_raspsdk_HookDetection_nativeHookCheck fs) = JNI_TRUE).
Proof.
  unfold Java_com_example_raspsdk_HookDetection_00024Companion_nativeFridaCheck,
    Java_com_example_raspsdk_HookDetection_nativeHookCheck.
  destruct (fopen fs "/proc/self/maps") as [fp |].
  - destruct (frida_loop (read_lines 1024 fp)) as [indicator |] eqn:E; cbn [fst].
    + destruct (frida_loop_some _ _ E) as (Hin & line & Hl & Hs).
      split; [split |].
      * intros _. now exists fp, line, indicator.
      * reflexivity.
      * intros _.
        destruct (hook_loop (read_lines 1024 fp)) as [lib |] eqn:Eh;
          [reflexivity |].
        exfalso.
        pose proof (proj1 (hook_loop_none _) Eh line "frida"%string Hl
                      (or_introl eq_refl)) as Hno.
        apply strstr_false in Hno. apply Hno.
        exact (Substring_trans _ _ _ (frida_in_every_indicator _ Hin) Hs).
    + split; [split |].
      * discriminate.
      * intros (content & line & indicator & Hc & Hl & Hin & Hs).
        inversion Hc. subst content.
        exfalso. exact (frida_loop_none _ E line indicator Hl Hin Hs).
      * discriminate.
  - cbn [fst]. split; [split |].
    + discriminate.
    + intros (content & line & indicator & Hc & _). discriminate.
    + discriminate.
Qed.

Lemma su_loop_first (fs : filesystem) (paths : list string) (path : string) :
  su_loop fs paths = Some path <->
  exists earlier later,
    paths = earlier ++ path :: later /\
    access_F_OK fs path = true /\
    forall q, In q earlier -> access_F_OK fs q = false.
Proof.
  induction paths as [| p rest IH]; cbn [su_loop].
  - split; [discriminate |].
    intros (e & l & H & _). destruct e; discriminate.
  - destruct (access_F_OK fs p) eqn:E.
    + split.
      * intros H. inversion H. subst path.
        exists [], rest. split; [reflexivity |]. split; [exact E | intros ? []].
      * intros (e & l & H & Ha & Hno).
        destruct e as [| x e]; cbn in H; inversion H; subst.
        -- reflexivity.
        -- rewrite (Hno _ (or_introl eq_refl)) in E. discriminate.
    + rewrite IH. split.
      * intros (e & l & H & Ha & Hno). exists (p :: e), l.
        split; [cbn; now rewrite H |]. split; [exact Ha |].
        intros q [<- | Hq]; [exact E | now apply Hno].
      * intros (e & l & H & Ha & Hno).
        destruct e as [| x e]; cbn in H; inversion H; subst.
        -- congruence.
        -- exists e, l. split; [reflexivity |]. split; [exact Ha |].
           intros q Hq. apply Hno. now right.
Qed.

(** X3. The root detector answers Suspicious exactly when a superuser
    binary exists at one of the five probed paths or a line read from
    the mount table contains both [/system] and [rw]; the path it logs
    is the first existing one in the order of the list, and a binary
    found decides the answer whatever the mount table holds. *)
Theorem root_check_complete (fs : filesystem) :
  (Java_com_example_raspsdk_RootDetection_nativeRootCheck fs = JNI_TRUE <->
   (exists path, In path su_paths /\ access_F_OK fs path = true)
   \/ (exists content line,
         fopen fs "/proc/mounts" = Some content /\
         In line (read_lines 1024 content) /\
         Substring "/system" line /\ Substring "rw" line))
  /\ (forall path,
        su_loop fs su_paths = Some path <->
        exists earlier later,
          su_paths = earlier ++ path :: later /\
          access_F_OK fs path = true /\
          forall q, In q earlier -> access_F_OK fs q = false)
  /\ (forall path,
        In path su_paths -> access_F_OK fs path = true ->
        Java_com_example_raspsdk_RootDetection_nativeRootCheck fs = JNI_TRUE).
Proof.
  assert (Hsome : forall path,
             In path su_paths -> access_F_OK fs path = true ->
             exists found, su_loop fs su_paths = Some found).
  { intros path Hin Ha.
    destruct (su_loop fs su_paths) as [found |] eqn:E; [now exists found |].
    exfalso. revert Hin Ha E. generalize su_paths.
    induction l as [| p rest IH]; cbn [su_loop In]; [tauto |].
    intros [<- | Hin] Ha.
    - rewrite Ha. discriminate.
    - destruct (access_F_OK fs p); [discriminate | now apply IH]. }
  unfold Java_com_example_raspsdk_RootDetection_nativeRootCheck.
  split; [| split].
  - destruct (su_loop fs su_paths) as [found |] eqn:E.
    + split; [| reflexivity]. intros _. left.
      apply su_loop_first in E. destruct E as (e & l & Hp & Ha & _).
      exists found. split; [rewrite Hp; apply in_elt | exact Ha].
    + split.
      * intros H. right.
        destruct (fopen fs "/proc/mounts") as [fp |]; [| discriminate].
        apply mounts_loop_spec in H. destruct H as (line & H).
        now exists fp, line.
      * intros [(path & Hin & Ha) | (content & line & Hc & H)].
        -- destruct (Hsome path Hin Ha) as [found Hf]. congruence.
        -- rewrite Hc. apply mounts_loop_spec. now exists line.
  - intros path. apply su_loop_first.
  - intros path Hin Ha. destruct (Hsome path Hin Ha) as [found Hf].
    now rewrite Hf.
Qed.

End TableScans.

(** ** Scans of the code bytes *)

Section CodeBytes.
Import NativeLib NativeLibRest Spec SpecRest.

Lemma lor_disjoint (x c n : Z) :
  0 <= n -> 0 <= x < 2 ^ n -> Z.lor x (c * 2 ^ n) = x + c * 2 ^ n.
Proof.
  intros Hn Hx.
  assert (Hland : Z.land x (c * 2 ^ n) = 0).
  { apply Z.bits_inj'. intros m Hm.
    rewrite Z.land_spec, Z.bits_0.
    destruct (Z.lt_ge_cases m n) as [Hlt | Hge].
    - rewrite Z.mul_pow2_bits_low by lia. apply andb_false_r.
    - destruct (Z.eq_dec x 0) as [-> | Hx0]; [now rewrite Z.bits_0 |].
      rewrite Z.bits_above_log2; [reflexivity | lia |].
      assert (Z.log2 x < n) by (apply Z.log2_lt_pow2; lia). lia. }
  rewrite Z.add_nocarry_lxor by exact Hland.
  symmetry. now apply Z.lxor_lor.
Qed.

Lemma byte_at_range (memory : nat -> byte) (i : nat) :
  0 <= byte_at memory i < 256.
Proof.
  unfold byte_at. pose proof (Byte.to_N_bounded (memory i)). lia.
Qed.

Lemma byte_at_is (memory : nat -> byte) (i : nat) (b : byte) :
  byte_at memory i = Z.of_N (Byte.to_N b) <-> memory i = b.
Proof.
  unfold byte_at. split.
  - intros H. apply N2Z.inj in H.
    apply (f_equal Byte.of_N) in H. rewrite !Byte.of_to_N in H.
    now inversion H.
  - intros ->. reflexivity.
Qed.

(** The word is the little-endian number of its four bytes. *)
Lemma load_uint32_bytes (memory : nat -> byte) (i : nat) :
  load_uint32 memory i =
  byte_at memory i + 256 * byte_at memory (i + 1)
  + 65536 * byte_at memory (i + 2) + 16777216 * byte_at memory (i + 3).
Proof.
  unfold load_uint32.
  pose proof (byte_at_range memory i).
  pose proof (byte_at_range memory (i + 1)).
  pose proof (byte_at_range memory (i + 2)).
  pose proof (byte_at_range memory (i + 3)).
  rewrite !Z.shiftl_mul_pow2 by lia.
  rewrite (lor_disjoint (byte_at memory (i + 2) * 2 ^ 16)
             (byte_at memory (i + 3)) 24) by lia.
  replace (byte_at memory (i + 2) * 2 ^ 16 + byte_at memory (i + 3) * 2 ^ 24)
    with ((byte_at memory (i + 2) + byte_at memory (i + 3) * 256) * 2 ^ 16)
    by lia.
  rewrite (lor_disjoint (byte_at memory (i + 1) * 2 ^ 8) _ 16) by lia.
  replace (byte_at memory (i + 1) * 2 ^ 8 +
           (byte_at memory (i + 2) + byte_at memory (i + 3) * 256) * 2 ^ 16)
    with ((byte_at memory (i + 1) + byte_at memory (i + 2) * 256
           + byte_at memory (i + 3) * 65536) * 2 ^ 8)
    by lia.
  rewrite (lor_disjoint (byte_at memory i) _ 8) by lia.
  lia.
Qed.

(** X4. The inline-hook check answers Suspicious exactly when the first
    byte of the function is 0xE9 or 0x68, or its first four bytes are
    04 F0 1F E5, the little-endian image of the ARM instruction
    0xE51FF004; nothing past the fourth byte is read. *)
Theorem inline_hook_check_bytes (memory : nat -> byte) :
  (Java_com_example_raspsdk_HookDetection_nativeInlineHookCheck memory = JNI_TRUE <->
   memory 0%nat = xe9 \/ memory 0%nat = x68 \/
   (memory 0%nat = x04 /\ memory 1%nat = xf0 /\
    memory 2%nat = x1f /\ memory 3%nat = xe5))
  /\ (forall memory',
        agree_below 4 memory memory' ->
        Java_com_example_raspsdk_HookDetection_nativeInlineHookCheck memory' =
        Java_com_example_raspsdk_HookDetection_nativeInlineHookCheck memory).
Proof.
  assert (Hiff : forall m,
             Java_com_example_raspsdk_HookDetection_nativeInlineHookCheck m
             = JNI_TRUE <->
             m 0%nat = xe9 \/ m 0%nat = x68 \/
             (m 0%nat = x04 /\ m 1%nat = xf0 /\ m 2%nat = x1f /\ m 3%nat = xe5)).
  { intros m.
    unfold Java_com_example_raspsdk_HookDetection_nativeInlineHookCheck.
    rewrite load_uint32_bytes. cbn [Nat.add].
    pose proof (byte_at_range m 0). pose proof (byte_at_range m 1).
    pose proof (byte_at_range m 2). pose proof (byte_at_range m 3).
    rewrite <- (byte_at_is m 0 xe9), <- (byte_at_is m 0 x68),
      <- (byte_at_is m 0 x04), <- (byte_at_is m 1 xf0),
      <- (byte_at_is m 2 x1f), <- (byte_at_is m 3 xe5).
    change (Z.of_N (Byte.to_N xe9)) with 233.
    change (Z.of_N (Byte.to_N x68)) with 104.
    change (Z.of_N (Byte.to_N x04)) with 4.
    change (Z.of_N (Byte.to_N xf0)) with 240.
    change (Z.of_N (Byte.to_N x1f)) with 31.
    change (Z.of_N (Byte.to_N xe5)) with 229.
    destruct (Z.eqb_spec (byte_at m 0) 233) as [E1 | E1]; cbn [orb].
    - split; [intros _; now left | reflexivity].
    - destruct (Z.eqb_spec (byte_at m 0) 104) as [E2 | E2].
      + split; [intros _; right; now left | reflexivity].
      + match goal with
        | |- context [?w =? 3844075524] =>
            destruct (Z.eqb_spec w 3844075524) as [E3 | E3]
        end.
        * split; [| reflexivity]. intros _. right. right. lia.
        * split; [discriminate |]. intros [? | [? | ?]]; lia. }
  split; [apply Hiff |].
  intros memory' Hagree.
  assert (H0 : memory' 0%nat = memory 0%nat) by (symmetry; apply Hagree; lia).
  assert (H1 : memory' 1%nat = memory 1%nat) by (symmetry; apply Hagree; lia).
  assert (H2 : memory' 2%nat = memory 2%nat) by (symmetry; apply Hagree; lia).
  assert (H3 : memory' 3%nat = memory 3%nat) by (symmetry; apply Hagree; lia).
  pose proof (Hiff memory) as Ha. pose proof (Hiff memory') as Hb.
  rewrite H0, H1, H2, H3 in Hb.
  destruct (Java_com_example_raspsdk_HookDetection_nativeInlineHookCheck memory),
    (Java_com_example_raspsdk_HookDetection_nativeInlineHookCheck memory');
    unfold JNI_TRUE in *; try reflexivity.
  - apply Hb. now apply Ha.
  - symmetry. apply Ha. now apply Hb.
Qed.

(** Masking with a run of [n] ones that starts at bit [k] keeps the
    [n] bits of the word from bit [k] on. *)
Lemma land_shifted_ones (w k n : Z) :
  0 <= k -> 0 <= n ->
  Z.land w (Z.shiftl (Z.ones n) k) = ((w / 2 ^ k) mod 2 ^ n) * 2 ^ k.
Proof.
  intros Hk Hn. apply Z.bits_inj'. intros m Hm.
  rewrite Z.land_spec.
  destruct (Z.lt_ge_cases m k) as [Hlt | Hge].
  - rewrite Z.shiftl_spec_low by lia.
    rewrite Z.mul_pow2_bits_low by lia. apply andb_false_r.
  - rewrite Z.shiftl_spec by lia.
    replace m with (k + (m - k)) at 3 by lia.
    rewrite Z.mul_pow2_bits_add by lia.
    destruct (Z.lt_ge_cases (m - k) n) as [Hin | Hout].
    + rewrite Z.ones_spec_low by lia.
      rewrite Z.mod_pow2_bits_low by lia.
      rewrite Z.div_pow2_bits by lia.
      rewrite andb_true_r. f_equal. lia.
    + rewrite Z.ones_spec_high by lia.
      rewrite Z.mod_pow2_bits_high by lia. apply andb_false_r.
Qed.

(** The mask of the breakpoint test keeps bits 4 to 7 and 20 to 31. *)
Lemma breakpoint_mask (w : Z) :
  Z.land w 4293918960 =
  ((w / 16) mod 16) * 16 + ((w / 1048576) mod 4096) * 1048576.
Proof.
  change 4293918960
    with (Z.lor (Z.shiftl (Z.ones 4) 4) (Z.shiftl (Z.ones 12) 20)).
  rewrite Z.land_lor_distr_r, !land_shifted_ones by lia.
  change (2 ^ 4) with 16. change (2 ^ 20) with 1048576.
  change (2 ^ 12) with 4096.
  replace ((w / 1048576) mod 4096 * 1048576)
    with (((w / 1048576) mod 4096) * 2 ^ 20) by reflexivity.
  rewrite lor_disjoint; [reflexivity | lia |].
  pose proof (Z.mod_pos_bound (w / 16) 16 ltac:(lia)). lia.
Qed.

(** In bytes: the fourth byte of the word is E1, the high half of the
    third is 2 and the high half of the first is 7, as in the ARM
    encoding [E12xxx7x] of BKPT. *)
Lemma arm_breakpoint_bytes (memory : nat -> byte) (i : nat) :
  arm_breakpoint_at memory i <->
  byte_at memory i / 16 = 7 /\
  byte_at memory (i + 2) / 16 = 2 /\
  memory (i + 3)%nat = xe1.
Proof.
  unfold arm_breakpoint_at.
  rewrite breakpoint_mask, load_uint32_bytes.
  rewrite <- (byte_at_is memory (i + 3) xe1).
  change (Z.of_N (Byte.to_N xe1)) with 225.
  pose proof (byte_at_range memory i).
  pose proof (byte_at_range memory (i + 1)).
  pose proof (byte_at_range memory (i + 2)).
  pose proof (byte_at_range memory (i + 3)).
  set (b0 := byte_at memory i) in *.
  set (b1 := byte_at memory (i + 1)) in *.
  set (b2 := byte_at memory (i + 2)) in *.
  set (b3 := byte_at memory (i + 3)) in *.
  assert (E1 : ((b0 + 256 * b1 + 65536 * b2 + 16777216 * b3) / 16) mod 16
               = b0 / 16)
    by (Z.div_mod_to_equations; lia).
  assert (E2 : ((b0 + 256 * b1 + 65536 * b2 + 16777216 * b3) / 1048576) mod 4096
               = b2 / 16 + 16 * b3)
    by (Z.div_mod_to_equations; lia).
  rewrite E1, E2. split.
  - intros. Z.div_mod_to_equations. lia.
  - intros (? & ? & ?). lia.
Qed.

(** X5. The breakpoint scan answers Suspicious exactly when the window
    holds the opcode 0xCC, or holds at some offset up to 4092, aligned
    or not, a word with the bits of the ARM breakpoint instruction:
    fourth byte E1, high half of the third byte 2, high half of the
    first byte 7. *)
Theorem breakpoint_scan_complete (memory : nat -> byte) :
  Java_com_example_raspsdk_TamperDetection_nativeBreakpointScan memory = JNI_TRUE <->
  (exists i, (i < 4096)%nat /\ memory i = xcc)
  \/ (exists i, (i + 3 < 4096)%nat /\
                byte_at memory i / 16 = 7 /\
                byte_at memory (i + 2) / 16 = 2 /\
                memory (i + 3)%nat = xe1).
Proof.
  unfold Java_com_example_raspsdk_TamperDetection_nativeBreakpointScan.
  rewrite breakpoint_loop_spec. unfold scan_size. split.
  - intros (j & Hj & [H | [H1 H2]]).
    + left. exists j. split; [lia | exact H].
    + right. exists j. split; [lia |]. now apply arm_breakpoint_bytes.
  - intros [(i & Hi & H) | (i & Hi & H)].
    + exists i. split; [lia | now left].
    + exists i. split; [lia |]. right. split; [lia |].
      now apply arm_breakpoint_bytes.
Qed.

(** X6. The breakpoint scan reads the 4096 bytes of its window and
    nothing past them: two memories that agree on the window get the
    same answer. *)
Theorem breakpoint_scan_window_only (memory memory' : nat -> byte) :
  agree_below 4096 memory memory' ->
  Java_com_example_raspsdk_TamperDetection_nativeBreakpointScan memory' =
  Java_com_example_raspsdk_TamperDetection_nativeBreakpointScan memory.
Proof.
  intros Hagree.
  unfold Java_com_example_raspsdk_TamperDetection_nativeBreakpointScan.
  assert (H : forall remaining i,
             (i + remaining <= scan_size)%nat ->
             breakpoint_loop memory' i remaining =
             breakpoint_loop memory i remaining).
  { induction remaining as [| r IH]; intros i Hi; cbn [breakpoint_loop].
    - reflexivity.
    - unfold scan_size in Hi.
      assert (Hb : byte_at memory' i = byte_at memory i).
      { unfold byte_at. rewrite (Hagree i) by lia. reflexivity. }
      rewrite Hb. destruct (byte_at memory i =? 204); [reflexivity |].
      destruct (Nat.ltb_spec i (scan_size - 3)) as [Hlt | Hge]; cbn [andb].
      + unfold scan_size in Hlt.
        assert (Hw : load_uint32 memory' i = load_uint32 memory i).
        { unfold load_uint32, byte_at.
          rewrite (Hagree i), (Hagree (i + 1)%nat),
            (Hagree (i + 2)%nat), (Hagree (i + 3)%nat) by lia.
          reflexivity. }
        rewrite Hw.
        destruct (Z.land (load_uint32 memory i) 4293918960 =? 3776970864);
          [reflexivity |].
        apply IH. unfold scan_size. lia.
      + apply IH. unfold scan_size. lia. }
  apply H. lia.
Qed.

End CodeBytes.

(** ** String scrambling: the key schedule and the hexadecimal variant *)

Section Scrambling.
Import Kernel CLib CLibHex Obfuscator ObfuscatorRest Spec SpecRest.
Local Open Scope list_scope.

(** Wrapping at a multiple of 256 keeps the low byte. *)
Lemma low_byte_of_wrap (a k : N) :
  ((a mod (256 * k)) mod 256 = a mod 256)%N.
Proof.
  apply N2Z.inj. rewrite !N2Z.inj_mod, N2Z.inj_mul.
  apply Z.mod_mod_divide. exists (Z.of_N k). lia.
Qed.

(** The part of the key that comes from the seed is the low byte of
    [seed + i]. *)
Lemma seed_byte (seed i : N) :
  N.land (Int.to_size_t (Int.to_uint32 seed + i)) 255 = ((seed + i) mod 256)%N.
Proof.
  change 255%N with (N.ones 8). rewrite N.land_ones.
  unfold Int.to_size_t, Int.to_uint32. change (2 ^ 8)%N with 256%N.
  change 18446744073709551616%N with (256 * 72057594037927936)%N.
  rewrite low_byte_of_wrap.
  rewrite <- N.Div0.add_mod_idemp_l.
  change 4294967296%N with (256 * 16777216)%N.
  rewrite low_byte_of_wrap.
  now rewrite N.Div0.add_mod_idemp_l.
Qed.

Lemma decrypt_loop_seed (x : list byte) :
  forall i seed1 seed2,
    (seed1 mod 256 = seed2 mod 256)%N ->
    decrypt_loop x i (Int.to_uint32 seed1) = decrypt_loop x i (Int.to_uint32 seed2).
Proof.
  induction x as [| e rest IH]; intros i seed1 seed2 H; cbn [decrypt_loop].
  - reflexivity.
  - rewrite !seed_byte. rewrite (IH _ seed1 seed2 H).
    rewrite <- (N.Div0.add_mod_idemp_l seed1), H, N.Div0.add_mod_idemp_l.
    reflexivity.
Qed.

Lemma decrypt_loop_same_length (x : list byte) :
  forall i seed, List.length (decrypt_loop x i seed) = List.length x.
Proof.
  induction x as [| e rest IH]; intros i seed; cbn [decrypt_loop List.length].
  - reflexivity.
  - now rewrite IH.
Qed.

(** X7. Of the 32-bit seed only the low byte enters the key schedule:
    two seeds that agree modulo 256 decrypt every sequence alike, and the
    output has the length of the input. *)
Theorem decrypt_string_seed_low_byte (x : list byte) (seed1 seed2 : N) :
  (seed1 mod 256 = seed2 mod 256)%N ->
  decrypt_string x seed1 = decrypt_string x seed2
  /\ List.length (decrypt_string x seed1) = List.length x.
Proof.
  intros H. unfold decrypt_string. split.
  - now apply decrypt_loop_seed.
  - apply decrypt_loop_same_length.
Qed.

(** The loop appends [native_bytes], whatever the clock reads. *)
Lemma native_loop_bytes {K : kernel} (env : environment) (hex : string) :
  (forall i result (p : process K),
      fst (native_loop env hex i result p) = result ++ native_bytes hex i)
  /\ (forall c i result (p : process K),
        fst (native_loop env (String c hex) i result p)
        = result ++ native_bytes (String c hex) i).
Proof.
  induction hex as [| c2 rest [IH1 IH2]].
  - split.
    + intros i result p. cbn. now rewrite app_nil_r.
    + intros c i result p. cbn [native_loop native_bytes]. unfold bind.
      rewrite opaque_true_run, inject_dead_code_run. reflexivity.
  - split.
    + intros i result p. apply IH2.
    + intros c i result p. cbn [native_loop native_bytes]. unfold bind.
      rewrite opaque_true_run, inject_dead_code_run.
      rewrite IH1, <- app_assoc. reflexivity.
Qed.

Lemma native_bytes_length (hex : string) :
  (forall i, List.length (native_bytes hex i) = ((String.length hex + 1) / 2)%nat)
  /\ (forall c i, List.length (native_bytes (String c hex) i)
                  = ((String.length (String c hex) + 1) / 2)%nat).
Proof.
  induction hex as [| c2 rest [IH1 IH2]].
  - split; reflexivity.
  - split.
    + intros i. apply IH2.
    + intros c i. cbn [native_bytes List.length String.length].
      rewrite IH1.
      replace (S (S (String.length rest)) + 1)%nat
        with (String.length rest + 1 + 1 * 2)%nat by lia.
      rewrite Nat.div_add by lia. lia.
Qed.

(** Reading the two digits of a byte in base 16 gives the byte. *)
Lemma strtol16_hex2 (b : byte) :
  Z.to_N (strtol16 (c_str (hex2 b)) mod 256) = Byte.to_N b.
Proof. destruct b; vm_compute; reflexivity. Qed.

(** XOR with the same key twice gives the byte back, also with a key
    wider than a byte. *)
Lemma xor_wide_key_twice (b : byte) (k : N) :
  Int.to_uint8 (N.lxor (Byte.to_N (Int.to_uint8 (N.lxor (Byte.to_N b) k))) k) = b.
Proof.
  assert (Hmod : forall n, Byte.to_N (Int.to_uint8 n) = (n mod 256)%N).
  { intros n. unfold Int.to_uint8.
    destruct (Byte.of_N (n mod 256)) as [c |] eqn:E.
    - now apply Byte.to_of_N.
    - apply Byte.of_N_None_iff in E.
      pose proof (N.mod_upper_bound n 256 ltac:(lia)). lia. }
  rewrite <- (to_uint8_to_N b) at 2. rewrite Hmod.
  unfold Int.to_uint8.
  assert (E : (N.lxor (N.lxor (Byte.to_N b) k mod 256) k mod 256
               = Byte.to_N b mod 256)%N).
  { change 256%N with (2 ^ 8)%N. rewrite <- !N.land_ones.
    apply N.bits_inj. intros n.
    rewrite !N.land_spec, !N.lxor_spec, N.land_spec, N.lxor_spec.
    now destruct (N.testbit (Byte.to_N b) n), (N.testbit k n),
      (N.testbit (N.ones 8) n). }
  now rewrite E.
Qed.

Lemma native_bytes_encrypt (x : list byte) :
  forall j,
    native_bytes (encrypt_native x j) ((2 * j) mod 18446744073709551616)%N = x.
Proof.
  induction x as [| b rest IH]; intros j; cbn [encrypt_native].
  - reflexivity.
  - unfold hex2 at 1. cbn [append native_bytes].
    assert (Hkey : ((((2 * j) mod 18446744073709551616) / 2) mod 256
                    = j mod 256)%N).
    { change 18446744073709551616%N with (2 * 9223372036854775808)%N.
      rewrite N.Div0.mul_mod_distr_l.
      rewrite (N.mul_comm 2), N.div_mul by lia.
      change 9223372036854775808%N with (256 * 36028797018963968)%N.
      apply low_byte_of_wrap. }
    assert (Hnext : Int.to_size_t ((2 * j) mod 18446744073709551616 + 2)
                    = ((2 * (j + 1)) mod 18446744073709551616)%N).
    { unfold Int.to_size_t. rewrite N.Div0.add_mod_idemp_l. f_equal. lia. }
    rewrite Hnext, IH. f_equal.
    unfold native_byte. rewrite Hkey.
    set (e := Int.to_uint8 (N.lxor (Byte.to_N b) (204 + j mod 256))).
    change (String (hex_char (Byte.to_N e / 16))
              (String (hex_char (Byte.to_N e mod 16)) EmptyString))
      with (hex2 e).
    rewrite strtol16_hex2. subst e. apply xor_wide_key_twice.
Qed.

(** X8. The hexadecimal decryption returns one byte for every two
    characters of its input, a last odd character counting as a pair
    with the terminating NUL; the clock it reads on the way does not
    change the result; and it undoes the scrambling that writes byte
    number [j] XOR the low byte of [0xCC + j % 256] as two hexadecimal
    digits. *)
Theorem decrypt_native_string_round_trip
        {K : kernel} (env : environment) (p : process K) :
  (forall hex,
      fst (decrypt_native_string env hex p) = native_bytes hex 0
      /\ List.length (fst (decrypt_native_string env hex p))
         = ((String.length hex + 1) / 2)%nat)
  /\ (forall x, fst (decrypt_native_string env (encrypt_native x 0) p) = x).
Proof.
  assert (Hrun : forall hex,
             fst (decrypt_native_string env hex p) = native_bytes hex 0).
  { intros hex. unfold decrypt_native_string.
    now rewrite (proj1 (native_loop_bytes env hex)). }
  split.
  - intros hex. split; [apply Hrun |].
    rewrite Hrun. apply (proj1 (native_bytes_length hex)).
  - intros x. rewrite Hrun. exact (native_bytes_encrypt x 0).
Qed.

End Scrambling.

(** ** The emulator check and the string export *)

Section EmulatorAndExport.
Import Kernel CLib CLibHex Obfuscator ObfuscatorRest Spec SpecRest.
Local Open Scope list_scope.

Variable K : kernel.
Variable env : environment.

(** The loop answers whether one of the paths exists; the process it
    leaves differs by clock readings. *)
Lemma emulator_loop_run (props : list string) :
  forall p : process K,
    fst (emulator_loop env props p) = existsb (access_F_OK (fs env)) props.
Proof.
  induction props as [| prop rest IH]; intros p; cbn [emulator_loop existsb].
  - reflexivity.
  - unfold bind. rewrite opaque_true_run. cbn [andb].
    destruct (access_F_OK (fs env) prop); rewrite inject_dead_code_run.
    + reflexivity.
    + cbn [orb]. apply IH.
Qed.

(** X9. The emulator check answers true exactly when one of its four
    paths exists: neither the clock readings of the opaque predicates
    nor the return branch that the clock selects changes the answer. *)
Theorem emulator_check_paths (p : process K) :
  fst (Java_com_example_raspsdk_NativeObfuscator_b env p) = JNI_TRUE <->
  exists path, In path emulator_props /\ access_F_OK (fs env) path = true.
Proof.
  rewrite <- existsb_exists.
  unfold Java_com_example_raspsdk_NativeObfuscator_b, bind.
  rewrite inject_dead_code_run, opaque_true_run.
  unfold check_emulator_obfuscated.
  pose proof (emulator_loop_run emulator_props (tick (tick p))) as E.
  destruct (emulator_loop env emulator_props (tick (tick p))) as [r q].
  cbn [fst] in E. subst r.
  unfold now. cbn [fst snd].
  destruct (Z.rem (clock env (ticks q)) 2 =? 0).
  - rewrite opaque_true_run.
    destruct (scramble_memory env (tick (tick q))) as [u q'].
    reflexivity.
  - rewrite opaque_true_run, inject_dead_code_run. reflexivity.
Qed.

Lemma hex_char_not_NUL (n : N) : hex_char n <> NUL.
Proof.
  unfold hex_char. set (m := N.to_nat n). clearbody m.
  do 16 (destruct m as [| m]; [cbn; discriminate |]).
  cbn. destruct m; discriminate.
Qed.

Lemma encrypt_native_NoNUL (x : list byte) :
  forall j, NoNUL (encrypt_native x j).
Proof.
  induction x as [| b rest IH]; intros j; cbn [encrypt_native].
  - exact I.
  - unfold hex2. cbn [append NoNUL].
    repeat split; try apply hex_char_not_NUL. apply IH.
Qed.

Lemma until_NUL_nonzero (x : list byte) :
  Forall (fun b => b <> x00) x -> until_NUL x = x.
Proof.
  induction 1 as [| b rest Hb _ IH]; cbn [until_NUL].
  - reflexivity.
  - destruct (Byte.eqb b x00) eqn:E.
    + apply Byte.byte_dec_bl in E. contradiction.
    + now rewrite IH.
Qed.

Lemma NativeObfuscator_c_run (hex_chars : string) (p : process K) :
  fst (Java_com_example_raspsdk_NativeObfuscator_c env hex_chars p)
  = until_NUL (native_bytes (c_str hex_chars) 0).
Proof.
  unfold Java_com_example_raspsdk_NativeObfuscator_c, bind.
  rewrite inject_dead_code_run, opaque_true_run.
  unfold decrypt_native_string.
  pose proof (proj1 (native_loop_bytes env (c_str hex_chars))
                0%N [] (tick (tick p))) as E.
  destruct (native_loop env (c_str hex_chars) 0 [] (tick (tick p))) as [d q].
  cbn [fst app] in E. subst d.
  rewrite opaque_true_run.
  destruct (scramble_memory env (tick q)) as [u q']. reflexivity.
Qed.

(** X10. The string export hands to the Java side the decrypted bytes
    up to the first zero byte.  A scrambled byte sequence comes back
    whole when none of its bytes is zero, and cut before its first zero
    byte otherwise. *)
Theorem native_string_export_round_trip (x : list byte) (p : process K) :
  fst (Java_com_example_raspsdk_NativeObfuscator_c env (encrypt_native x 0) p)
  = until_NUL x
  /\ (Forall (fun b => b <> x00) x ->
      fst (Java_com_example_raspsdk_NativeObfuscator_c
             env (encrypt_native x 0) p) = x).
Proof.
  assert (E : fst (Java_com_example_raspsdk_NativeObfuscator_c
                     env (encrypt_native x 0) p) = until_NUL x).
  { rewrite NativeObfuscator_c_run.
    rewrite (c_str_NoNUL _ (encrypt_native_NoNUL x 0)).
    f_equal. exact (native_bytes_encrypt x 0). }
  split; [exact E |].
  intros H. rewrite E. now apply until_NUL_nonzero.
Qed.

End EmulatorAndExport.

(** ** Where the detection flag comes from *)

Section LatchSources.
Import SignalLatch.
Local Open Scope list_scope.

Lemma deliver_keeps_disposition (signum : Z) (st : latch) :
  disposition (deliver signum st) = disposition st.
Proof.
  unfold deliver.
  destruct (signum =? SIGKILL); [reflexivity |].
  destruct (signum =? SIGSTOP); [reflexivity |].
  destruct (disposition st signum) eqn:E; cbn [run_handler].
  - destruct (default_ignored_or_stops signum); reflexivity.
  - destruct (signum =? SIGTRAP); reflexivity.
  - destruct (_ || _); reflexivity.
  - reflexivity.
Qed.

(** The two flag-setting handlers are installed by the query only. *)
Lemma handler_installed_by_query (evs : list event) :
  forall n,
    disposition (run evs boot) n = sigtrap_handler
    \/ disposition (run evs boot) n = sigstop_handler ->
    In (Call nativeSignalCheck) evs.
Proof.
  induction evs as [| ev evs IH] using rev_ind; intros n H.
  - cbn in H. destruct H; discriminate.
  - rewrite run_app in H.
    change (run [ev] (run evs boot)) with (step ev (run evs boot)) in H.
    apply in_or_app. unfold step in H.
    destruct (alive (run evs boot)); [| left; now apply (IH n)].
    destruct ev as [op | signum].
    + destruct op; cbn [call] in H;
        try (left; now apply (IH n));
        try (right; now left).
      unfold Java_com_example_raspsdk_NativeObfuscator_e, signal in H.
      change (SIGTRAP =? SIGKILL) with false in H.
      change (SIGTRAP =? SIGSTOP) with false in H.
      cbn [orb disposition] in H.
      destruct (n =? SIGTRAP).
      * destruct H; discriminate.
      * left. now apply (IH n).
    + rewrite deliver_keeps_disposition in H. left. now apply (IH n).
Qed.

Lemma sets_flag_signal (ev : event) (st : latch) :
  sets_flag ev st = true ->
  exists signum,
    ev = Signal signum
    /\ alive st = true
    /\ ((signum = SIGTRAP /\ disposition st signum = sigtrap_handler)
        \/ (signum = SIGCONT /\ disposition st signum = sigstop_handler)).
Proof.
  destruct ev as [op | signum]; cbn [sets_flag]; [discriminate |].
  intros H. exists signum. split; [reflexivity |].
  destruct (alive st); [| discriminate]. split; [reflexivity |].
  destruct (signum =? SIGKILL); [discriminate |].
  destruct (signum =? SIGSTOP) eqn:Es; [discriminate |].
  cbn [negb andb orb] in H.
  destruct (disposition st signum); try discriminate.
  - left. split; [now apply Z.eqb_eq | reflexivity].
  - right. split; [now apply Z.eqb_eq | reflexivity].
Qed.

(** X11. When the signal query answers true, a SIGTRAP or a SIGCONT has
    been delivered to the live process after an earlier call of the
    query: the handlers exist only once the query has run, and SIGSTOP,
    for which the kernel accepts no handler, never sets the flag.  So a
    history without an earlier call of the query is answered false,
    whatever signals it holds. *)
Theorem signal_query_sources (evs : list event) :
  (fst (Java_com_example_raspsdk_DebuggerDetection_nativeSignalCheck
          (run evs boot)) = JNI_TRUE ->
   exists before signum after,
     evs = before ++ Signal signum :: after
     /\ (signum = SIGTRAP \/ signum = SIGCONT)
     /\ In (Call nativeSignalCheck) before
     /\ alive (run before boot) = true)
  /\ (~ In (Call nativeSignalCheck) evs ->
      fst (Java_com_example_raspsdk_DebuggerDetection_nativeSignalCheck
             (run evs boot)) = JNI_FALSE).
Proof.
  assert (Hs : fst (Java_com_example_raspsdk_DebuggerDetection_nativeSignalCheck
                      (run evs boot)) = JNI_TRUE ->
               exists before signum after,
                 evs = before ++ Signal signum :: after
                 /\ (signum = SIGTRAP \/ signum = SIGCONT)
                 /\ In (Call nativeSignalCheck) before
                 /\ alive (run before boot) = true).
  { rewrite query_reads_flag. intros H.
    destruct (flag_history evs) as [Hh Hr].
    assert (H1 : debugger_detected (run evs boot) = 1).
    { destruct Hr as [E | E]; [rewrite E in H; discriminate | exact E]. }
    apply Hh in H1. destruct H1 as (before & ev & after & Hevs & Hset).
    apply sets_flag_signal in Hset.
    destruct Hset as (signum & -> & Ha & Hd).
    exists before, signum, after.
    split; [exact Hevs |].
    split; [destruct Hd as [[E _] | [E _]]; [now left | now right] |].
    split; [| exact Ha].
    apply (handler_installed_by_query before signum).
    destruct Hd as [[_ E] | [_ E]]; [now left | now right]. }
  split; [exact Hs |].
  intros Hno.
  destruct (fst (Java_com_example_raspsdk_DebuggerDetection_nativeSignalCheck
                   (run evs boot))) eqn:E; [| reflexivity].
  exfalso. destruct (Hs eq_refl) as (before & signum & after & -> & _ & Hin & _).
  apply Hno. apply in_or_app. now left.
Qed.

(** X12. The two installers of a SIGTRAP handler override each other:
    the last one called decides.  After [NativeObfuscator_e] a SIGTRAP
    ends the process and leaves the flag as it was, also when the query
    had run before; after a later call of the query a SIGTRAP sets the
    flag again and the process lives on. *)
Theorem last_trap_handler_wins (st : latch) :
  alive st = true ->
  (alive (run [Call NativeObfuscator_e; Signal SIGTRAP] st) = false
   /\ debugger_detected (run [Call NativeObfuscator_e; Signal SIGTRAP] st)
      = debugger_detected st)
  /\ (alive (run [Call nativeSignalCheck; Call NativeObfuscator_e;
                  Signal SIGTRAP] st) = false
      /\ debugger_detected (run [Call nativeSignalCheck; Call NativeObfuscator_e;
                                 Signal SIGTRAP] st)
         = debugger_detected st)
  /\ (alive (run [Call NativeObfuscator_e; Call nativeSignalCheck;
                  Signal SIGTRAP] st) = true
      /\ debugger_detected (run [Call NativeObfuscator_e; Call nativeSignalCheck;
                                 Signal SIGTRAP] st) = 1).
Proof.
  intros Ha. destruct st as [d t disp a]. cbn [alive] in Ha. subst a.
  unfold run. cbn [fold_left]. unfold step. cbn [alive call].
  unfold Java_com_example_raspsdk_NativeObfuscator_e,
    Java_com_example_raspsdk_DebuggerDetection_nativeSignalCheck.
  unfold signal. cbn.
  destruct (d =? 0); cbn; repeat split.
Qed.

End LatchSources.

(** ** The hardening call and the probes that follow it *)

Section AfterHardening.
Import Kernel NativeLib NativeLibRest Spec SpecRest.
Local Open Scope list_scope.

Variable K : kernel.
Hypothesis contract : ptrace_contract K.

(** On a traced process the hardening call answers false. *)
Lemma nativeHardenSystem_traced (p : process K) :
  prctl_keeps_tracing K ->
  tracing_of K (kern p) <> Untraced ->
  fst (Java_com_example_raspsdk_RASP_nativeHardenSystem p) = JNI_FALSE.
Proof.
  intros Hkeep Hne.
  unfold Java_com_example_raspsdk_RASP_nativeHardenSystem,
    bind, ret, get_errno, prctl_set_dumpable, ptrace, syscall_return.
  pose proof (Hkeep 0 (kern p)) as Hk.
  destruct (sys_prctl_set_dumpable K 0 (kern p)) as [[| e0] k0];
    cbn [errno kern fst snd] in *.
  - change (0 =? -1) with false. cbv iota. cbn [errno kern fst snd].
    destruct (sys_ptrace K PTRACE_TRACEME k0) as [r k1] eqn:Ht.
    assert (Hne0 : tracing_of K k0 <> Untraced) by congruence.
    rewrite (traceme_when_traced K contract _ _ _ Hne0 Ht).
    cbn [errno kern fst snd].
    change (-1 =? -1) with true. now rewrite Z.eqb_refl.
  - reflexivity.
Qed.

Lemma nativeHardenSystem_granted (p : process K) :
  fst (Java_com_example_raspsdk_RASP_nativeHardenSystem p) = JNI_TRUE ->
  fst (sys_ptrace K PTRACE_TRACEME
         (snd (sys_prctl_set_dumpable K 0 (kern p)))) = Done ->
  tracing_of K (kern (snd (Java_com_example_raspsdk_RASP_nativeHardenSystem p)))
  = TraceRequested.
Proof.
  unfold Java_com_example_raspsdk_RASP_nativeHardenSystem,
    bind, ret, get_errno, prctl_set_dumpable, ptrace, syscall_return.
  destruct (sys_prctl_set_dumpable K 0 (kern p)) as [[| e0] k0];
    cbn [errno kern fst snd].
  - change (0 =? -1) with false. cbv iota. cbn [errno kern fst snd].
    destruct (sys_ptrace K PTRACE_TRACEME k0) as [[| e] k1] eqn:Ht;
      cbn [errno kern fst snd]; [| discriminate].
    intros _ _. exact (proj2 (traceme_granted K contract _ _ Ht)).
  - discriminate.
Qed.

(** X13. Once the hardening call has succeeded with its trace-me
    request granted, the self-ptrace probe reports a debugger on every
    later call although none is attached, and leaves the process traced
    on its own request; a second hardening call answers false, as long
    as the dumpable setting does not touch the tracing status. *)
Theorem harden_then_probe_reports (p : process K) :
  fst (Java_com_example_raspsdk_RASP_nativeHardenSystem p) = JNI_TRUE ->
  fst (sys_ptrace K PTRACE_TRACEME
         (snd (sys_prctl_set_dumpable K 0 (kern p)))) = Done ->
  fst (Java_com_example_raspsdk_DebuggerDetection_nativePtraceCheck
         (snd (Java_com_example_raspsdk_RASP_nativeHardenSystem p))) = JNI_TRUE
  /\ tracing_of K
       (kern (snd (Java_com_example_raspsdk_DebuggerDetection_nativePtraceCheck
                     (snd (Java_com_example_raspsdk_RASP_nativeHardenSystem p)))))
     = TraceRequested
  /\ (prctl_keeps_tracing K ->
      fst (Java_com_example_raspsdk_RASP_nativeHardenSystem
             (snd (Java_com_example_raspsdk_RASP_nativeHardenSystem p)))
      = JNI_FALSE).
Proof.
  intros Hok Hgrant.
  pose proof (nativeHardenSystem_granted p Hok Hgrant) as Ht.
  assert (Hne : tracing_of K
                  (kern (snd (Java_com_example_raspsdk_RASP_nativeHardenSystem p)))
                <> Untraced) by (rewrite Ht; discriminate).
  destruct (nativePtraceCheck_traced K contract _ Hne) as [Hres Hkept].
  split; [exact Hres |].
  split.
  - now rewrite Hkept.
  - intros Hkeep. now apply nativeHardenSystem_traced.
Qed.

End AfterHardening.

Section DumpableSetting.
Import Kernel NativeLib NativeLibRest Spec SpecRest.
Local Open Scope list_scope.

Variable K : kernel.


End DumpableSetting.

(** ** The timing check and the random delay *)

Section Timing.
Import NativeLib NativeLibRest Spec SpecRest.

Lemma to_long_long_small (z : Z) :
  Int.LONG_MIN <= z <= Int.LONG_MAX -> to_long_long z = z.
Proof.
  unfold to_long_long, Int.LONG_MIN, Int.LONG_MAX. intros H.
  destruct (Z_lt_le_dec z 0) as [Hneg | Hpos].
  - assert (E : z mod 18446744073709551616 = z + 18446744073709551616).
    { symmetry. apply Z.mod_unique with (q := -1); lia. }
    rewrite E.
    destruct (Z.leb_spec (z + 18446744073709551616) 9223372036854775807); lia.
  - rewrite Z.mod_small by lia.
    destruct (Z.leb_spec z 9223372036854775807); lia.
Qed.

Lemma get_time_ns_plausible (t : timespec) :
  plausible t ->
  get_time_ns t = tv_sec t * 1000000000 + tv_nsec t
  /\ 0 <= get_time_ns t < 4294967297000000000.
Proof.
  unfold plausible, get_time_ns. intros [Hs Hn].
  rewrite (to_long_long_small (tv_sec t * 1000000000))
    by (unfold Int.LONG_MIN, Int.LONG_MAX; lia).
  rewrite to_long_long_small by (unfold Int.LONG_MIN, Int.LONG_MAX; lia).
  lia.
Qed.

(** X15. On two plausible readings of the monotonic clock neither the
    conversion to nanoseconds nor the subtraction overflows: the timing
    check answers true exactly when more than 1000000 ns have passed,
    so exactly 1 ms is still accepted, and a clock that stands still or
    runs backwards is accepted. *)
Theorem timing_check_threshold (start_reading end_reading : timespec) :
  plausible start_reading ->
  plausible end_reading ->
  (fst (Java_com_example_raspsdk_DebuggerDetection_nativeTimingCheck
          start_reading end_reading) = JNI_TRUE
   <-> 1000000 < elapsed_ns start_reading end_reading)
  /\ (elapsed_ns start_reading end_reading <= 1000000 ->
      fst (Java_com_example_raspsdk_DebuggerDetection_nativeTimingCheck
             start_reading end_reading) = JNI_FALSE).
Proof.
  intros H1 H2.
  destruct (get_time_ns_plausible _ H1) as [E1 R1].
  destruct (get_time_ns_plausible _ H2) as [E2 R2].
  assert (Hd : to_long_long (get_time_ns end_reading - get_time_ns start_reading)
               = elapsed_ns start_reading end_reading).
  { rewrite to_long_long_small
      by (unfold Int.LONG_MIN, Int.LONG_MAX; lia).
    unfold elapsed_ns. rewrite E1, E2. ring. }
  unfold Java_com_example_raspsdk_DebuggerDetection_nativeTimingCheck.
  cbv zeta. rewrite Hd.
  destruct (Z.gtb_spec (elapsed_ns start_reading end_reading) 1000000) as [Hgt | Hle];
    cbn [fst].
  - split; [split; [lia | reflexivity] | lia].
  - split; [split; [discriminate | lia] | reflexivity].
Qed.

(** X16. Whatever [rand] returns, the delay handed to [usleep] is a
    whole number of milliseconds between 1 ms and 100 ms. *)
Theorem random_delay_bounds (rand : Z) :
  0 <= rand <= RAND_MAX ->
  1000 <= Java_com_example_raspsdk_RASP_nativeRandomDelay rand <= 100000
  /\ Java_com_example_raspsdk_RASP_nativeRandomDelay rand mod 1000 = 0.
Proof.
  unfold RAND_MAX, Java_com_example_raspsdk_RASP_nativeRandomDelay.
  intros H. cbv zeta.
  assert (Hr : 0 <= Z.rem rand 100 < 100).
  { rewrite Z.rem_mod_nonneg by lia. apply Z.mod_pos_bound. lia. }
  rewrite (to_int_small (Z.rem rand 100 + 1))
    by (unfold Int.INT_MAX; lia).
  rewrite to_int_small by (unfold Int.INT_MAX; lia).
  split; [lia |]. apply Z.mod_mul. lia.
Qed.

End Timing.

(** ** The obfuscated check beside the plain probes *)

Section ObfuscatedBeside.
Import Kernel CLib NativeLib Obfuscator Spec SpecRest.
Local Open Scope list_scope.

Variable K : kernel.
Variable env : environment.

(** [sscanf] and [atoi] read the same number after the key. *)
Lemma sscanf_atoi (line : string) (pid : Z) :
  sscanf_TracerPid line = Some pid -> atoi (advance 10 line) = pid.
Proof.
  unfold sscanf_TracerPid, atoi, strtol.
  destruct (String.prefix "TracerPid:" line); [| discriminate].
  destruct (signed_number (skip_spaces (advance 10 line))); [| discriminate].
  now intros [= <-].
Qed.

Lemma status_loop_no_key (lines : list string) :
  filter (fun line => strstr line "TracerPid:") lines = [] ->
  status_loop lines = Some false.
Proof.
  induction lines as [| line rest IH]; cbn [filter status_loop]; [reflexivity |].
  destruct (strstr line "TracerPid:"); [discriminate | exact IH].
Qed.

Lemma key_at_start_is_found (line : string) :
  StartsWith "TracerPid:" line -> strstr line "TracerPid:" = true.
Proof.
  intros [rest ->]. apply strstr_spec. now exists EmptyString, rest.
Qed.

Lemma status_loop_agrees (lines : list string) :
  Forall (fun line =>
            Substring "TracerPid:" line ->
            StartsWith "TracerPid:" line /\ sscanf_TracerPid line <> None) lines ->
  (tracer_pid_loop lines = JNI_TRUE -> status_loop lines = Some true)
  /\ ((List.length (filter (fun line => strstr line "TracerPid:") lines) <= 1)%nat ->
      status_loop lines = Some (tracer_pid_loop lines)).
Proof.
  induction 1 as [| line rest Hline _ IH]; cbn [tracer_pid_loop status_loop filter].
  - split; [discriminate | reflexivity].
  - destruct (strstr line "TracerPid:") eqn:Es.
    + apply strstr_spec in Es. destruct (Hline Es) as [Hstart Hnum].
      rewrite (proj2 (tracer_key_test line) Hstart).
      destruct (sscanf_TracerPid line) as [pid |] eqn:Ep; [| contradiction].
      rewrite (sscanf_atoi _ _ Ep).
      destruct (pid =? 0); cbn [negb].
      * split; [discriminate |].
        cbn [List.length]. intros Hone. apply status_loop_no_key.
        destruct (filter _ rest); [reflexivity | cbn in Hone; lia].
      * split; reflexivity.
    + destruct (strncmp line "TracerPid:" 10 =? 0) eqn:En.
      * apply tracer_key_test, key_at_start_is_found in En. congruence.
      * exact IH.
Qed.

(** X18. The status branch of the obfuscated check and the plain
    tracer-id probe read the same file with different tests.  On a
    status file where the key TracerPid: stands only at the start of a
    line and is followed by a number, a true answer of the plain probe
    is a true answer of the obfuscated one; where at most one line
    holds the key, the two answers are the same. *)
Theorem obfuscated_status_probe_agrees (p : process K) (content : string) :
  Z.rem (clock env (S (ticks p))) 3 = 1 ->
  fopen (fs env) "/proc/self/status" = Some content ->
  Forall (fun line =>
            Substring "TracerPid:" line ->
            StartsWith "TracerPid:" line /\ sscanf_TracerPid line <> None)
         (read_lines 256 content) ->
  (Java_com_example_raspsdk_DebuggerDetection_nativeDebuggerCheck (fs env)
   = JNI_TRUE ->
   fst (check_debugger_obfuscated env p) = Some true)
  /\ ((List.length (filter (fun line => strstr line "TracerPid:")
                           (read_lines 256 content)) <= 1)%nat ->
      fst (check_debugger_obfuscated env p)
      = Some (Java_com_example_raspsdk_DebuggerDetection_nativeDebuggerCheck
                (fs env))).
Proof.
  intros Hsel Hopen Hlines.
  rewrite check_debugger_obfuscated_result.
  unfold selected_probe, status_shows_tracer,
    Java_com_example_raspsdk_DebuggerDetection_nativeDebuggerCheck.
  rewrite Hsel, Hopen. change (1 =? 0) with false. change (1 =? 1) with true.
  cbv iota. exact (status_loop_agrees _ Hlines).
Qed.

Hypothesis contract : ptrace_contract K.
Hypothesis refused : self_detach_refused K.

(** X19. The ptrace branch of the obfuscated check, run after a
    hardening call whose trace-me request was granted, reports a
    debugger although none is attached: its own request is refused with
    EPERM.  Its detach is refused as well, so the process stays traced
    on its own request. *)
Theorem obfuscated_check_after_hardening (p : process K) :
  fst (Java_com_example_raspsdk_RASP_nativeHardenSystem p) = JNI_TRUE ->
  fst (sys_ptrace K PTRACE_TRACEME
         (snd (sys_prctl_set_dumpable K 0 (kern p)))) = Done ->
  Z.rem (clock env
           (S (ticks (snd (Java_com_example_raspsdk_RASP_nativeHardenSystem p)))))
        3 = 0 ->
  fst (check_debugger_obfuscated
         env (snd (Java_com_example_raspsdk_RASP_nativeHardenSystem p)))
  = Some true
  /\ tracing_of K
       (kern (snd (check_debugger_obfuscated
                     env (snd (Java_com_example_raspsdk_RASP_nativeHardenSystem p)))))
     = TraceRequested.
Proof.
  intros Hok Hgrant Hsel.
  pose proof (nativeHardenSystem_granted K contract p Hok Hgrant) as Ht.
  assert (Hne : tracing_of K
                  (kern (snd (Java_com_example_raspsdk_RASP_nativeHardenSystem p)))
                <> Untraced) by (rewrite Ht; discriminate).
  destruct (sys_ptrace K PTRACE_TRACEME
              (kern (snd (Java_com_example_raspsdk_RASP_nativeHardenSystem p))))
    as [r k1] eqn:Hr.
  pose proof (traceme_when_traced K contract _ _ _ Hne Hr) as Hf. subst r.
  split.
  - rewrite check_debugger_obfuscated_result.
    unfold selected_probe. rewrite Hsel. change (0 =? 0) with true. cbv iota.
    unfold traceme_is_refused. now rewrite Hr.
  - rewrite (obfuscated_ptrace_branch_status K env contract refused _ Hsel), Hr.
    cbn [snd].
    rewrite (failed_request_changes_nothing K contract _ _ _ _ Hr). exact Ht.
Qed.

End ObfuscatedBeside.

(** ** The theorems of Part III at work on the fixtures *)

Section WitnessesRest.
Import Kernel CLib NativeLib NativeLibRest Obfuscator ObfuscatorRest.
Import Spec SpecRest Fixtures FixturesRest.
Local Open Scope list_scope.

Lemma linux_prctl_keeps_tracing : prctl_keeps_tracing Linux.kernel.
Proof.
  intros arg k. cbn [sys_prctl_set_dumpable tracing_of Linux.kernel].
  unfold Linux.do_prctl_set_dumpable.
  destruct (Linux.dumpable_refused k); [reflexivity |].
  destruct (_ || _); reflexivity.
Qed.

Lemma hook_scan_first_match_witness :
  exists content before line after,
    fopen (single_file "/proc/self/maps" maps_with_frida) "/proc/self/maps"
    = Some content /\
    read_lines 1024 content = before ++ line :: after /\
    (forall l, In l before -> NoneIn suspicious_libs l) /\
    FirstIn suspicious_libs line "frida".
Proof.
  apply (proj1 (hook_scan_first_match
                  (single_file "/proc/self/maps" maps_with_frida) "frida")).
  vm_compute. reflexivity.
Defined.

Lemma frida_scan_within_hook_scan_witness :
  fst (Java_com_example_raspsdk_HookDetection_nativeHookCheck
         (single_file "/proc/self/maps" maps_with_frida)) = JNI_TRUE.
Proof.
  apply (proj2 (frida_scan_within_hook_scan
                  (single_file "/proc/self/maps" maps_with_frida))).
  vm_compute. reflexivity.
Defined.

Lemma root_check_complete_witness :
  Java_com_example_raspsdk_RootDetection_nativeRootCheck su_fs = JNI_TRUE.
Proof.
  apply (proj2 (proj2 (root_check_complete su_fs)) "/system/xbin/su").
  - right. left. reflexivity.
  - reflexivity.
Defined.

Lemma inline_hook_check_bytes_witness :
  Java_com_example_raspsdk_HookDetection_nativeInlineHookCheck code_with_jmp_then_ff
  = Java_com_example_raspsdk_HookDetection_nativeInlineHookCheck code_with_jmp.
Proof.
  apply (proj2 (inline_hook_check_bytes code_with_jmp)).
  intros i Hi. do 4 (destruct i as [| i]; [reflexivity |]). lia.
Defined.

Lemma breakpoint_scan_complete_witness :
  Java_com_example_raspsdk_TamperDetection_nativeBreakpointScan
    (window_with_int3 4095) = JNI_TRUE.
Proof.
  apply (proj2 (breakpoint_scan_complete (window_with_int3 4095))).
  left. exists 4095%nat. split; [apply Nat.ltb_lt; reflexivity | reflexivity].
Defined.

Lemma breakpoint_scan_window_only_witness :
  Java_com_example_raspsdk_TamperDetection_nativeBreakpointScan
    (window_with_int3_then_ff 100)
  = Java_com_example_raspsdk_TamperDetection_nativeBreakpointScan
      (window_with_int3 100).
Proof.
  apply (breakpoint_scan_window_only (window_with_int3 100)
                                     (window_with_int3_then_ff 100)).
  intros i Hi. unfold window_with_int3, window_with_int3_then_ff.
  destruct (Nat.eqb i 100); [reflexivity |].
  apply Nat.leb_gt in Hi. now rewrite Hi.
Defined.

Lemma decrypt_string_seed_low_byte_witness :
  decrypt_string [x41; x00; xff] 5 = decrypt_string [x41; x00; xff] 261
  /\ List.length (decrypt_string [x41; x00; xff] 5) = 3%nat.
Proof.
  apply (decrypt_string_seed_low_byte [x41; x00; xff] 5 261). reflexivity.
Defined.

Lemma decrypt_native_string_round_trip_witness :
  fst (decrypt_native_string (quiet_env 0) (encrypt_native [x41; x00; xff] 0)
         (Linux.start (Linux.fresh Untraced)))
  = [x41; x00; xff].
Proof.
  exact (proj2 (decrypt_native_string_round_trip
                  (quiet_env 0) (Linux.start (Linux.fresh Untraced)))
               [x41; x00; xff]).
Defined.

Lemma emulator_check_paths_witness :
  fst (Java_com_example_raspsdk_NativeObfuscator_b
         emulator_env (Linux.start (Linux.fresh Untraced))) = JNI_TRUE.
Proof.
  apply (proj2 (emulator_check_paths Linux.kernel emulator_env
                  (Linux.start (Linux.fresh Untraced)))).
  exists "/dev/socket/qemud"%string. split; [| reflexivity].
  right. right. right. left. reflexivity.
Defined.

Lemma native_string_export_round_trip_witness :
  fst (Java_com_example_raspsdk_NativeObfuscator_c
         (quiet_env 0) (encrypt_native [x41; x42] 0)
         (Linux.start (Linux.fresh Untraced)))
  = [x41; x42].
Proof.
  apply (proj2 (native_string_export_round_trip
                  Linux.kernel (quiet_env 0) [x41; x42]
                  (Linux.start (Linux.fresh Untraced)))).
  repeat constructor; discriminate.
Defined.

Lemma signal_query_sources_witness :
  (exists before signum after,
      [SignalLatch.Call SignalLatch.nativeSignalCheck;
       SignalLatch.Signal SignalLatch.SIGTRAP]
      = before ++ SignalLatch.Signal signum :: after
      /\ (signum = SignalLatch.SIGTRAP \/ signum = SignalLatch.SIGCONT)
      /\ In (SignalLatch.Call SignalLatch.nativeSignalCheck) before
      /\ SignalLatch.alive (SignalLatch.run before SignalLatch.boot) = true)
  /\ fst (SignalLatch.Java_com_example_raspsdk_DebuggerDetection_nativeSignalCheck
            (SignalLatch.run
               [SignalLatch.Signal SignalLatch.SIGCONT;
                SignalLatch.Signal SignalLatch.SIGSTOP]
               SignalLatch.boot)) = JNI_FALSE.
Proof.
  split.
  - apply (proj1 (signal_query_sources
                    [SignalLatch.Call SignalLatch.nativeSignalCheck;
                     SignalLatch.Signal SignalLatch.SIGTRAP])).
    reflexivity.
  - apply (proj2 (signal_query_sources
                    [SignalLatch.Signal SignalLatch.SIGCONT;
                     SignalLatch.Signal SignalLatch.SIGSTOP])).
    intros [H | [H | H]]; [discriminate H | discriminate H | exact H].
Defined.

Lemma last_trap_handler_wins_witness :
  SignalLatch.alive
    (SignalLatch.run [SignalLatch.Call SignalLatch.NativeObfuscator_e;
                      SignalLatch.Signal SignalLatch.SIGTRAP]
                     SignalLatch.boot) = false
  /\ SignalLatch.debugger_detected
       (SignalLatch.run [SignalLatch.Call SignalLatch.NativeObfuscator_e;
                         SignalLatch.Call SignalLatch.nativeSignalCheck;
                         SignalLatch.Signal SignalLatch.SIGTRAP]
                        SignalLatch.boot) = 1.
Proof.
  destruct (last_trap_handler_wins SignalLatch.boot eq_refl)
    as ((H1 & _) & _ & (_ & H2)).
  split; [exact H1 | exact H2].
Defined.

Lemma harden_then_probe_reports_witness :
  fst (Java_com_example_raspsdk_DebuggerDetection_nativePtraceCheck
         (snd (Java_com_example_raspsdk_RASP_nativeHardenSystem
                 (Linux.start (Linux.fresh Untraced))))) = JNI_TRUE
  /\ fst (Java_com_example_raspsdk_RASP_nativeHardenSystem
            (snd (Java_com_example_raspsdk_RASP_nativeHardenSystem
                    (Linux.start (Linux.fresh Untraced))))) = JNI_FALSE.
Proof.
  destruct (harden_then_probe_reports
              Linux.kernel linux_ptrace_contract
              (Linux.start (Linux.fresh Untraced)) eq_refl eq_refl)
    as (H1 & _ & H3).
  split; [exact H1 | exact (H3 linux_prctl_keeps_tracing)].
Defined.


Lemma timing_check_threshold_witness :
  fst (Java_com_example_raspsdk_DebuggerDetection_nativeTimingCheck
         (reading 10 999000000) (reading 11 0)) = JNI_FALSE
  /\ fst (Java_com_example_raspsdk_DebuggerDetection_nativeTimingCheck
            (reading 10 999000000) (reading 11 1)) = JNI_TRUE.
Proof.
  split.
  - apply (proj2 (timing_check_threshold (reading 10 999000000) (reading 11 0)
                    ltac:(unfold plausible; cbn; lia)
                    ltac:(unfold plausible; cbn; lia))).
    unfold elapsed_ns. cbn. lia.
  - apply (proj1 (timing_check_threshold (reading 10 999000000) (reading 11 1)
                    ltac:(unfold plausible; cbn; lia)
                    ltac:(unfold plausible; cbn; lia))).
    unfold elapsed_ns. cbn. lia.
Defined.

Lemma random_delay_bounds_witness :
  1000 <= Java_com_example_raspsdk_RASP_nativeRandomDelay 2147483647 <= 100000
  /\ Java_com_example_raspsdk_RASP_nativeRandomDelay 2147483647 mod 1000 = 0.
Proof.
  apply (random_delay_bounds 2147483647). unfold RAND_MAX. lia.
Defined.

Lemma obfuscated_status_probe_agrees_witness :
  fst (check_debugger_obfuscated
         (status_env "1234" 1) (Linux.start (Linux.fresh Untraced)))
  = Some (Java_com_example_raspsdk_DebuggerDetection_nativeDebuggerCheck
            (fs (status_env "1234" 1))).
Proof.
  apply (proj2 (obfuscated_status_probe_agrees
                  Linux.kernel (status_env "1234" 1)
                  (Linux.start (Linux.fresh Untraced))
                  (status_of "1234") eq_refl eq_refl
                  ltac:(
                    let l := eval vm_compute in (read_lines 256 (status_of "1234")) in
                    change (read_lines 256 (status_of "1234")) with l;
                    repeat (apply Forall_cons;
                            [ intros Hs;
                              first [ exfalso; apply strstr_spec in Hs;
                                      vm_compute in Hs; discriminate Hs
                                    | split; [ apply prefix_spec; reflexivity
                                             | vm_compute; discriminate ] ]
                            | ]);
                    apply Forall_nil))).
  apply Nat.leb_le. vm_compute. reflexivity.
Defined.

Lemma obfuscated_check_after_hardening_witness :
  fst (check_debugger_obfuscated
         (quiet_env 0)
         (snd (Java_com_example_raspsdk_RASP_nativeHardenSystem
                 (Linux.start (Linux.fresh Untraced))))) = Some true
  /\ tracing_of Linux.kernel
       (kern (snd (check_debugger_obfuscated
                     (quiet_env 0)
                     (snd (Java_com_example_raspsdk_RASP_nativeHardenSystem
                             (Linux.start (Linux.fresh Untraced)))))))
     = TraceRequested.
Proof.
  exact (obfuscated_check_after_hardening
           Linux.kernel (quiet_env 0)
           linux_ptrace_contract linux_self_detach_refused
           (Linux.start (Linux.fresh Untraced)) eq_refl eq_refl eq_refl).
Defined.

End WitnessesRest.
